(** * ReefBuddy store-asset scripts: a shallow embedding and its properties

    Two standalone scripts are modelled here:

    - [resize-screenshots.py] (module [Resize]): loads one picture and writes a
      copy of it at each of four registered App Store sizes, reopening every
      written file to check its dimensions;
    - [generate-store-assets.py] (module [Assets]): paints the app icon and four
      mock screens on a fresh canvas of the requested size, and saves the icon
      and the four screens at each of five device sizes.

    Python integers are [Z], Python floats are IEEE binary64 values
    ([spec_float] with precision 53), dictionaries that are only iterated are
    association lists in insertion order, paths go through [pathlib]'s
    normal form, the file system is a finite map from such paths to nodes,
    and exceptions are an explicit [Raise] result. *)

From Stdlib Require Import ZArith Lia Strings.Ascii.
From Stdlib Require Import Floats.SpecFloat.
From stdpp Require Import base gmap strings list.

Local Open Scope Z_scope.

(** ** Python control flow *)

(** An exception is identified by the name of its class. Only subclasses of
    [Exception] are modelled, so [except Exception] and a bare [except]
    catch every [exn]. *)
Inductive exn := PyExc (name : string).

Definition exn_name (e : exn) : string :=
  match e with PyExc name => name end.

(** [OSError] and its subclasses, for [except OSError]. *)
Definition OSError_classes : list string :=
  [ "OSError"; "BlockingIOError"; "ChildProcessError"; "ConnectionError";
    "BrokenPipeError"; "ConnectionAbortedError"; "ConnectionRefusedError";
    "ConnectionResetError"; "FileExistsError"; "FileNotFoundError";
    "InterruptedError"; "IsADirectoryError"; "NotADirectoryError";
    "PermissionError"; "ProcessLookupError"; "TimeoutError" ].

Definition is_OSError (e : exn) : bool :=
  existsb (String.eqb (exn_name e)) OSError_classes.

Definition is_FileNotFoundError (e : exn) : bool :=
  String.eqb (exn_name e) "FileNotFoundError".

Inductive outcome (A : Type) :=
  | Ok (a : A)
  | Raise (e : exn).
Arguments Ok {A} a.
Arguments Raise {A} e.

Definition is_ok {A} (r : outcome A) : bool :=
  match r with Ok _ => true | Raise _ => false end.

#[global] Instance outcome_ret : MRet outcome := fun A a => Ok a.

#[global] Instance outcome_bind : MBind outcome := fun A B k r =>
  match r with
  | Ok a => k a
  | Raise e => Raise e
  end.

(** Truthiness of an optional string, as in [if output_dir:]: [None] and the
    empty string are false. *)
Definition truthy (s : option string) : bool :=
  match s with
  | None => false
  | Some s => negb (String.eqb s EmptyString)
  end.

(** ** Paths, as [pathlib] reads and writes them

    [Path(s)] keeps a root ([/], or [//] for exactly two leading slashes) and
    the components between the separators, dropping empty ones and [.];
    [..] is kept as it is. [str] writes the path back, [.] for the empty
    relative path. *)
Fixpoint split_sep (s : string) : list string :=
  match s with
  | EmptyString => [EmptyString]
  | String c s' =>
      if Ascii.eqb c "/" then EmptyString :: split_sep s'
      else match split_sep s' with
           | x :: xs => String c x :: xs
           | [] => [String c EmptyString]
           end
  end.

(** The number of leading separators and what follows them. *)
Fixpoint lstrip_sep (s : string) : nat * string :=
  match s with
  | String c s' =>
      if Ascii.eqb c "/" then (S (lstrip_sep s').1, (lstrip_sep s').2) else (0%nat, s)
  | EmptyString => (0%nat, s)
  end.

Record PurePath := mkPath { root : string; parts : list string }.

Definition is_part (x : string) : bool :=
  negb (String.eqb x EmptyString) && negb (String.eqb x ".").

Definition parse (s : string) : PurePath :=
  let stripped := lstrip_sep s in
  mkPath (match stripped.1 with
          | 0%nat => EmptyString
          | 2%nat => "//"
          | _ => "/"
          end)
         (List.filter is_part (split_sep stripped.2)).

Fixpoint join_sep (xs : list string) : string :=
  match xs with
  | [] => EmptyString
  | [x] => x
  | x :: xs' => x +:+ "/" +:+ join_sep xs'
  end.

Definition str (p : PurePath) : string :=
  match root p, parts p with
  | EmptyString, [] => "."
  | r, ps => r +:+ join_sep ps
  end.

(** [str(Path(s))] *)
Definition Path (s : string) : string := str (parse s).

(** [p / name] *)
Definition truediv (p : PurePath) (name : string) : PurePath :=
  let q := parse name in
  if String.eqb (root q) EmptyString then mkPath (root p) (parts p ++ parts q) else q.

(** [str(Path(dir) / name)] *)
Definition path_join (dir name : string) : string := str (truediv (parse dir) name).

(** A path and the directories above it, innermost first, given the
    components of the path in reverse order. The root and the current
    directory are not listed. *)
Fixpoint lineage_rev (r : string) (rparts : list string) : list string :=
  match rparts with
  | [] => []
  | _ :: up => str (mkPath r (rev rparts)) :: lineage_rev r up
  end.

Definition lineage (p : string) : list string :=
  lineage_rev (root (parse p)) (rev (parts (parse p))).

Definition ancestors (p : string) : list string :=
  lineage_rev (root (parse p)) (tail (rev (parts (parse p)))).

(** The root and the current directory. *)
Definition is_anchor (p : string) : bool :=
  match parts (parse p) with
  | [] => true
  | _ => false
  end.

(** Paths in the form [parse] gives them. *)
Fixpoint sep_free (s : string) : bool :=
  match s with
  | EmptyString => true
  | String c s' => negb (Ascii.eqb c "/") && sep_free s'
  end.

Definition good_part (x : string) : bool := is_part x && sep_free x.

Definition wf_path (p : PurePath) : Prop :=
  (root p = EmptyString \/ root p = "/" \/ root p = "//")
  /\ Forall (fun x => good_part x = true) (parts p).

(** ** The screenshot resizer *)
Module Resize.

(** A decoded picture: its [size] attribute and its raster, which the
    properties below never inspect. *)
Record Image := mkImage { size : Z * Z; raster : N }.

(** What a path names: a directory, a file PIL can identify, or any other
    file. *)
Inductive node :=
  | Dir
  | Picture (im : Image)
  | Blob.

(** The lines the script prints: one constructor per message, the fixed
    lines of the banner and of the usage text taken together. *)
Inductive message :=
  | MsgNotFound (path : string)
  | MsgLoaded (path : string) (w h : Z)
  | MsgLoadError (e : exn)
  | MsgCreated (path : string) (w h : Z)
  | MsgWrongSize (path : string) (sz : Z * Z)
  | MsgCreateError (path : string) (e : exn)
  | MsgSummary (count total : Z)
  | MsgOutputDir (dir : string)
  | MsgUsage
  | MsgUsageLine (size_name : string) (w h : Z)
  | MsgBanner (input view_name : string).

(** The calls that reach PIL or the file system, and what is printed, in
    program order. [MkdirCall] is the one call of [Path.mkdir]. Standard
    output is taken to accept every line. *)
Inductive event :=
  | Printed (m : message)
  | MkdirCall (path : string)
  | OpenCall (path : string)
  | ResizeCall (sz : Z * Z)
  | SaveCall (path : string).

(** [fs] maps a path, written as [str(Path(...))] writes it, to what it
    names. Two different keys stand for two different files: there are no
    links, a [..] step is an ordinary name, and relative and absolute
    names are kept apart. *)
Record World := mkWorld { fs : gmap string node; trace : list event }.

(** The behaviour of PIL and of the operating system that the script cannot
    control: which calls fail, beyond what the file system itself decides;
    what LANCZOS resampling computes; what decoding a freshly written PNG
    gives back; and whether a failed save leaves a truncated file behind. *)
Record Env := mkEnv {
  open_error : string -> option exn;
  mkdir_error : string -> option exn;
  save_error : string -> option exn;
  resample : Image -> Z * Z -> outcome N;
  png_reread : Image -> Image;
  stat_error : string -> option exn;
  save_spoils : string -> bool;
}.

(** App Store screenshot sizes (width, height), in insertion order. *)
Definition SCREENSHOT_SIZES : list (string * (Z * Z)) :=
  [ ("iphone_67_portrait", (1284, 2778));
    ("iphone_67_landscape", (2778, 1284));
    ("iphone_65_portrait", (1242, 2688));
    ("iphone_65_landscape", (2688, 1242)) ].

(** State-and-exception monad: the world survives a raised exception. *)
Definition M (A : Type) : Type := World -> outcome A * World.

#[global] Instance M_ret : MRet M := fun A a w => (Ok a, w).

#[global] Instance M_bind : MBind M := fun A B k m w =>
  match m w with
  | (Ok a, w') => k a w'
  | (Raise e, w') => (Raise e, w')
  end.

Definition try_except {A} (body : M A) (handler : exn -> M A) : M A := fun w =>
  match body w with
  | (Ok a, w') => (Ok a, w')
  | (Raise e, w') => handler e w'
  end.

Definition emit (ev : event) : M unit := fun w =>
  (Ok tt, mkWorld (fs w) (trace w ++ [ev])).

Definition print (m : message) : M unit := emit (Printed m).

(** [for x in xs:] with one loop-carried variable. *)
Fixpoint for_each {A S} (xs : list A) (body : S -> A -> M S) (s : S) : M S :=
  match xs with
  | [] => mret s
  | x :: xs' => s' ← body s x; for_each xs' body s'
  end.

(** *** The file system *)

(** What a path names; the root and the current directory are always
    there. *)
Definition lookup_path (m : gmap string node) (p : string) : option node :=
  match m !! p with
  | Some n => Some n
  | None => if is_anchor p then Some Dir else None
  end.

(** The same for a path given by its root and reversed components. *)
Definition node_at (m : gmap string node) (r : string) (rparts : list string)
    : option node :=
  match m !! str (mkPath r (rev rparts)) with
  | Some n => Some n
  | None => match rparts with [] => Some Dir | _ => None end
  end.

(** A file system in which whatever exists sits in directories. *)
Definition is_tree (m : gmap string node) : Prop :=
  forall p n, m !! p = Some n -> forall q, q ∈ ancestors p -> m !! q = Some Dir.

(** [m'] is [m] with directories added at some of the paths [qs], and
    nothing else changed. *)
Definition adds_dirs (qs : list string) (m m' : gmap string node) : Prop :=
  forall q, m' !! q = m !! q \/ (m !! q = None /\ m' !! q = Some Dir /\ q ∈ qs).

(** Walking down to a path: the first step that is missing or is not a
    directory stops the walk. [up] holds the components of the parent in
    reverse order. *)
Fixpoint walk (m : gmap string node) (r : string) (up : list string) : option exn :=
  match up with
  | [] => None
  | _ :: up' =>
      match walk m r up' with
      | Some e => Some e
      | None =>
          match m !! str (mkPath r (rev up)) with
          | Some Dir => None
          | Some _ => Some (PyExc "NotADirectoryError")
          | None => Some (PyExc "FileNotFoundError")
          end
      end
  end.

Section WithEnv.
Context (env : Env).

(** [Path.exists()]: [os.stat] errors other than a missing file or a
    non-directory on the way are raised. *)
Definition path_exists (p : string) : M bool := fun w =>
  match lookup_path (fs w) p with
  | Some _ => (Ok true, w)
  | None =>
      match stat_error env p with
      | Some e => (Raise e, w)
      | None => (Ok false, w)
      end
  end.

(** [os.mkdir(p)] *)
Definition os_mkdir (r : string) (rparts : list string) (m : gmap string node)
    : outcome unit * gmap string node :=
  let self := str (mkPath r (rev rparts)) in
  match walk m r (tail rparts) with
  | Some e => (Raise e, m)
  | None =>
      match mkdir_error env self with
      | Some e => (Raise e, m)
      | None =>
          match node_at m r rparts with
          | Some _ => (Raise (PyExc "FileExistsError"), m)
          | None => (Ok tt, <[self := Dir]> m)
          end
      end
  end.

(** [Path.is_dir()] *)
Definition is_dir (r : string) (rparts : list string) (m : gmap string node)
    : outcome bool :=
  match node_at m r rparts with
  | Some Dir => Ok true
  | Some _ => Ok false
  | None =>
      match stat_error env (str (mkPath r (rev rparts))) with
      | Some e => Raise e
      | None => Ok false
      end
  end.

(** [except OSError: if not exist_ok or not self.is_dir(): raise], with
    [exist_ok] true. *)
Definition exist_ok_handler (e : exn) (r : string) (rparts : list string)
    (m : gmap string node) : outcome unit * gmap string node :=
  if is_OSError e then
    match is_dir r rparts m with
    | Ok true => (Ok tt, m)
    | Ok false => (Raise e, m)
    | Raise e' => (Raise e', m)
    end
  else (Raise e, m).

(** [Path.mkdir(parents=False, exist_ok=True)] *)
Definition mkdir_exist_ok (r : string) (rparts : list string) (m : gmap string node)
    : outcome unit * gmap string node :=
  match os_mkdir r rparts m with
  | (Ok _, m1) => (Ok tt, m1)
  | (Raise e, m1) =>
      if is_FileNotFoundError e then (Raise e, m1)
      else exist_ok_handler e r rparts m1
  end.

(** [Path.mkdir(parents=True, exist_ok=True)], as [pathlib] defines it: try
    [os.mkdir]; on [FileNotFoundError] make the parent in the same way and
    try once more; on another [OSError] the path has to be a directory. *)
Fixpoint pathlib_mkdir (r : string) (rparts : list string) (m : gmap string node)
    : outcome unit * gmap string node :=
  match os_mkdir r rparts m with
  | (Ok _, m1) => (Ok tt, m1)
  | (Raise e, m1) =>
      if is_FileNotFoundError e then
        match rparts with
        | [] => (Raise e, m1)
        | _ :: up =>
            match pathlib_mkdir r up m1 with
            | (Ok _, m2) => mkdir_exist_ok r rparts m2
            | (Raise e', m2) => (Raise e', m2)
            end
        end
      else exist_ok_handler e r rparts m1
  end.

Definition Path_mkdir (p : string) (m : gmap string node)
    : outcome unit * gmap string node :=
  pathlib_mkdir (root (parse p)) (rev (parts (parse p))) m.

Definition mkdir_parents_exist_ok (p : string) : M unit := fun w =>
  let '(r, m) := Path_mkdir p (fs w) in
  (r, mkWorld m (trace w ++ [MkdirCall p])).

(** [Image.open(path)]: the file is identified, its pixel data are not read
    yet. *)
Definition Image_open (p : string) : M Image := fun w =>
  let w1 := mkWorld (fs w) (trace w ++ [OpenCall p]) in
  match open_error env p with
  | Some e => (Raise e, w1)
  | None =>
      match lookup_path (fs w) p with
      | Some (Picture im) => (Ok im, w1)
      | Some Dir => (Raise (PyExc "IsADirectoryError"), w1)
      | Some Blob => (Raise (PyExc "UnidentifiedImageError"), w1)
      | None => (Raise (PyExc "FileNotFoundError"), w1)
      end
  end.

(** [img.resize((width, height), Image.Resampling.LANCZOS)]: the pixel data
    are decoded here, and the returned picture has the requested size. *)
Definition Image_resize (img : Image) (sz : Z * Z) : M Image := fun w =>
  let w1 := mkWorld (fs w) (trace w ++ [ResizeCall sz]) in
  match resample env img sz with
  | Ok r => (Ok (mkImage sz r), w1)
  | Raise e => (Raise e, w1)
  end.

(** [img.save(path, 'PNG', optimize=True)]. PIL opens the file for writing
    before it encodes, so a save that fails may leave an empty or partial
    file; [save_spoils] says where it does. *)
Definition Image_save (img : Image) (p : string) : M unit := fun w =>
  let w1 := mkWorld (fs w) (trace w ++ [SaveCall p]) in
  match save_error env p with
  | Some e =>
      (Raise e,
       mkWorld (if save_spoils env p then <[p := Blob]> (fs w) else fs w) (trace w1))
  | None => (Ok tt, mkWorld (<[p := Picture (png_reread env img)]> (fs w)) (trace w1))
  end.

Definition size_eqb (a b : Z * Z) : bool :=
  (a.1 =? b.1) && (a.2 =? b.2).

Definition output_name (size_name view_name : string) : string :=
  size_name +:+ "_" +:+ view_name +:+ ".png".

(** The body of the [for] loop of [resize_screenshot]. *)
Definition resize_one (img : Image) (output_dir view_name : string)
    (success_count : Z) (target : string * (Z * Z)) : M Z :=
  let '(size_name, (width, height)) := target in
  let output_path := path_join output_dir (output_name size_name view_name) in
  try_except
    (resized ← Image_resize img (width, height);
     _ ← Image_save resized output_path;
     verify ← Image_open output_path;
     if size_eqb (size verify) (width, height) then
       _ ← print (MsgCreated output_path width height);
       mret (success_count + 1)
     else
       _ ← print (MsgWrongSize output_path (size verify));
       mret success_count)
    (fun e =>
       _ ← print (MsgCreateError output_path e);
       mret success_count).

Definition default_output_dir : string := "assets/upload-store/real-screenshots".

Definition resize_screenshot (input_path : string) (output_dir : option string)
    (view_name : string) : M bool :=
  let input_path := Path input_path in
  found ← path_exists input_path;
  if negb found then
    _ ← print (MsgNotFound input_path);
    mret false
  else
    loaded ← try_except
      (img ← Image_open input_path;
       _ ← print (MsgLoaded input_path (size img).1 (size img).2);
       mret (Some img))
      (fun e =>
         _ ← print (MsgLoadError e);
         mret None);
    match loaded with
    | None => mret false
    | Some img =>
        let output_dir :=
          if truthy output_dir then Path (default EmptyString output_dir)
          else Path default_output_dir in
        _ ← mkdir_parents_exist_ok output_dir;
        success_count ← for_each SCREENSHOT_SIZES (resize_one img output_dir view_name) 0;
        _ ← print (MsgSummary success_count (Z.of_nat (length SCREENSHOT_SIZES)));
        _ ← print (MsgOutputDir output_dir);
        mret (success_count =? Z.of_nat (length SCREENSHOT_SIZES))
    end.

(** [main]: the result is the process exit status passed to [sys.exit]. *)
Definition main (argv : list string) : M Z :=
  if (Z.of_nat (length argv) <? 2) then
    _ ← print MsgUsage;
    _ ← for_each SCREENSHOT_SIZES
          (fun (_ : unit) '(size_name, (w, h)) => print (MsgUsageLine size_name w h)) tt;
    mret 1
  else
    let input_file := default EmptyString (argv !! 1%nat) in
    let view_name := if (2 <? Z.of_nat (length argv)) then default EmptyString (argv !! 2%nat) else "screenshot" in
    let output_dir := if (3 <? Z.of_nat (length argv)) then argv !! 3%nat else None in
    _ ← print (MsgBanner input_file view_name);
    success ← resize_screenshot input_file output_dir view_name;
    mret (if (success : bool) then 0 else 1).

(** *** What one run of the loop body amounts to

    The declarative reading of one target, used to state the properties of the
    batch: the path it is written to, the picture that reaches the disk, the
    first exception raised inside the [try] block, and whether the reopened
    file has the registered size. *)
Section Batch.
Context (img : Image) (output_dir view_name : string).

Definition target_path (t : string * (Z * Z)) : string :=
  path_join output_dir (output_name t.1 view_name).

Definition written (t : string * (Z * Z)) : option Image :=
  match resample env img t.2 with
  | Ok r =>
      match save_error env (target_path t) with
      | None => Some (png_reread env (mkImage t.2 r))
      | Some _ => None
      end
  | Raise _ => None
  end.

Definition step_error (t : string * (Z * Z)) : option exn :=
  match resample env img t.2 with
  | Raise e => Some e
  | Ok _ =>
      match save_error env (target_path t) with
      | Some e => Some e
      | None => open_error env (target_path t)
      end
  end.

Definition verifies (t : string * (Z * Z)) : bool :=
  match written t, open_error env (target_path t) with
  | Some back, None => size_eqb (size back) t.2
  | _, _ => false
  end.

(** What the step leaves at the target's path, if it writes there at all:
    the saved picture, or the remains of a save that failed half way. *)
Definition step_node (t : string * (Z * Z)) : option node :=
  match resample env img t.2 with
  | Ok r =>
      match save_error env (target_path t) with
      | None => Some (Picture (png_reread env (mkImage t.2 r)))
      | Some _ => if save_spoils env (target_path t) then Some Blob else None
      end
  | Raise _ => None
  end.

Definition step_fs (m : gmap string node) (t : string * (Z * Z)) : gmap string node :=
  match step_node t with
  | Some n => <[target_path t := n]> m
  | None => m
  end.

Definition step_events (t : string * (Z * Z)) : list event :=
  let path := target_path t in
  ResizeCall t.2 ::
  match resample env img t.2 with
  | Raise e => [Printed (MsgCreateError path e)]
  | Ok r =>
      SaveCall path ::
      match save_error env path with
      | Some e => [Printed (MsgCreateError path e)]
      | None =>
          OpenCall path ::
          match open_error env path with
          | Some e => [Printed (MsgCreateError path e)]
          | None =>
              let back := png_reread env (mkImage t.2 r) in
              if size_eqb (size back) t.2
              then [Printed (MsgCreated path t.2.1 t.2.2)]
              else [Printed (MsgWrongSize path (size back))]
          end
      end
  end.

Definition verified_count (ts : list (string * (Z * Z))) : Z :=
  Z.of_nat (length (List.filter verifies ts)).

End Batch.

(** The directory [resize_screenshot] settles on. *)
Definition resolve_output_dir (output_dir : option string) : string :=
  if truthy output_dir then Path (default EmptyString output_dir)
  else Path default_output_dir.

(** [mkdir] goes through, and the file system it leaves, whether it does or
    not. *)
Definition mkdir_succeeds (m : gmap string node) (dir : string) : bool :=
  is_ok (Path_mkdir dir m).1.

Definition mkdir_fs (m : gmap string node) (dir : string) : gmap string node :=
  (Path_mkdir dir m).2.

End WithEnv.

(** Projections of a trace. *)
Definition resize_calls (tr : list event) : list (Z * Z) :=
  omap (fun ev => match ev with ResizeCall sz => Some sz | _ => None end) tr.

Definition save_calls (tr : list event) : list string :=
  omap (fun ev => match ev with SaveCall p => Some p | _ => None end) tr.

Definition mkdir_calls (tr : list event) : list string :=
  omap (fun ev => match ev with MkdirCall p => Some p | _ => None end) tr.

Definition open_calls (tr : list event) : list string :=
  omap (fun ev => match ev with OpenCall p => Some p | _ => None end) tr.

(** The paths reported as created. *)
Definition created_lines (tr : list event) : list string :=
  omap (fun ev => match ev with Printed (MsgCreated p _ _) => Some p | _ => None end) tr.

(** The paths of the per-target status lines: created, wrong size, error. *)
Definition status_lines (tr : list event) : list string :=
  omap (fun ev =>
          match ev with
          | Printed (MsgCreated p _ _) => Some p
          | Printed (MsgWrongSize p _) => Some p
          | Printed (MsgCreateError p _) => Some p
          | _ => None
          end) tr.

Definition summary_lines (tr : list event) : list (Z * Z) :=
  omap (fun ev => match ev with Printed (MsgSummary c n) => Some (c, n) | _ => None end) tr.

(** The usage text: its fixed lines, then one line per registered size. *)
Definition usage_text : list event :=
  Printed MsgUsage
  :: map (fun t : string * (Z * Z) => Printed (MsgUsageLine t.1 t.2.1 t.2.2)) SCREENSHOT_SIZES.

(** *** Inputs that cannot be used

    A run that gives up before any work: an unsuccessful result, the file
    system as it was found, and no [mkdir], [resize] or [save] call. *)
Definition aborts_before_any_work (env : Env) (input_path : string)
    (output_dir : option string) (view_name : string) (w : World) : Prop :=
  exists w',
    resize_screenshot env input_path output_dir view_name w = (Ok false, w')
    /\ fs w' = fs w
    /\ save_calls (trace w') = save_calls (trace w)
    /\ resize_calls (trace w') = resize_calls (trace w)
    /\ mkdir_calls (trace w') = mkdir_calls (trace w).

(** The input path names nothing. *)
Definition names_nothing (env : Env) (input_path : string) (w : World) : Prop :=
  lookup_path (fs w) (Path input_path) = None /\ stat_error env (Path input_path) = None.

(** [Image.open] raises on the input file. *)
Definition open_refuses (env : Env) (input_path : string) (w : World) : Prop :=
  is_Some (lookup_path (fs w) (Path input_path))
  /\ exists e, (Image_open env (Path input_path) w).1 = Raise e.

(** The input is a file [Image.open] identifies, whose pixel data cannot be
    decoded: reading them raises whatever size is asked for. *)
Definition decode_fails (env : Env) (input_path : string) (w : World) : Prop :=
  exists img,
    fs w !! Path input_path = Some (Picture img)
    /\ open_error env (Path input_path) = None
    /\ forall sz, is_ok (resample env img sz) = false.

(** *** Sample runs

    A 100x200 input picture in an otherwise empty file system, and some
    environments: one where nothing fails and PNG files decode to what was
    saved; one where the save of the third target is refused; one where a
    saved file reads back one column narrower than it was written; one where
    pixel data never decode; and one where [out] can be made but nothing
    inside it. *)
Definition sample_image : Image := mkImage (100, 200) 7%N.

Definition sample_world : World :=
  mkWorld {[ "in.png" := Picture sample_image; "notes.txt" := Blob ]} [].

Definition quiet_env : Env :=
  mkEnv (fun _ => None) (fun _ => None) (fun _ => None)
        (fun _ _ => Ok 0%N) (fun im => im) (fun _ => None) (fun _ => false).

Definition refusing_env : Env :=
  mkEnv (fun _ => None) (fun _ => None)
        (fun p => if String.eqb p "out/iphone_65_portrait_v.png"
                  then Some (PyExc "PermissionError") else None)
        (fun _ _ => Ok 0%N) (fun im => im) (fun _ => None) (fun _ => false).

Definition lossy_env : Env :=
  mkEnv (fun _ => None) (fun _ => None) (fun _ => None)
        (fun _ _ => Ok 0%N)
        (fun im => mkImage ((size im).1 - 1, (size im).2) (raster im))
        (fun _ => None) (fun _ => false).

Definition truncated_env : Env :=
  mkEnv (fun _ => None) (fun _ => None) (fun _ => None)
        (fun _ _ => Raise (PyExc "OSError")) (fun im => im)
        (fun _ => None) (fun _ => false).

Definition half_locked_env : Env :=
  mkEnv (fun _ => None)
        (fun p => if String.eqb p "out/deep"
                  then Some (PyExc "PermissionError") else None)
        (fun _ => None)
        (fun _ _ => Ok 0%N) (fun im => im) (fun _ => None) (fun _ => false).

End Resize.
(** ** Python floats

    A Python [float] is an IEEE binary64 value. A decimal literal denotes the
    double nearest to it, which is also what dividing its digits by the power
    of ten gives, since both are correctly rounded; an [int] that meets a
    [float] in an arithmetic operation is converted first ([of_int]), and
    [int(x)] truncates towards zero. *)
Definition float : Type := spec_float.

Definition of_int (n : Z) : float := binary_normalize 53 1024 n 0 false.
Definition fmul : float -> float -> float := SFmul 53 1024.
Definition fadd : float -> float -> float := SFadd 53 1024.
Definition fdiv : float -> float -> float := SFdiv 53 1024.

Definition float_of_number (n : Number.number) : option spec_float :=
  match n with
  | Number.Decimal (Decimal.Decimal i f) =>
      Some (fdiv (of_int (Z.of_int (Decimal.app_int i f)))
                 (of_int (10 ^ Z.of_nat (Decimal.nb_digits f))))
  | _ => None
  end.

Definition number_of_float (x : spec_float) : option Number.number := None.

Declare Scope pyfloat_scope.
Delimit Scope pyfloat_scope with F.
Number Notation spec_float float_of_number number_of_float : pyfloat_scope.
Bind Scope pyfloat_scope with float.
Coercion of_int : Z >-> float.
Notation "x * y" := (fmul x y) : pyfloat_scope.
Notation "x + y" := (fadd x y) : pyfloat_scope.
Notation "x / y" := (fdiv x y) : pyfloat_scope.

(** [int(x)] for a float [x]. Python raises on infinities and NaN, which the
    product of a canvas dimension (a C int) and one of the fractions below
    never is; they are sent to 0 here. *)
Definition int (x : float) : Z :=
  match x with
  | S754_finite s m e =>
      let a := if 0 <=? e then Z.pos m * 2 ^ e else Z.pos m / 2 ^ (- e) in
      if s then - a else a
  | _ => 0
  end.

(** [enumerate(xs)] and [range(n)]. *)
Fixpoint enumerate_from {A} (i : Z) (xs : list A) : list (Z * A) :=
  match xs with
  | [] => []
  | x :: xs' => (i, x) :: enumerate_from (i + 1) xs'
  end.

Definition enumerate {A} (xs : list A) : list (Z * A) := enumerate_from 0 xs.

Definition range (n : Z) : list Z := seqZ 0 n.

(** ** The asset generator *)
Module Assets.

Definition rgb : Type := Z * Z * Z.

(** Design system colors. *)
Inductive color_name := white | black | aquamarine | orange | gray | light_gray.

Definition COLORS (c : color_name) : rgb :=
  match c with
  | white => (255, 255, 255)
  | black => (0, 0, 0)
  | aquamarine => (0, 255, 209)
  | orange => (255, 61, 0)
  | gray => (128, 128, 128)
  | light_gray => (240, 240, 240)
  end.

(** Device screenshot sizes (width, height), in insertion order. *)
Definition SCREENSHOT_SIZES : list (string * (Z * Z)) :=
  [ ("iphone_67", (1290, 2796));
    ("iphone_65", (1242, 2688));
    ("iphone_55", (1242, 2208));
    ("ipad_129", (2048, 2732));
    ("ipad_11", (1668, 2388)) ].

(** A loaded font: where it came from, its size, and the bounding box it
    gives a text anchored at the origin. Its glyphs are whatever the font
    file holds. *)
Record Font := mkFont {
  font_source : string;
  font_size : Z;
  font_bbox : string -> Z * Z * Z * Z;
}.

(** The fonts of the machine: what [ImageFont.truetype] finds at a path for
    a size, and the font [ImageFont.load_default] returns. *)
Record FontEnv := mkFontEnv {
  truetype : string -> Z -> outcome Font;
  load_default : Font;
}.

(** What a [draw] call paints. *)
Inductive draw_op :=
  | Rectangle (xy : Z * Z * Z * Z) (fill : rgb)
  | Text (xy : Z * Z) (text : string) (font : Font) (fill : rgb)
  | Line (xy : list (Z * Z)) (fill : rgb) (width : Z).

(** A canvas: its pixels are its background overpainted by [painted], in
    order. *)
Record Image := mkImage {
  mode : string;
  size : Z * Z;
  background : rgb;
  painted : list draw_op;
}.

(** [Image.new(mode, size, color)]. A negative side is refused first, in
    Python; the size then goes to the C core as two C ints; and the core
    gives up on a line of more than [INT_MAX / 4 - 1] pixels before it
    allocates anything. Whether the machine has the memory for a canvas it
    accepts is not modelled. *)
Definition Image_new (mode : string) (size : Z * Z) (color : rgb) : outcome Image :=
  if (size.1 <? 0) || (size.2 <? 0) then Raise (PyExc "ValueError")
  else if (2147483647 <? size.1) || (2147483647 <? size.2) then Raise (PyExc "OverflowError")
  else if 536870910 <? size.1 then Raise (PyExc "MemoryError")
  else Ok (mkImage mode size color []).

(** *** Statements that may [return] *)
Inductive completion (A : Type) :=
  | Normal
  | Return (a : A)
  | Raised (e : exn).
Arguments Normal {A}.
Arguments Return {A} a.
Arguments Raised {A} e.

(** [return <call>] *)
Definition return_ {A} (r : outcome A) : completion A :=
  match r with
  | Ok a => Return a
  | Raise e => Raised e
  end.

Definition pass {A} : completion A := Normal.

(** [try: body except: handler] *)
Definition try_ {A} (body : completion A) (handler : exn -> completion A) : completion A :=
  match body with
  | Raised e => handler e
  | c => c
  end.

(** A function body made of statements [c] followed by [return r]. *)
Definition then_return {A} (c : completion A) (r : outcome A) : outcome A :=
  match c with
  | Normal => r
  | Return a => Ok a
  | Raised e => Raise e
  end.

(** *** Drawing on a canvas

    [draw = ImageDraw.Draw(img)] paints on [img] itself: a drawing program is
    a state transformer on the canvas that may raise. *)
Definition Draw (A : Type) : Type := Image -> outcome A * Image.

#[global] Instance Draw_ret : MRet Draw := fun A a img => (Ok a, img).

#[global] Instance Draw_bind : MBind Draw := fun A B k m img =>
  match m img with
  | (Ok a, img') => k a img'
  | (Raise e, img') => (Raise e, img')
  end.

(** A call that does not touch the canvas. *)
Definition lift {A} (r : outcome A) : Draw A := fun img => (r, img).

Definition paint (op : draw_op) : Draw unit := fun img =>
  (Ok tt, mkImage (mode img) (size img) (background img) (painted img ++ [op])).

(** [draw.rectangle(xy, fill=fill)]. Pillow refuses a box whose second corner
    lies left of or above the first. *)
Definition draw_rectangle (xy : Z * Z * Z * Z) (fill : rgb) : Draw unit :=
  let '(x0, y0, x1, y1) := xy in
  if (x1 <? x0) || (y1 <? y0) then lift (Raise (PyExc "ValueError"))
  else paint (Rectangle xy fill).

(** [draw.text(xy, text, font=font, fill=fill)] *)
Definition draw_text (xy : Z * Z) (s : string) (font : Font) (fill : rgb) : Draw unit :=
  paint (Text xy s font fill).

(** [draw.line(xy, fill=fill, width=width)] *)
Definition draw_line (xy : list (Z * Z)) (fill : rgb) (width : Z) : Draw unit :=
  paint (Line xy fill width).

(** [draw.textbbox(xy, text, font=font)] *)
Definition draw_textbbox (xy : Z * Z) (s : string) (font : Font) : Draw (Z * Z * Z * Z) :=
  let box := font_bbox font s in
  mret (xy.1 + box.1.1.1, xy.2 + box.1.1.2, xy.1 + box.1.2, xy.2 + box.2).

(** [for x in xs:] *)
Fixpoint for_each {A} (xs : list A) (body : A -> Draw unit) : Draw unit :=
  match xs with
  | [] => mret tt
  | x :: xs' => _ ← body x; for_each xs' body
  end.

(** [img = Image.new(...); draw = ImageDraw.Draw(img); ...; return img] *)
Definition render (size : Z * Z) (color : rgb) (body : Draw unit) : outcome Image :=
  match Image_new "RGB" size color with
  | Ok img =>
      match body img with
      | (Ok _, img') => Ok img'
      | (Raise e, _) => Raise e
      end
  | Raise e => Raise e
  end.

(** [xs[i]] *)
Definition getitem {A} (xs : list A) (i : Z) : outcome A :=
  let j := if i <? 0 then i + Z.of_nat (length xs) else i in
  if j <? 0 then Raise (PyExc "IndexError")
  else match xs !! Z.to_nat j with
       | Some x => Ok x
       | None => Raise (PyExc "IndexError")
       end.

(** The two paths tried for a weight, in the order they are tried. *)
Definition font_paths (bold : bool) : string * string :=
  if bold then ("/System/Library/Fonts/Supplemental/Arial Bold.ttf",
                "/Library/Fonts/Arial Bold.ttf")
  else ("/System/Library/Fonts/Supplemental/Arial.ttf",
        "/Library/Fonts/Arial.ttf").

(** *** Calls that leave the process

    [main] makes directories, saves pictures and prints progress lines. What
    is on disk and who reads the output is the host's business: the script is
    modelled by the calls it makes, in order, and by the answer the host gives
    to each, which is either to let it return or to raise from it. *)
Inductive message :=
  | MsgLine (text : string)
  | MsgDevice (device_name : string) (width height : Z)
      (* "  Creating screenshots for {device_name} ({width}x{height})..." *)
  | MsgSaved (filename : string)
      (* "    ✓ {filename}" *)
  | MsgDone (output_dir : string).
      (* "\n✅ All assets generated in {output_dir}/" *)

Inductive io_call :=
  | MkdirCall (path : string) (parents : bool)
  | SaveCall (path : string) (img : Image)
  | PrintCall (m : message).

(** The host: given the calls made so far, the exception the next call
    raises, if any. *)
Definition Host : Type := list io_call -> io_call -> option exn.

(** A script logs the calls it makes and stops at the first exception. *)
Definition Script (A : Type) : Type := list io_call -> outcome A * list io_call.

#[global] Instance Script_ret : MRet Script := fun A a log => (Ok a, log).

#[global] Instance Script_bind : MBind Script := fun A B k m log =>
  match m log with
  | (Ok a, log') => k a log'
  | (Raise e, log') => (Raise e, log')
  end.

(** A call that stays inside the process. *)
Definition call {A} (r : outcome A) : Script A := fun log => (r, log).

(** [for x in xs:] in a script. *)
Fixpoint for_in {A} (xs : list A) (body : A -> Script unit) : Script unit :=
  match xs with
  | [] => mret tt
  | x :: xs' => _ ← body x; for_in xs' body
  end.

Section WithHost.
Context (host : Host).

Definition request (c : io_call) : Script unit := fun log =>
  match host log c with
  | Some e => (Raise e, log ++ [c])
  | None => (Ok tt, log ++ [c])
  end.

(** [path.mkdir(parents=parents, exist_ok=True)] *)
Definition Path_mkdir (path : string) (parents : bool) : Script unit :=
  request (MkdirCall path parents).

(** [img.save(path, 'PNG')] *)
Definition Image_save (img : Image) (path : string) : Script unit :=
  request (SaveCall path img).

Definition print (m : message) : Script unit := request (PrintCall m).

(** The calls of a list made one after the other. *)
Fixpoint perform (calls : list io_call) : Script unit :=
  match calls with
  | [] => mret tt
  | c :: calls' => _ ← request c; perform calls'
  end.

(** [m] is a straight line of calls: it makes the calls of [calls] in that
    order, is stopped by the first one the host refuses, and returns [a]
    when none is. *)
Definition scripted {A} (m : Script A) (a : A) (calls : list io_call) : Prop :=
  forall log, m log = (perform calls ≫= fun _ => mret a) log.

End WithHost.

Section WithFonts.
Context (fonts : FontEnv) (host : Host).

(** Get a font, falling back to default if system fonts unavailable. *)
Definition get_font (size : Z) (bold : bool) : outcome Font :=
  then_return
    (try_
       (if bold then
          try_ (return_ (truetype fonts "/System/Library/Fonts/Supplemental/Arial Bold.ttf" size))
               (fun _ =>
                  try_ (return_ (truetype fonts "/Library/Fonts/Arial Bold.ttf" size))
                       (fun _ => pass))
        else
          try_ (return_ (truetype fonts "/System/Library/Fonts/Supplemental/Arial.ttf" size))
               (fun _ =>
                  try_ (return_ (truetype fonts "/Library/Fonts/Arial.ttf" size))
                       (fun _ => pass)))
       (fun _ => pass))
    (Ok (load_default fonts)).

(** The fallback chain as the specification words it: the first system font
    path, then the second candidate path, then the built-in default. *)
Definition font_chain (size : Z) (bold : bool) : Font :=
  match truetype fonts (font_paths bold).1 size with
  | Ok font => font
  | Raise _ =>
      match truetype fonts (font_paths bold).2 size with
      | Ok font => font
      | Raise _ => load_default fonts
      end
  end.

(** Draw text with hard shadow (no blur). *)
Definition draw_text_with_shadow (s : string) (position : Z * Z) (font : Font)
    (text_color shadow_color : rgb) (shadow_offset : Z * Z) : Draw unit :=
  let shadow_pos := (position.1 + shadow_offset.1, position.2 + shadow_offset.2) in
  _ ← draw_text shadow_pos s font shadow_color;
  draw_text position s font text_color.

(** Draw a border around a bounding box. *)
Definition draw_border (bbox : Z * Z * Z * Z) (width : Z) (color : rgb) : Draw unit :=
  let '(x1, y1, x2, y2) := bbox in
  _ ← draw_rectangle (x1, y1, x2, y1 + width) color;
  _ ← draw_rectangle (x1, y2 - width, x2, y2) color;
  _ ← draw_rectangle (x1, y1, x1 + width, y2) color;
  draw_rectangle (x2 - width, y1, x2, y2) color.

(** Create the 1024x1024 app icon. *)
Definition create_app_icon : outcome Image :=
  let size := 1024 in
  render (size, size) (COLORS aquamarine)
    (_ ← draw_border (0, 0, size, size) (int (size * 0.03)) (COLORS black);
     let font_size := int (size * 0.45) in
     font ← lift (get_font font_size true);
     let text := "RB" in
     bbox ← draw_textbbox (0, 0) text font;
     let '(bbox0, bbox1, bbox2, bbox3) := bbox in
     let text_width := bbox2 - bbox0 in
     let text_height := bbox3 - bbox1 in
     let x := (size - text_width) / 2 in
     let y := (size - text_height) / 2 in
     let shadow_offset := int (size * 0.02) in
     draw_text_with_shadow text (x, y) font (COLORS white) (COLORS black)
       (shadow_offset, shadow_offset)).

(** Create a screenshot of the tank list view. *)
Definition create_screenshot_tank_list (width height : Z) : outcome Image :=
  render (width, height) (COLORS white)
    (let status_height := int (height * 0.06) in
     _ ← draw_rectangle (0, 0, width, status_height) (COLORS white);
     let header_height := int (height * 0.12) in
     let header_y := status_height in
     _ ← draw_rectangle (0, header_y, width, header_y + header_height) (COLORS white);
     title_font ← lift (get_font (int (width * 0.08)) true);
     let title := "REEFBUDDY" in
     bbox ← draw_textbbox (0, 0) title title_font;
     let '(bbox0, bbox1, bbox2, bbox3) := bbox in
     let title_x := int (width * 0.05) in
     let title_y := header_y + (header_height - (bbox3 - bbox1)) / 2 in
     _ ← draw_text (title_x, title_y) title title_font (COLORS black);
     let badge_x := width - int (width * 0.25) in
     let badge_y := header_y + int (header_height * 0.3) in
     let badge_w := int (width * 0.2) in
     let badge_h := int (header_height * 0.4) in
     _ ← draw_rectangle (badge_x, badge_y, badge_x + badge_w, badge_y + badge_h)
           (COLORS aquamarine);
     _ ← draw_border (badge_x, badge_y, badge_x + badge_w, badge_y + badge_h) 3
           (COLORS black);
     badge_font ← lift (get_font (int (width * 0.03)) true);
     _ ← draw_text (badge_x + 10, badge_y + 5) "FREE" badge_font (COLORS black);
     let content_y := header_y + header_height in
     let content_height := height - content_y - int (height * 0.1) in
     let card_spacing := int (height * 0.03) in
     let card_height := int (content_height * 0.25) in
     let card_width := width - int (width * 0.1) in
     let card_x := int (width * 0.05) in
     let tanks :=
       [ ("Reef Tank 1", "125 gal", "Active");
         ("Nano Reef", "30 gal", "Active");
         ("Frag Tank", "40 gal", "Inactive") ] in
     _ ← for_each (enumerate tanks) (fun '(i, (name, volume, status)) =>
       let card_y := content_y + (card_height + card_spacing) * i + int (height * 0.02) in
       let shadow_offset := 5 in
       _ ← draw_rectangle
             (card_x + shadow_offset, card_y + shadow_offset,
              card_x + card_width + shadow_offset, card_y + card_height + shadow_offset)
             (COLORS black);
       _ ← draw_rectangle (card_x, card_y, card_x + card_width, card_y + card_height)
             (COLORS white);
       _ ← draw_border (card_x, card_y, card_x + card_width, card_y + card_height) 3
             (COLORS black);
       name_font ← lift (get_font (int (width * 0.05)) true);
       _ ← draw_text (card_x + 20, card_y + 15) name name_font (COLORS black);
       volume_font ← lift (get_font (int (width * 0.035)) false);
       _ ← draw_text (card_x + 20, card_y + 50) volume volume_font (COLORS gray);
       if String.eqb status "Active" then
         let status_x := card_x + card_width - int (width * 0.15) in
         let status_y := card_y + 15 in
         let status_w := int (width * 0.12) in
         let status_h := int (card_height * 0.25) in
         _ ← draw_rectangle (status_x, status_y, status_x + status_w, status_y + status_h)
               (COLORS aquamarine);
         _ ← draw_border (status_x, status_y, status_x + status_w, status_y + status_h) 2
               (COLORS black);
         status_font ← lift (get_font (int (width * 0.025)) true);
         draw_text (status_x + 5, status_y + 3) "ACTIVE" status_font (COLORS black)
       else mret tt);
     let tab_y := height - int (height * 0.1) in
     let tab_height := int (height * 0.1) in
     _ ← draw_rectangle (0, tab_y, width, height) (COLORS white);
     _ ← draw_border (0, tab_y, width, height) 3 (COLORS black);
     let tabs := ["TANKS"; "MEASURE"; "HISTORY"; "SETTINGS"] in
     let tab_width := width / Z.of_nat (length tabs) in
     tab_font ← lift (get_font (int (width * 0.025)) true);
     for_each (enumerate tabs) (fun '(i, tab) =>
       let tab_x := i * tab_width in
       _ ← (if i =? 0 then
              draw_rectangle (tab_x, tab_y, tab_x + tab_width, height) (COLORS aquamarine)
            else mret tt);
       draw_text (tab_x + tab_width / 4, tab_y + 10) tab tab_font (COLORS black))).

(** Create a screenshot of the AI analysis view. *)
Definition create_screenshot_analysis (width height : Z) : outcome Image :=
  render (width, height) (COLORS white)
    (let status_height := int (height * 0.06) in
     let header_height := int (height * 0.1) in
     let header_y := status_height in
     _ ← draw_rectangle (0, header_y, width, header_y + header_height) (COLORS white);
     back_font ← lift (get_font (int (width * 0.04)) true);
     _ ← draw_text (int (width * 0.05), header_y + 20) "← BACK" back_font (COLORS black);
     title_font ← lift (get_font (int (width * 0.06)) true);
     let title := "AI ANALYSIS" in
     bbox ← draw_textbbox (0, 0) title title_font;
     let '(bbox0, bbox1, bbox2, bbox3) := bbox in
     let title_x := (width - (bbox2 - bbox0)) / 2 in
     _ ← draw_text (title_x, header_y + 15) title title_font (COLORS black);
     let content_y := header_y + header_height in
     let scroll_y := content_y in
     grid_title_font ← lift (get_font (int (width * 0.05)) true);
     _ ← draw_text (int (width * 0.05), scroll_y + 20) "PARAMETER STATUS" grid_title_font
           (COLORS black);
     let scroll_y := scroll_y + int (height * 0.08) in
     let params :=
       [ ("pH", "8.2", "✓", COLORS aquamarine);
         ("Alkalinity", "8.5 dKH", "✓", COLORS aquamarine);
         ("Calcium", "420 ppm", "✓", COLORS aquamarine);
         ("Nitrate", "5 ppm", "⚠", COLORS orange) ] in
     let card_w := int (width * 0.42) in
     let card_h := int (height * 0.12) in
     let card_spacing := int (width * 0.03) in
     _ ← for_each (enumerate params) (fun '(i, (name, value, status, color)) =>
       let row := i / 2 in
       let col := i mod 2 in
       let card_x := int (width * 0.05) + col * (card_w + card_spacing) in
       let card_y := scroll_y + row * (card_h + card_spacing) in
       let shadow_offset := 5 in
       _ ← draw_rectangle
             (card_x + shadow_offset, card_y + shadow_offset,
              card_x + card_w + shadow_offset, card_y + card_h + shadow_offset)
             (COLORS black);
       _ ← draw_rectangle (card_x, card_y, card_x + card_w, card_y + card_h) (COLORS white);
       _ ← draw_border (card_x, card_y, card_x + card_w, card_y + card_h) 3 (COLORS black);
       name_font ← lift (get_font (int (width * 0.035)) true);
       _ ← draw_text (card_x + 15, card_y + 10) name name_font (COLORS black);
       value_font ← lift (get_font (int (width * 0.04)) false);
       _ ← draw_text (card_x + 15, card_y + 40) value value_font (COLORS gray);
       status_font ← lift (get_font (int (width * 0.05)) true);
       draw_text (card_x + card_w - 40, card_y + 20) status status_font color);
     let scroll_y := scroll_y + int (height * 0.3) in
     _ ← draw_text (int (width * 0.05), scroll_y + 20) "RECOMMENDATIONS" grid_title_font
           (COLORS black);
     let scroll_y := scroll_y + int (height * 0.08) in
     let rec_card_w := width - int (width * 0.1) in
     let rec_card_h := int (height * 0.12) in
     let rec_card_x := int (width * 0.05) in
     let rec_card_y := scroll_y in
     let shadow_offset := 5 in
     _ ← draw_rectangle
           (rec_card_x + shadow_offset, rec_card_y + shadow_offset,
            rec_card_x + rec_card_w + shadow_offset, rec_card_y + rec_card_h + shadow_offset)
           (COLORS black);
     _ ← draw_rectangle (rec_card_x, rec_card_y, rec_card_x + rec_card_w, rec_card_y + rec_card_h)
           (COLORS white);
     _ ← draw_border (rec_card_x, rec_card_y, rec_card_x + rec_card_w, rec_card_y + rec_card_h) 3
           (COLORS black);
     rec_font ← lift (get_font (int (width * 0.035)) false);
     draw_text (rec_card_x + 15, rec_card_y + 20)
       "• Increase water changes to reduce nitrate" rec_font (COLORS black)).

(** Create a screenshot of the measurement entry view. *)
Definition create_screenshot_measurement (width height : Z) : outcome Image :=
  render (width, height) (COLORS white)
    (let status_height := int (height * 0.06) in
     let header_height := int (height * 0.1) in
     let header_y := status_height in
     _ ← draw_rectangle (0, header_y, width, header_y + header_height) (COLORS white);
     title_font ← lift (get_font (int (width * 0.06)) true);
     let title := "ENTER MEASUREMENTS" in
     bbox ← draw_textbbox (0, 0) title title_font;
     let '(bbox0, bbox1, bbox2, bbox3) := bbox in
     let title_x := (width - (bbox2 - bbox0)) / 2 in
     _ ← draw_text (title_x, header_y + 15) title title_font (COLORS black);
     let content_y := header_y + header_height in
     let scroll_y := content_y + int (height * 0.02) in
     let params :=
       [ ("pH", "8.2", "Target: 8.1-8.4");
         ("Alkalinity (dKH)", "8.5", "Target: 8-12 dKH");
         ("Calcium (ppm)", "420", "Target: 400-450 ppm");
         ("Magnesium (ppm)", "1350", "Target: 1300-1400 ppm") ] in
     let input_h := int (height * 0.08) in
     let input_w := width - int (width * 0.1) in
     let input_x := int (width * 0.05) in
     let input_spacing := int (height * 0.02) in
     _ ← for_each (enumerate params) (fun '(i, (label, value, target)) =>
       let input_y := scroll_y + i * (input_h + input_spacing) in
       label_font ← lift (get_font (int (width * 0.035)) true);
       _ ← draw_text (input_x, input_y) label label_font (COLORS black);
       let field_y := input_y + int (height * 0.04) in
       _ ← draw_rectangle (input_x, field_y, input_x + input_w, field_y + input_h)
             (COLORS white);
       _ ← draw_border (input_x, field_y, input_x + input_w, field_y + input_h) 3
             (COLORS black);
       value_font ← lift (get_font (int (width * 0.04)) false);
       _ ← draw_text (input_x + 15, field_y + 15) value value_font (COLORS black);
       target_font ← lift (get_font (int (width * 0.025)) false);
       draw_text (input_x, field_y + input_h + 5) target target_font (COLORS gray));
     let button_y :=
       scroll_y + Z.of_nat (length params) * (input_h + input_spacing) + int (height * 0.05) in
     let button_h := int (height * 0.08) in
     let button_w := width - int (width * 0.1) in
     let button_x := int (width * 0.05) in
     let shadow_offset := 5 in
     _ ← draw_rectangle
           (button_x + shadow_offset, button_y + shadow_offset,
            button_x + button_w + shadow_offset, button_y + button_h + shadow_offset)
           (COLORS black);
     _ ← draw_rectangle (button_x, button_y, button_x + button_w, button_y + button_h)
           (COLORS aquamarine);
     _ ← draw_border (button_x, button_y, button_x + button_w, button_y + button_h) 3
           (COLORS black);
     button_font ← lift (get_font (int (width * 0.045)) true);
     let button_text := "ANALYZE PARAMETERS" in
     bbox ← draw_textbbox (0, 0) button_text button_font;
     let '(bbox0, bbox1, bbox2, bbox3) := bbox in
     let button_text_x := button_x + (button_w - (bbox2 - bbox0)) / 2 in
     let button_text_y := button_y + (button_h - (bbox3 - bbox1)) / 2 in
     draw_text (button_text_x, button_text_y) button_text button_font (COLORS black)).

(** Create a screenshot of the chart/history view. *)
Definition create_screenshot_chart (width height : Z) : outcome Image :=
  render (width, height) (COLORS white)
    (let status_height := int (height * 0.06) in
     let header_height := int (height * 0.1) in
     let header_y := status_height in
     _ ← draw_rectangle (0, header_y, width, header_y + header_height) (COLORS white);
     title_font ← lift (get_font (int (width * 0.06)) true);
     let title := "HISTORY & TRENDS" in
     bbox ← draw_textbbox (0, 0) title title_font;
     let '(bbox0, bbox1, bbox2, bbox3) := bbox in
     let title_x := (width - (bbox2 - bbox0)) / 2 in
     _ ← draw_text (title_x, header_y + 15) title title_font (COLORS black);
     let content_y := header_y + header_height in
     let chart_y := content_y + int (height * 0.03) in
     let chart_h := int (height * 0.4) in
     let chart_w := width - int (width * 0.1) in
     let chart_x := int (width * 0.05) in
     _ ← draw_rectangle (chart_x, chart_y, chart_x + chart_w, chart_y + chart_h) (COLORS white);
     _ ← draw_border (chart_x, chart_y, chart_x + chart_w, chart_y + chart_h) 3 (COLORS black);
     let line_points :=
       foldl (fun (line_points : list (Z * Z)) (i : Z) =>
                let x := chart_x + int ((i / 9) * chart_w) in
                let y := chart_y + chart_h - int ((0.3 + (i mod 3)%Z * 0.1) * chart_h) in
                line_points ++ [(x, y)])
             [] (range 10) in
     _ ← for_each (range (Z.of_nat (length line_points) - 1)) (fun i =>
       p ← lift (getitem line_points i);
       q ← lift (getitem line_points (i + 1));
       draw_line [p; q] (COLORS black) 4);
     label_font ← lift (get_font (int (width * 0.025)) false);
     _ ← draw_text (chart_x + 10, chart_y + 10) "pH" label_font (COLORS black);
     _ ← draw_text (chart_x + 10, chart_y + chart_h - 20) "8.0" label_font (COLORS gray);
     _ ← draw_text (chart_x + chart_w - 50, chart_y + chart_h - 20) "8.4" label_font
           (COLORS gray);
     let list_y := chart_y + chart_h + int (height * 0.05) in
     list_title_font ← lift (get_font (int (width * 0.04)) true);
     _ ← draw_text (chart_x, list_y) "RECENT MEASUREMENTS" list_title_font (COLORS black);
     let list_y := list_y + int (height * 0.06) in
     let measurements :=
       [ ("Jan 15, 2024", "pH: 8.2 | Alk: 8.5 | Ca: 420");
         ("Jan 12, 2024", "pH: 8.1 | Alk: 8.3 | Ca: 415");
         ("Jan 10, 2024", "pH: 8.3 | Alk: 8.4 | Ca: 425") ] in
     let item_h := int (height * 0.06) in
     let item_spacing := int (height * 0.02) in
     for_each (enumerate measurements) (fun '(i, (date, params)) =>
       let item_y := list_y + i * (item_h + item_spacing) in
       let item_w := chart_w in
       _ ← draw_rectangle (chart_x, item_y, chart_x + item_w, item_y + item_h) (COLORS white);
       _ ← draw_border (chart_x, item_y, chart_x + item_w, item_y + item_h) 2 (COLORS black);
       date_font ← lift (get_font (int (width * 0.03)) true);
       _ ← draw_text (chart_x + 10, item_y + 10) date date_font (COLORS black);
       param_font ← lift (get_font (int (width * 0.025)) false);
       draw_text (chart_x + 10, item_y + 35) params param_font (COLORS gray))).

(** The view table of [main]: key, display name, function. *)
Definition screenshot_views : list (string * string * (Z -> Z -> outcome Image)) :=
  [ ("tank-list", "Tank List", create_screenshot_tank_list);
    ("analysis", "Analysis", create_screenshot_analysis);
    ("measurement", "Measurement Entry", create_screenshot_measurement);
    ("chart", "History & Charts", create_screenshot_chart) ].

(** The inch mark that ends the device names, and the line feed that starts
    a heading. *)
Definition inch : string := String (Ascii.ascii_of_nat 34) EmptyString.
Definition newline : string := String (Ascii.ascii_of_nat 10) EmptyString.

Definition screenshot_configs : list (string * string * (Z -> Z -> outcome Image)) :=
  [ ("iphone_67", "iPhone 6.7" +:+ inch, create_screenshot_tank_list);
    ("iphone_65", "iPhone 6.5" +:+ inch, create_screenshot_tank_list);
    ("iphone_55", "iPhone 5.5" +:+ inch, create_screenshot_tank_list);
    ("ipad_129", "iPad Pro 12.9" +:+ inch, create_screenshot_tank_list);
    ("ipad_11", "iPad Pro 11" +:+ inch, create_screenshot_tank_list) ].

(** [SCREENSHOT_SIZES[device_key]] *)
Definition size_of_device (device_key : string) : outcome (Z * Z) :=
  match (list_to_map SCREENSHOT_SIZES : gmap string (Z * Z)) !! device_key with
  | Some sz => Ok sz
  | None => Raise (PyExc "KeyError")
  end.

(** Generate all App Store assets. *)
Definition main : Script unit :=
  let output_dir := Path "assets/upload-store" in
  _ ← Path_mkdir host output_dir true;
  _ ← print host (MsgLine "Generating App Store assets...");
  _ ← print host (MsgLine "  Creating app icon (1024x1024)...");
  icon ← call create_app_icon;
  _ ← Image_save host icon (path_join output_dir "AppIcon-1024.png");
  _ ← for_in screenshot_configs (fun '(device_key, device_name, _) =>
        '(width, height) ← call (size_of_device device_key);
        let device_dir := path_join output_dir device_key in
        _ ← Path_mkdir host device_dir false;
        _ ← print host (MsgDevice device_name width height);
        for_in screenshot_views (fun '(view_key, view_name, view_func) =>
          screenshot ← call (view_func width height);
          let filename := device_key +:+ "_" +:+ view_key +:+ ".png" in
          _ ← Image_save host screenshot (path_join device_dir filename);
          print host (MsgSaved filename)));
  _ ← print host (MsgDone output_dir);
  for_in [ newline +:+ "Asset structure:";
           "  assets/upload-store/";
           "    ├── AppIcon-1024.png";
           "    ├── iphone_67/";
           "    ├── iphone_65/";
           "    ├── iphone_55/";
           "    ├── ipad_129/";
           "    └── ipad_11/" ]
         (fun line => print host (MsgLine line)).

(** The view function [main] pairs with a key, applied to a size. *)
Definition render_view (view_key : string) (width height : Z) : outcome Image :=
  match List.find (fun v => String.eqb v.1.1 view_key) screenshot_views with
  | Some (_, _, view_func) => view_func width height
  | None => Raise (PyExc "KeyError")
  end.

End WithFonts.

(** *** Reading a canvas *)

(** Where the rectangle painted under the [# Header] comment sits among the
    painted shapes: the tank list paints its status bar first, the other
    views paint the header first. *)
Definition header_index (view_key : string) : nat :=
  if String.eqb view_key "tank-list" then 1%nat else 0%nat.

Definition header_band (view_key : string) (img : Image) : option draw_op :=
  painted img !! header_index view_key.

(** The height a rectangle is laid out with: bottom edge minus top edge. *)
Definition band_height (op : option draw_op) : option Z :=
  match op with
  | Some (Rectangle (_, y1, _, y2) _) => Some (y2 - y1)
  | _ => None
  end.

(** Twelve percent of the canvas height, as the specification has it. *)
Definition spec_header_height (height : Z) : Z := int (height * 0.12).

(** The header height each view function computes. *)
Definition view_header_height (view_key : string) (height : Z) : Z :=
  if String.eqb view_key "tank-list" then int (height * 0.12) else int (height * 0.1).

Definition view_keys : list string := ["tank-list"; "analysis"; "measurement"; "chart"].

(** The header band of a view at a size is twelve percent of the canvas
    height tall. *)
Definition header_is_twelve_percent (fonts : FontEnv) (view_key : string)
    (width height : Z) : Prop :=
  exists img, render_view fonts view_key width height = Ok img
              /\ band_height (header_band view_key img) = Some (spec_header_height height).

(** *** Reading a log

    What a call does to the disk: the directory it makes, or the file it
    writes and the size of the picture written. *)
Inductive disk_call :=
  | Mkdir (path : string) (parents : bool)
  | Saved (path : string) (size : Z * Z).

Definition disk_calls (log : list io_call) : list disk_call :=
  omap (fun c => match c with
                 | MkdirCall path parents => Some (Mkdir path parents)
                 | SaveCall path img => Some (Saved path (size img))
                 | PrintCall _ => None
                 end) log.

(** A host that refuses nothing, and one whose disk fills up on the seventh
    picture. *)
Definition quiet_host : Host := fun _ _ => None.

Definition full_disk_host : Host := fun _ c =>
  match c with
  | SaveCall path _ =>
      if String.eqb path "assets/upload-store/iphone_65/iphone_65_analysis.png"
      then Some (PyExc "OSError") else None
  | _ => None
  end.

(** *** Drawing programs that only paint *)

Definition extend (img : Image) (ops : list draw_op) : Image :=
  mkImage (mode img) (size img) (background img) (painted img ++ ops).

(** [m] returns [a] and adds the shapes [ops] on top of whatever canvas it is
    given, leaving mode, size and background alone. *)
Definition emits {A} (m : Draw A) (a : A) (ops : list draw_op) : Prop :=
  forall img, m img = (Ok a, extend img ops).

Definition paints {A} (m : Draw A) : Prop := exists a ops, emits m a ops.

(** Sizes [Image.new] accepts. *)
Definition canvas_size_ok (size : Z * Z) : Prop :=
  0 <= size.1 <= 536870910 /\ 0 <= size.2 <= 2147483647.

(** *** Font environments *)

(** Two machines with the same fonts: the same built-in default and the same
    answer at each of the four paths [get_font] tries. *)
Definition same_fonts (a b : FontEnv) : Prop :=
  load_default a = load_default b
  /\ forall bold size,
       truetype a (font_paths bold).1 size = truetype b (font_paths bold).1 size
       /\ truetype a (font_paths bold).2 size = truetype b (font_paths bold).2 size.

(** A machine without the Arial files, and one that has the second bold
    candidate only; both have some other font installed, at different
    places. *)
Definition builtin_font : Font :=
  mkFont "default" 10 (fun s => (0, 0, 6 * Z.of_nat (String.length s), 11)).

Definition arial_bold (size : Z) : Font :=
  mkFont "/Library/Fonts/Arial Bold.ttf" size
         (fun s => (0, 0, size * Z.of_nat (String.length s) / 2, size)).

Definition bare_fonts : FontEnv :=
  mkFontEnv (fun path size =>
               if String.eqb path "/usr/share/fonts/DejaVuSans.ttf"
               then Ok (mkFont path size (fun _ => (0, 0, 0, 0)))
               else Raise (PyExc "OSError"))
            builtin_font.

Definition bare_fonts' : FontEnv :=
  mkFontEnv (fun path size => Raise (PyExc "OSError")) builtin_font.

Definition mac_fonts : FontEnv :=
  mkFontEnv (fun path size =>
               if String.eqb path "/Library/Fonts/Arial Bold.ttf"
               then (if size <=? 0 then Raise (PyExc "ValueError") else Ok (arial_bold size))
               else Raise (PyExc "OSError"))
            builtin_font.

(** *** Pixels

    [draw.rectangle] fills its bounding box, both corners included. *)
Definition covers (op : draw_op) (x y : Z) : bool :=
  match op with
  | Rectangle (x0, y0, x1, y1) _ => (x0 <=? x) && (x <=? x1) && (y0 <=? y) && (y <=? y1)
  | _ => false
  end.

(** A pixel one of the shapes fills. *)
Definition filled (ops : list draw_op) (x y : Z) : bool :=
  existsb (fun op => covers op x y) ops.

(** *** Polylines *)

Definition is_line (op : draw_op) : bool :=
  match op with
  | Line _ _ _ => true
  | _ => false
  end.

(** The segments that join each point to the next one. *)
Definition segments (pts : list (Z * Z)) (fill : rgb) (width : Z) : list draw_op :=
  zip_with (fun p q => Line [p; q] fill width) pts (drop 1 pts).

(** [m] only paints, and every shape it paints satisfies [P]. *)
Definition paints_only (P : draw_op -> Prop) {A} (m : Draw A) : Prop :=
  exists a ops, emits m a ops /\ Forall P ops.

(** [m] only paints, and among what it paints the lines are exactly the
    segments of one polyline through [n] points. *)
Definition draws_one_polyline (n : nat) (fill : rgb) (width : Z) {A} (m : Draw A) : Prop :=
  exists a before pts after,
    emits m a (before ++ segments pts fill width ++ after)
    /\ length pts = n
    /\ Forall (fun op => is_line op = false) before
    /\ Forall (fun op => is_line op = false) after.

End Assets.
(** * Properties of paths *)
Module PathProps.

Lemma append_cons (c : ascii) (a s : string) : String c a +:+ s = String c (a +:+ s).
Proof. reflexivity. Qed.

Lemma append_empty_r (a : string) : a +:+ EmptyString = a.
Proof.
  induction a as [ | c a IH]; [reflexivity | ]. rewrite append_cons, IH. reflexivity.
Qed.

Lemma split_sep_cons (s : string) : exists x xs, split_sep s = x :: xs.
Proof.
  induction s as [ | c s (x & xs & IH)]; cbn [split_sep]; [eauto | ].
  rewrite IH. destruct (Ascii.eqb c "/"); eauto.
Qed.

Lemma split_sep_sep_free (s : string) :
  Forall (fun x => sep_free x = true) (split_sep s).
Proof.
  induction s as [ | c s IH]; cbn [split_sep].
  - repeat constructor.
  - destruct (Ascii.eqb c "/") eqn:Hc.
    + constructor; [reflexivity | exact IH].
    + destruct (split_sep s) as [ | x xs].
      * repeat constructor. cbn. rewrite Hc. reflexivity.
      * apply Forall_cons in IH as [Hx Hxs]. constructor; [ | exact Hxs].
        cbn. rewrite Hc, Hx. reflexivity.
Qed.

(** Splitting a text that starts with separator-free characters. *)
Lemma split_sep_prefix (x s : string) :
  sep_free x = true ->
  split_sep (x +:+ s) =
    match split_sep s with
    | hd :: tl => (x +:+ hd) :: tl
    | [] => [x]
    end.
Proof.
  induction x as [ | c x IH]; intros Hx.
  - change (EmptyString +:+ s) with s.
    destruct (split_sep_cons s) as (hd & tl & ->). reflexivity.
  - cbn in Hx. apply andb_true_iff in Hx as [Hc Hx]. apply negb_true_iff in Hc.
    rewrite append_cons. cbn [split_sep].
    rewrite Hc, (IH Hx). destruct (split_sep_cons s) as (hd & tl & ->). reflexivity.
Qed.

Lemma split_sep_one (x : string) : sep_free x = true -> split_sep x = [x].
Proof.
  intros Hx. pose proof (split_sep_prefix x EmptyString Hx) as H.
  rewrite append_empty_r in H. cbn [split_sep] in H. rewrite append_empty_r in H. exact H.
Qed.

Lemma split_sep_app (x s : string) :
  sep_free x = true -> split_sep (x +:+ "/" +:+ s) = x :: split_sep s.
Proof.
  intros Hx. rewrite (split_sep_prefix x _ Hx).
  change ("/" +:+ s) with (String "/" s). cbn [split_sep].
  change (Ascii.eqb "/" "/") with true. cbn iota.
  rewrite append_empty_r. reflexivity.
Qed.

Lemma split_sep_join (ps : list string) :
  ps <> [] -> Forall (fun x => sep_free x = true) ps -> split_sep (join_sep ps) = ps.
Proof.
  induction ps as [ | x ps IH]; [contradiction | ]. intros _ Hall.
  apply Forall_cons in Hall as [Hx Hps].
  destruct ps as [ | y ps].
  - cbn [join_sep]. exact (split_sep_one x Hx).
  - change (join_sep (x :: y :: ps)) with (x +:+ "/" +:+ join_sep (y :: ps)).
    rewrite (split_sep_app x _ Hx), IH by (first [discriminate | exact Hps]). reflexivity.
Qed.

Lemma good_part_head (x : string) :
  good_part x = true -> exists c x', x = String c x' /\ Ascii.eqb c "/" = false.
Proof.
  unfold good_part, is_part. destruct x as [ | c x']; [discriminate | ].
  intros H. apply andb_true_iff in H as [_ H]. cbn in H.
  apply andb_true_iff in H as [H _]. apply negb_true_iff in H. eauto.
Qed.

Lemma filter_good (ps : list string) :
  Forall (fun x => good_part x = true) ps -> List.filter is_part ps = ps.
Proof.
  induction 1 as [ | x ps Hx _ IH]; [reflexivity | ].
  cbn. unfold good_part in Hx. apply andb_true_iff in Hx as [-> _]. f_equal. exact IH.
Qed.

Lemma good_parts_sep_free (ps : list string) :
  Forall (fun x => good_part x = true) ps -> Forall (fun x => sep_free x = true) ps.
Proof.
  intros Hall. eapply Forall_impl; [exact Hall | ]. intros x Hx. unfold good_part in Hx.
  apply andb_true_iff in Hx as [_ Hx]. exact Hx.
Qed.

(** What [parse] makes of a joined list of components. *)
Lemma parts_of_join (ps : list string) :
  Forall (fun x => good_part x = true) ps ->
  lstrip_sep (join_sep ps) = (0%nat, join_sep ps)
  /\ List.filter is_part (split_sep (join_sep ps)) = ps.
Proof.
  intros Hall. destruct ps as [ | x ps]; [split; reflexivity | ].
  split.
  - pose proof (Forall_inv Hall) as Hx. apply good_part_head in Hx as (c & x' & -> & Hc).
    destruct ps; cbn [join_sep]; rewrite ?append_cons; cbn [lstrip_sep]; rewrite Hc;
      reflexivity.
  - rewrite split_sep_join by (first [discriminate | apply good_parts_sep_free; exact Hall]).
    apply filter_good. exact Hall.
Qed.

Lemma parse_str (p : PurePath) : wf_path p -> parse (str p) = p.
Proof.
  destruct p as [r ps]. intros [Hr Hps]. cbn [root parts] in *.
  destruct (parts_of_join ps Hps) as [Hstrip Hsplit].
  unfold parse, str. cbn [root parts].
  destruct Hr as [-> | [-> | ->]].
  - destruct ps as [ | x ps]; [reflexivity | ].
    change (EmptyString +:+ join_sep (x :: ps)) with (join_sep (x :: ps)).
    rewrite Hstrip. cbn [fst snd]. rewrite Hsplit. reflexivity.
  - change ("/" +:+ join_sep ps) with (String "/" (join_sep ps)).
    cbn [lstrip_sep]. change (Ascii.eqb "/" "/") with true. cbn iota.
    rewrite Hstrip. cbn [fst snd]. rewrite Hsplit. reflexivity.
  - change ("//" +:+ join_sep ps) with (String "/" (String "/" (join_sep ps))).
    cbn [lstrip_sep]. change (Ascii.eqb "/" "/") with true. cbn iota.
    rewrite Hstrip. cbn [fst snd]. rewrite Hsplit. reflexivity.
Qed.

Lemma parse_wf (s : string) : wf_path (parse s).
Proof.
  unfold parse. split; cbn [root parts].
  - destruct (lstrip_sep s).1 as [ | [ | [ | n]]]; auto.
  - apply Forall_forall. intros x Hx. apply list_elem_of_In, filter_In in Hx as [Hin Hpart].
    unfold good_part. rewrite Hpart. cbn.
    pose proof (split_sep_sep_free (lstrip_sep s).2) as Hall.
    rewrite Forall_forall in Hall. apply Hall, list_elem_of_In, Hin.
Qed.

Lemma truediv_wf (p : PurePath) (name : string) : wf_path p -> wf_path (truediv p name).
Proof.
  intros [Hr Hps]. unfold truediv. destruct (String.eqb _ _); [ | apply parse_wf].
  split; [exact Hr | ]. cbn [parts]. apply Forall_app. split; [exact Hps | ].
  apply parse_wf.
Qed.

Lemma str_inj (p q : PurePath) : wf_path p -> wf_path q -> str p = str q -> p = q.
Proof.
  intros Hp Hq Heq. rewrite <- (parse_str p Hp), <- (parse_str q Hq), Heq. reflexivity.
Qed.

Lemma parse_Path (s : string) : parse (Path s) = parse s.
Proof. apply parse_str, parse_wf. Qed.

Lemma Path_idem (s : string) : Path (Path s) = Path s.
Proof. unfold Path at 1. rewrite parse_Path. reflexivity. Qed.

End PathProps.
(** * Properties of the screenshot resizer *)
Module ResizeProps.
Import Resize PathProps.

(** *** Making directories *)

Lemma adds_dirs_refl (qs : list string) (m : gmap string node) : adds_dirs qs m m.
Proof. intros q. left. reflexivity. Qed.

Lemma adds_dirs_trans (qs : list string) (m1 m2 m3 : gmap string node) :
  adds_dirs qs m1 m2 -> adds_dirs qs m2 m3 -> adds_dirs qs m1 m3.
Proof.
  intros H12 H23 q. destruct (H23 q) as [-> | (Hnone & Hdir & Hq)]; [apply H12 | ].
  destruct (H12 q) as [Heq | (_ & Hdir' & _)]; [ | rewrite Hdir' in Hnone; discriminate].
  right. rewrite <- Heq. auto.
Qed.

Lemma adds_dirs_mono (qs qs' : list string) (m m' : gmap string node) :
  (forall q, q ∈ qs -> q ∈ qs') -> adds_dirs qs m m' -> adds_dirs qs' m m'.
Proof.
  intros Hsub H q. destruct (H q) as [Heq | (? & ? & ?)]; [left; exact Heq | right; auto].
Qed.

Lemma adds_dirs_insert (m : gmap string node) (p : string) :
  m !! p = None -> adds_dirs [p] m (<[p := Dir]> m).
Proof.
  intros Hnone q. destruct (decide (p = q)) as [<- | Hne].
  - right. rewrite lookup_insert_eq. split; [exact Hnone | ]. split; [reflexivity | left].
  - left. apply lookup_insert_ne. exact Hne.
Qed.

(** What was there stays there. *)
Lemma adds_dirs_keeps (qs : list string) (m m' : gmap string node) (q : string) (n : node) :
  adds_dirs qs m m' -> m !! q = Some n -> m' !! q = Some n.
Proof.
  intros H Hq. destruct (H q) as [-> | (Hnone & _)]; [exact Hq | ].
  rewrite Hq in Hnone. discriminate.
Qed.

Lemma adds_dirs_other (qs : list string) (m m' : gmap string node) (q : string) :
  adds_dirs qs m m' -> q ∉ qs -> m' !! q = m !! q.
Proof. intros H Hq. destruct (H q) as [Heq | (_ & _ & Hin)]; [exact Heq | contradiction]. Qed.

Lemma walk_None (m : gmap string node) (r : string) (up : list string) :
  walk m r up = None <-> forall q, q ∈ lineage_rev r up -> m !! q = Some Dir.
Proof.
  induction up as [ | c up IH]; cbn [walk lineage_rev].
  - split; [intros _ q Hq; apply elem_of_nil in Hq; destruct Hq | reflexivity].
  - split.
    + intros Hw q Hq. destruct (walk m r up) as [e | ]; [discriminate | ].
      apply elem_of_cons in Hq as [-> | Hq]; [ | apply IH; [reflexivity | exact Hq]].
      destruct (m !! str (mkPath r (rev (c :: up)))) as [[ | | ] | ];
        first [reflexivity | discriminate].
    + intros Hall. rewrite (proj2 IH) by (intros q Hq; apply Hall; right; exact Hq).
      rewrite Hall by left. reflexivity.
Qed.

Lemma walk_error (m : gmap string node) (r : string) (up : list string) (e : exn) :
  walk m r up = Some e ->
  up <> [] /\ (e = PyExc "NotADirectoryError" \/ e = PyExc "FileNotFoundError").
Proof.
  induction up as [ | c up IH]; cbn [walk]; [discriminate | ].
  intros Hw. split; [discriminate | ].
  destruct (walk m r up) as [e' | ]; [injection Hw as ->; apply IH; reflexivity | ].
  destruct (m !! _) as [[ | | ] | ]; simplify_eq; auto.
Qed.

Section Mkdir.
Context (env : Env).

Lemma os_mkdir_cases (r : string) (rparts : list string) (m : gmap string node) :
  (exists e, os_mkdir env r rparts m = (Raise e, m))
  \/ (os_mkdir env r rparts m = (Ok tt, <[str (mkPath r (rev rparts)) := Dir]> m)
      /\ m !! str (mkPath r (rev rparts)) = None
      /\ rparts <> []
      /\ walk m r (tail rparts) = None
      /\ mkdir_error env (str (mkPath r (rev rparts))) = None).
Proof.
  unfold os_mkdir, node_at.
  destruct (walk m r (tail rparts)); [eauto | ].
  destruct (mkdir_error env _); [eauto | ].
  destruct (m !! str (mkPath r (rev rparts))) eqn:Hm; [eauto | ].
  destruct rparts; [eauto | ]. right. repeat split; discriminate.
Qed.

Lemma os_mkdir_adds (r : string) (rparts : list string) (m : gmap string node) :
  adds_dirs [str (mkPath r (rev rparts))] m (os_mkdir env r rparts m).2.
Proof.
  destruct (os_mkdir_cases r rparts m) as [[e ->] | (-> & Hnone & _)]; cbn [snd].
  - apply adds_dirs_refl.
  - apply adds_dirs_insert. exact Hnone.
Qed.

Lemma exist_ok_handler_state (e : exn) (r : string) (rparts : list string)
    (m : gmap string node) :
  (exist_ok_handler env e r rparts m).2 = m.
Proof.
  unfold exist_ok_handler. destruct (is_OSError e); [ | reflexivity].
  destruct (is_dir env r rparts m) as [[ | ] | ]; reflexivity.
Qed.

Lemma mkdir_exist_ok_adds (r : string) (rparts : list string) (m : gmap string node) :
  adds_dirs [str (mkPath r (rev rparts))] m (mkdir_exist_ok env r rparts m).2.
Proof.
  unfold mkdir_exist_ok.
  pose proof (os_mkdir_adds r rparts m) as Hadd.
  destruct (os_mkdir env r rparts m) as [[[] | e] m1]; cbn [snd] in *; [exact Hadd | ].
  destruct (is_FileNotFoundError e); [exact Hadd | ].
  rewrite exist_ok_handler_state. exact Hadd.
Qed.

(** [mkdir] adds directories along the path and touches nothing else,
    whether it returns or raises. *)
Lemma pathlib_mkdir_adds (r : string) (rparts : list string) (m : gmap string node) :
  adds_dirs (lineage_rev r rparts) m (pathlib_mkdir env r rparts m).2.
Proof.
  revert m. induction rparts as [ | c up IH]; intros m.
  - cbn [pathlib_mkdir].
    destruct (os_mkdir_cases r [] m) as [[e ->] | (_ & _ & Hne & _)]; [ | contradiction].
    destruct (is_FileNotFoundError e); [apply adds_dirs_refl | ].
    rewrite exist_ok_handler_state. apply adds_dirs_refl.
  - cbn [pathlib_mkdir lineage_rev].
    pose proof (os_mkdir_adds r (c :: up) m) as Hadd.
    destruct (os_mkdir_cases r (c :: up) m) as [[e Hos] | (Hos & _)]; rewrite Hos in *;
      cbn [snd] in *.
    + destruct (is_FileNotFoundError e).
      * pose proof (IH m) as Hup.
        destruct (pathlib_mkdir env r up m) as [[[] | e'] m2]; cbn [snd] in *.
        -- apply (adds_dirs_trans _ m m2).
           ++ eapply adds_dirs_mono; [ | exact Hup]. intros q Hq. right. exact Hq.
           ++ eapply adds_dirs_mono; [ | apply mkdir_exist_ok_adds].
              intros q Hq. apply list_elem_of_singleton in Hq as ->. left.
        -- eapply adds_dirs_mono; [ | exact Hup]. intros q Hq. right. exact Hq.
      * rewrite exist_ok_handler_state. apply adds_dirs_refl.
    + eapply adds_dirs_mono; [ | exact Hadd].
      intros q Hq. apply list_elem_of_singleton in Hq as ->. left.
Qed.

(** A [mkdir] that fails has made directories above its path at most. *)
Lemma mkdir_exist_ok_Raise (r : string) (rparts : list string) (m m' : gmap string node)
    (e : exn) :
  mkdir_exist_ok env r rparts m = (Raise e, m') -> m' = m.
Proof.
  unfold mkdir_exist_ok.
  destruct (os_mkdir_cases r rparts m) as [[e0 ->] | (-> & _)]; [ | discriminate].
  destruct (is_FileNotFoundError e0); [congruence | ].
  intros Hh. rewrite <- (exist_ok_handler_state e0 r rparts m), Hh. reflexivity.
Qed.

Lemma pathlib_mkdir_Raise_adds (r : string) (rparts : list string)
    (m m' : gmap string node) (e : exn) :
  pathlib_mkdir env r rparts m = (Raise e, m') ->
  adds_dirs (lineage_rev r (tail rparts)) m m'.
Proof.
  destruct rparts as [ | c up]; cbn [pathlib_mkdir tail].
  - destruct (os_mkdir_cases r [] m) as [[e0 ->] | (-> & _)]; [ | discriminate].
    destruct (is_FileNotFoundError e0).
    + intros [= _ <-]. apply adds_dirs_refl.
    + intros Hh. rewrite <- (exist_ok_handler_state e0 r [] m), Hh. apply adds_dirs_refl.
  - destruct (os_mkdir_cases r (c :: up) m) as [[e0 ->] | (-> & _)]; [ | discriminate].
    destruct (is_FileNotFoundError e0).
    + pose proof (pathlib_mkdir_adds r up m) as Hup.
      destruct (pathlib_mkdir env r up m) as [[[] | e'] m2]; cbn [snd] in Hup.
      * intros Hh. apply mkdir_exist_ok_Raise in Hh as ->. exact Hup.
      * intros [= _ <-]. exact Hup.
    + intros Hh. rewrite <- (exist_ok_handler_state e0 r (c :: up) m), Hh.
      apply adds_dirs_refl.
Qed.

Lemma pathlib_mkdir_eq (r : string) (rparts : list string) (m : gmap string node) :
  pathlib_mkdir env r rparts m =
    match os_mkdir env r rparts m with
    | (Ok _, m1) => (Ok tt, m1)
    | (Raise e, m1) =>
        if is_FileNotFoundError e then
          match rparts with
          | [] => (Raise e, m1)
          | _ :: up =>
              match pathlib_mkdir env r up m1 with
              | (Ok _, m2) => mkdir_exist_ok env r rparts m2
              | (Raise e', m2) => (Raise e', m2)
              end
          end
        else exist_ok_handler env e r rparts m1
    end.
Proof. destruct rparts; reflexivity. Qed.

Lemma exist_ok_handler_Ok (e : exn) (r : string) (rparts : list string)
    (m m' : gmap string node) :
  exist_ok_handler env e r rparts m = (Ok tt, m') ->
  m' = m /\ is_OSError e = true /\ node_at m r rparts = Some Dir.
Proof.
  unfold exist_ok_handler, is_dir. destruct (is_OSError e); [ | discriminate].
  destruct (node_at m r rparts) as [[ | | ] | ]; try discriminate.
  - intros [= <-]. auto.
  - destruct (stat_error env _); discriminate.
Qed.

Lemma exist_ok_handler_dir (e : exn) (r : string) (rparts : list string)
    (m : gmap string node) :
  is_OSError e = true -> node_at m r rparts = Some Dir ->
  exist_ok_handler env e r rparts m = (Ok tt, m).
Proof.
  intros He Hdir. unfold exist_ok_handler, is_dir. rewrite He, Hdir. reflexivity.
Qed.

Lemma node_at_cons (m : gmap string node) (r c : string) (up : list string) :
  node_at m r (c :: up) = m !! str (mkPath r (rev (c :: up))).
Proof. unfold node_at. destruct (m !! _); reflexivity. Qed.

(** In a tree, what is above something that exists is a directory. *)
Lemma tree_ancestors (m : gmap string node) (r c : string) (up : list string) (n : node) :
  is_tree m -> wf_path (mkPath r (rev (c :: up))) ->
  m !! str (mkPath r (rev (c :: up))) = Some n ->
  forall q, q ∈ lineage_rev r up -> m !! q = Some Dir.
Proof.
  intros Htree Hwf Hn q Hq. apply (Htree _ _ Hn).
  unfold ancestors. rewrite (parse_str _ Hwf). cbn [root parts].
  rewrite rev_involutive. exact Hq.
Qed.

Lemma wf_path_up (r c : string) (up : list string) :
  wf_path (mkPath r (rev (c :: up))) -> wf_path (mkPath r (rev up)).
Proof.
  intros [Hr Hps]. split; [exact Hr | ]. cbn [parts rev] in *.
  apply Forall_app in Hps as [Hps _]. exact Hps.
Qed.

Lemma mkdir_exist_ok_Ok (r c : string) (up : list string) (m m' : gmap string node) :
  mkdir_exist_ok env r (c :: up) m = (Ok tt, m') ->
  m' !! str (mkPath r (rev (c :: up))) = Some Dir
  /\ (walk m r up = None ->
      forall e, mkdir_error env (str (mkPath r (rev (c :: up)))) = Some e ->
                is_FileNotFoundError e = false /\ is_OSError e = true).
Proof.
  unfold mkdir_exist_ok.
  destruct (os_mkdir_cases r (c :: up) m) as [[e Hos] | (Hos & _ & _ & _ & Hnone)];
    rewrite Hos.
  - destruct (is_FileNotFoundError e) eqn:Hfnf; [discriminate | ].
    intros Hh. apply exist_ok_handler_Ok in Hh as (-> & Hos' & Hdir).
    rewrite node_at_cons in Hdir. split; [exact Hdir | ].
    intros Hwalk e' He'. unfold os_mkdir in Hos. cbn [tail] in Hos.
    rewrite Hwalk, He' in Hos. injection Hos as <-. auto.
  - intros [= <-]. split; [apply lookup_insert_eq | ].
    intros _ e He. rewrite He in Hnone. discriminate.
Qed.

(** When [mkdir] returns, the path and all that is above it are
    directories. *)
Lemma pathlib_mkdir_Ok (r : string) (rparts : list string) (m : gmap string node) :
  is_tree m -> wf_path (mkPath r (rev rparts)) ->
  (pathlib_mkdir env r rparts m).1 = Ok tt ->
  (forall q, q ∈ lineage_rev r rparts -> (pathlib_mkdir env r rparts m).2 !! q = Some Dir)
  /\ node_at (pathlib_mkdir env r rparts m).2 r rparts = Some Dir.
Proof.
  intros Htree. induction rparts as [ | c up IH]; intros Hwf.
  - rewrite pathlib_mkdir_eq.
    destruct (os_mkdir_cases r [] m) as [[e ->] | (_ & _ & Hne & _)]; [ | contradiction].
    destruct (is_FileNotFoundError e); [discriminate | ].
    destruct (exist_ok_handler env e r [] m) as [[[] | e'] m'] eqn:Hh; [ | discriminate].
    intros _. apply exist_ok_handler_Ok in Hh as (-> & _ & Hdir). cbn [snd lineage_rev].
    split; [intros q Hq; apply elem_of_nil in Hq; destruct Hq | exact Hdir].
  - rewrite pathlib_mkdir_eq. cbn [lineage_rev].
    destruct (os_mkdir_cases r (c :: up) m) as [[e Hos] | (Hos & _ & _ & Hwalk & _)];
      rewrite Hos.
    + destruct (is_FileNotFoundError e).
      * pose proof (pathlib_mkdir_adds r up m) as Hadd.
        specialize (IH (wf_path_up r c up Hwf)).
        destruct (pathlib_mkdir env r up m) as [[[] | e'] m2]; [ | discriminate].
        cbn [fst snd] in IH, Hadd. destruct (IH eq_refl) as [Hup _].
        destruct (mkdir_exist_ok env r (c :: up) m2) as [[[] | e'] m3] eqn:Hlast;
          [ | discriminate].
        intros _. cbn [snd].
        pose proof (mkdir_exist_ok_adds r (c :: up) m2) as Hadd3.
        rewrite Hlast in Hadd3. cbn [snd] in Hadd3.
        apply mkdir_exist_ok_Ok in Hlast as [Hself _].
        split; [ | rewrite node_at_cons; exact Hself].
        intros q Hq. apply elem_of_cons in Hq as [-> | Hq]; [exact Hself | ].
        exact (adds_dirs_keeps _ _ _ _ _ Hadd3 (Hup q Hq)).
      * destruct (exist_ok_handler env e r (c :: up) m) as [[[] | e'] m'] eqn:Hh;
          [ | discriminate].
        intros _. apply exist_ok_handler_Ok in Hh as (-> & _ & Hdir). cbn [snd].
        split; [ | exact Hdir]. rewrite node_at_cons in Hdir.
        intros q Hq. apply elem_of_cons in Hq as [-> | Hq]; [exact Hdir | ].
        exact (tree_ancestors m r c up Dir Htree Hwf Hdir q Hq).
    + intros _. cbn [snd]. cbn [tail] in Hwalk.
      split; [ | rewrite node_at_cons; apply lookup_insert_eq].
      intros q Hq. apply elem_of_cons in Hq as [-> | Hq]; [apply lookup_insert_eq | ].
      destruct (decide (str (mkPath r (rev (c :: up))) = q)) as [<- | Hne];
        [apply lookup_insert_eq | ].
      rewrite lookup_insert_ne by exact Hne. exact (proj1 (walk_None m r up) Hwalk q Hq).
Qed.

(** When [mkdir] returns, the path is a directory, whatever the file
    system was like. *)
Lemma pathlib_mkdir_Ok_self (r : string) (rparts : list string) (m : gmap string node) :
  (pathlib_mkdir env r rparts m).1 = Ok tt ->
  node_at (pathlib_mkdir env r rparts m).2 r rparts = Some Dir.
Proof.
  rewrite pathlib_mkdir_eq.
  destruct (os_mkdir_cases r rparts m) as [[e Hos] | (Hos & _ & Hne & _)]; rewrite Hos.
  - destruct (is_FileNotFoundError e).
    + destruct rparts as [ | c up]; [discriminate | ].
      destruct (pathlib_mkdir env r up m) as [[[] | e'] m2]; [ | discriminate].
      destruct (mkdir_exist_ok env r (c :: up) m2) as [[[] | e'] m3] eqn:Hlast;
        [ | discriminate].
      intros _. cbn [snd]. apply mkdir_exist_ok_Ok in Hlast as [Hself _].
      rewrite node_at_cons. exact Hself.
    + destruct (exist_ok_handler env e r rparts m) as [[[] | e'] m'] eqn:Hh;
        [ | discriminate].
      intros _. apply exist_ok_handler_Ok in Hh as (-> & _ & Hdir). exact Hdir.
  - intros _. cbn [snd]. destruct rparts as [ | c up]; [contradiction | ].
    rewrite node_at_cons. apply lookup_insert_eq.
Qed.

(** What a successful [mkdir] tells about the system's answer at the
    path itself. *)
Lemma pathlib_mkdir_Ok_oracle (r : string) (rparts : list string) (m : gmap string node)
    (e : exn) :
  is_tree m -> wf_path (mkPath r (rev rparts)) ->
  (pathlib_mkdir env r rparts m).1 = Ok tt ->
  mkdir_error env (str (mkPath r (rev rparts))) = Some e ->
  is_FileNotFoundError e = false /\ is_OSError e = true.
Proof.
  intros Htree Hwf Hok He. rewrite pathlib_mkdir_eq in Hok.
  destruct rparts as [ | c up].
  - unfold os_mkdir in Hok. cbn [tail walk] in Hok. rewrite He in Hok.
    destruct (is_FileNotFoundError e); [discriminate | ].
    destruct (exist_ok_handler env e r [] m) as [[[] | e'] m'] eqn:Hh; [ | discriminate].
    apply exist_ok_handler_Ok in Hh as (_ & Hos & _). auto.
  - destruct (walk m r up) as [ew | ] eqn:Hwalk.
    + unfold os_mkdir in Hok. cbn [tail] in Hok. rewrite Hwalk in Hok.
      destruct (is_FileNotFoundError ew) eqn:Hfnf.
      * pose proof (pathlib_mkdir_Ok r up m Htree (wf_path_up r c up Hwf)) as Hup.
        destruct (pathlib_mkdir env r up m) as [[[] | e'] m2]; [ | discriminate].
        cbn [fst snd] in Hup. destruct (Hup eq_refl) as [Hdirs _].
        destruct (mkdir_exist_ok env r (c :: up) m2) as [[[] | e'] m3] eqn:Hlast;
          [ | discriminate].
        apply mkdir_exist_ok_Ok in Hlast as [_ Horacle].
        apply Horacle; [apply walk_None; exact Hdirs | exact He].
      * destruct (exist_ok_handler env ew r (c :: up) m) as [[[] | e'] m'] eqn:Hh;
          [ | discriminate].
        apply exist_ok_handler_Ok in Hh as (_ & _ & Hdir). rewrite node_at_cons in Hdir.
        rewrite (proj2 (walk_None m r up)) in Hwalk; [discriminate | ].
        exact (tree_ancestors m r c up Dir Htree Hwf Hdir).
    + unfold os_mkdir in Hok. cbn [tail] in Hok. rewrite Hwalk, He in Hok.
      destruct (is_FileNotFoundError e) eqn:Hfnf.
      * exfalso.
        pose proof (pathlib_mkdir_adds r up m) as Hadd.
        destruct (pathlib_mkdir env r up m) as [[[] | e'] m2]; [ | discriminate].
        cbn [snd] in Hadd.
        destruct (mkdir_exist_ok env r (c :: up) m2) as [[[] | e'] m3] eqn:Hlast;
          [ | discriminate].
        apply mkdir_exist_ok_Ok in Hlast as [_ Horacle].
        destruct (Horacle) with (e := e) as [Hno _]; [ | exact He | congruence].
        apply walk_None. intros q Hq.
        exact (adds_dirs_keeps _ _ _ _ _ Hadd (proj1 (walk_None m r up) Hwalk q Hq)).
      * destruct (exist_ok_handler env e r (c :: up) m) as [[[] | e'] m'] eqn:Hh;
          [ | discriminate].
        apply exist_ok_handler_Ok in Hh as (_ & Hos & _). auto.
Qed.

(** Once the directories are there, [mkdir] returns and changes nothing. *)
Lemma pathlib_mkdir_again (r : string) (rparts : list string) (m m' : gmap string node) :
  is_tree m -> wf_path (mkPath r (rev rparts)) ->
  (pathlib_mkdir env r rparts m).1 = Ok tt ->
  (forall q, q ∈ lineage_rev r rparts -> m' !! q = Some Dir) ->
  node_at m' r rparts = Some Dir ->
  pathlib_mkdir env r rparts m' = (Ok tt, m').
Proof.
  intros Htree Hwf Hok Hdirs Hself. rewrite pathlib_mkdir_eq.
  assert (Hwalk : walk m' r (tail rparts) = None).
  { apply walk_None. intros q Hq. apply Hdirs.
    destruct rparts as [ | c up]; [exact Hq | right; exact Hq]. }
  unfold os_mkdir. rewrite Hwalk, Hself.
  destruct (mkdir_error env _) as [e | ] eqn:He.
  - destruct (pathlib_mkdir_Ok_oracle r rparts m e Htree Hwf Hok He) as [-> Hos].
    apply exist_ok_handler_dir; assumption.
  - change (is_FileNotFoundError (PyExc "FileExistsError")) with false. cbn iota.
    apply exist_ok_handler_dir; [reflexivity | exact Hself].
Qed.

End Mkdir.

(** [mkdir] on a world: the file system goes through [Path_mkdir], the call
    is recorded. *)
Lemma mkdir_run (env : Env) (dir : string) (w : World) :
  mkdir_parents_exist_ok env dir w =
    ((Path_mkdir env dir (fs w)).1,
     mkWorld (mkdir_fs env (fs w) dir) (trace w ++ [MkdirCall dir])).
Proof.
  unfold mkdir_parents_exist_ok, mkdir_fs.
  destruct (Path_mkdir env dir (fs w)) as [r m]. reflexivity.
Qed.

Lemma mkdir_succeeds_Ok (env : Env) (dir : string) (m : gmap string node) :
  mkdir_succeeds env m dir = true -> (Path_mkdir env dir m).1 = Ok tt.
Proof.
  unfold mkdir_succeeds. destruct (Path_mkdir env dir m).1 as [[] | e];
    [reflexivity | discriminate].
Qed.

Lemma mkdir_succeeds_Raise (env : Env) (dir : string) (m : gmap string node) :
  mkdir_succeeds env m dir = false -> exists e, (Path_mkdir env dir m).1 = Raise e.
Proof.
  unfold mkdir_succeeds. destruct (Path_mkdir env dir m).1 as [[] | e];
    [discriminate | eauto].
Qed.

Section Batch.
Context (env : Env) (img : Image) (output_dir view_name : string).

(** One pass through the loop body never raises; it adds one to the counter
    exactly when the target verifies. *)
Lemma resize_one_run (count : Z) (t : string * (Z * Z)) (w : World) :
  resize_one env img output_dir view_name count t w =
    (Ok (count + (if verifies env img output_dir view_name t then 1 else 0)),
     mkWorld (step_fs env img output_dir view_name (fs w) t)
             (trace w ++ step_events env img output_dir view_name t)).
Proof.
  destruct t as [size_name [width height]], w as [m tr].
  unfold resize_one, try_except, verifies, step_fs, step_node, written, step_events,
    target_path.
  unfold mbind, M_bind, mret, M_ret, Image_resize, Image_save, Image_open, print, emit.
  cbn [fst snd fs trace].
  destruct (resample env img (width, height)) as [r | e]; cbn [fs trace].
  - destruct (save_error env _) as [e | ]; cbn [fs trace].
    + rewrite Z.add_0_r, <- !app_assoc. destruct (save_spoils env _); reflexivity.
    + destruct (open_error env _) as [e | ]; cbn [fs trace].
      * rewrite Z.add_0_r, <- !app_assoc. reflexivity.
      * unfold lookup_path. rewrite lookup_insert_eq. cbn [size].
        destruct (size_eqb _ _); cbn [fs trace];
          rewrite ?Z.add_0_r, <- !app_assoc; reflexivity.
  - rewrite Z.add_0_r, <- !app_assoc. reflexivity.
Qed.

Lemma verified_count_cons (t : string * (Z * Z)) ts :
  verified_count env img output_dir view_name (t :: ts) =
    (if verifies env img output_dir view_name t then 1 else 0)
    + verified_count env img output_dir view_name ts.
Proof.
  unfold verified_count. cbn [List.filter].
  destruct (verifies _ _ _ _ t); cbn [length]; lia.
Qed.

(** The whole loop, by induction on the list of targets. *)
Lemma batch_run (ts : list (string * (Z * Z))) (count : Z) (w : World) :
  for_each ts (resize_one env img output_dir view_name) count w =
    (Ok (count + verified_count env img output_dir view_name ts),
     mkWorld (foldl (step_fs env img output_dir view_name) (fs w) ts)
             (trace w ++ concat (map (step_events env img output_dir view_name) ts))).
Proof.
  revert count w. induction ts as [ | t ts IH]; intros count w.
  - destruct w. cbn. unfold verified_count. cbn.
    rewrite Z.add_0_r, app_nil_r. reflexivity.
  - cbn [for_each]. unfold mbind, M_bind at 1.
    rewrite resize_one_run, IH, verified_count_cons. cbn [fs trace foldl map concat].
    rewrite Z.add_assoc, <- app_assoc. reflexivity.
Qed.

End Batch.

Section Run.
Context (env : Env) (input_path : string) (output_dir : option string)
        (view_name : string).

(** A missing input: one message, nothing else. *)
Lemma run_missing (w : World) :
  lookup_path (fs w) (Path input_path) = None ->
  stat_error env (Path input_path) = None ->
  resize_screenshot env input_path output_dir view_name w =
    (Ok false, mkWorld (fs w) (trace w ++ [Printed (MsgNotFound (Path input_path))])).
Proof.
  intros Hnone Hstat. unfold resize_screenshot, path_exists, mbind, M_bind.
  rewrite Hnone, Hstat. reflexivity.
Qed.

(** An input whose existence cannot be checked: the exception of [exists]
    leaves the function. *)
Lemma run_stat_fails (w : World) (e : exn) :
  lookup_path (fs w) (Path input_path) = None ->
  stat_error env (Path input_path) = Some e ->
  resize_screenshot env input_path output_dir view_name w = (Raise e, w).
Proof.
  intros Hnone Hstat. unfold resize_screenshot, path_exists, mbind, M_bind.
  rewrite Hnone, Hstat. reflexivity.
Qed.

(** An input [Image.open] rejects: the attempt to open it and one message. *)
Lemma run_undecodable (w : World) (e : exn) :
  is_Some (lookup_path (fs w) (Path input_path)) ->
  (Image_open env (Path input_path) w).1 = Raise e ->
  resize_screenshot env input_path output_dir view_name w =
    (Ok false,
     mkWorld (fs w)
       (trace w ++ [OpenCall (Path input_path); Printed (MsgLoadError e)])).
Proof.
  intros [n Hsome] Hopen. unfold resize_screenshot, path_exists, mbind, M_bind.
  rewrite Hsome. cbn [negb].
  unfold try_except, mbind, M_bind.
  unfold Image_open in *.
  destruct (open_error env (Path input_path)) as [e' | ].
  - cbn in Hopen. injection Hopen as ->. cbn. rewrite <- app_assoc. reflexivity.
  - rewrite Hsome in *. destruct n as [ | im | ]; cbn in Hopen;
      try discriminate; injection Hopen as <-; cbn; rewrite <- app_assoc; reflexivity.
Qed.

Lemma lookup_path_Some (m : gmap string node) (p : string) (n : node) :
  m !! p = Some n -> lookup_path m p = Some n.
Proof. intros H. unfold lookup_path. rewrite H. reflexivity. Qed.

(** A decodable input: what happens depends on [mkdir]. *)
Lemma run_loaded (img : Image) (w : World) :
  fs w !! Path input_path = Some (Picture img) ->
  open_error env (Path input_path) = None ->
  resize_screenshot env input_path output_dir view_name w =
    let dir := resolve_output_dir output_dir in
    let seen := [OpenCall (Path input_path);
                 Printed (MsgLoaded (Path input_path) (size img).1 (size img).2);
                 MkdirCall dir] in
    match (Path_mkdir env dir (fs w)).1 with
    | Raise e => (Raise e, mkWorld (mkdir_fs env (fs w) dir) (trace w ++ seen))
    | Ok _ =>
        (Ok (verified_count env img dir view_name SCREENSHOT_SIZES =? 4),
         mkWorld
           (foldl (step_fs env img dir view_name) (mkdir_fs env (fs w) dir) SCREENSHOT_SIZES)
           (trace w ++ seen
              ++ concat (map (step_events env img dir view_name) SCREENSHOT_SIZES)
              ++ [Printed (MsgSummary (verified_count env img dir view_name SCREENSHOT_SIZES) 4);
                  Printed (MsgOutputDir dir)]))
    end.
Proof.
  intros Hin Hopen. cbv zeta. unfold resize_screenshot, path_exists, mbind, M_bind.
  rewrite (lookup_path_Some _ _ _ Hin). cbn [negb].
  unfold try_except, mbind, M_bind, Image_open.
  rewrite Hopen, (lookup_path_Some _ _ _ Hin). cbn [print emit fs trace mret M_ret].
  fold (resolve_output_dir output_dir).
  rewrite mkdir_run. cbn [fs trace fst snd].
  destruct (Path_mkdir env (resolve_output_dir output_dir) (fs w)).1 as [[] | e].
  - rewrite batch_run. cbn [fs trace length SCREENSHOT_SIZES Z.of_nat].
    rewrite Z.add_0_l, <- !app_assoc. reflexivity.
  - rewrite <- !app_assoc. reflexivity.
Qed.

(** A decodable input whose output directory can be made: the batch runs to
    its end and the result is read off the counter. *)
Lemma run_batch (img : Image) (w : World) :
  fs w !! Path input_path = Some (Picture img) ->
  open_error env (Path input_path) = None ->
  mkdir_succeeds env (fs w) (resolve_output_dir output_dir) = true ->
  resize_screenshot env input_path output_dir view_name w =
    (Ok (verified_count env img (resolve_output_dir output_dir) view_name SCREENSHOT_SIZES =? 4),
     mkWorld
       (foldl (step_fs env img (resolve_output_dir output_dir) view_name)
              (mkdir_fs env (fs w) (resolve_output_dir output_dir)) SCREENSHOT_SIZES)
       (trace w
          ++ [OpenCall (Path input_path);
              Printed (MsgLoaded (Path input_path) (size img).1 (size img).2);
              MkdirCall (resolve_output_dir output_dir)]
          ++ concat (map (step_events env img (resolve_output_dir output_dir) view_name)
                         SCREENSHOT_SIZES)
          ++ [Printed (MsgSummary
                       (verified_count env img (resolve_output_dir output_dir) view_name
                                       SCREENSHOT_SIZES) 4);
              Printed (MsgOutputDir (resolve_output_dir output_dir))])).
Proof.
  intros Hin Hopen Hmk. rewrite (run_loaded img w Hin Hopen). cbv zeta.
  rewrite (mkdir_succeeds_Ok _ _ _ Hmk). reflexivity.
Qed.

(** When [mkdir] raises, the exception leaves [resize_screenshot]; what
    [mkdir] made before it failed stays. *)
Lemma run_mkdir_fails (img : Image) (w : World) :
  fs w !! Path input_path = Some (Picture img) ->
  open_error env (Path input_path) = None ->
  mkdir_succeeds env (fs w) (resolve_output_dir output_dir) = false ->
  exists e,
    (Path_mkdir env (resolve_output_dir output_dir) (fs w)).1 = Raise e
    /\ resize_screenshot env input_path output_dir view_name w =
         (Raise e,
          mkWorld (mkdir_fs env (fs w) (resolve_output_dir output_dir))
            (trace w ++ [OpenCall (Path input_path);
                         Printed (MsgLoaded (Path input_path) (size img).1 (size img).2);
                         MkdirCall (resolve_output_dir output_dir)])).
Proof.
  intros Hin Hopen Hmk. destruct (mkdir_succeeds_Raise _ _ _ Hmk) as [e He].
  exists e. split; [exact He | ]. rewrite (run_loaded img w Hin Hopen). cbv zeta.
  rewrite He. reflexivity.
Qed.

End Run.

Lemma save_calls_app (a b : list event) :
  save_calls (a ++ b) = save_calls a ++ save_calls b.
Proof. apply omap_app. Qed.

Lemma resize_calls_app (a b : list event) :
  resize_calls (a ++ b) = resize_calls a ++ resize_calls b.
Proof. apply omap_app. Qed.

Lemma mkdir_calls_app (a b : list event) :
  mkdir_calls (a ++ b) = mkdir_calls a ++ mkdir_calls b.
Proof. apply omap_app. Qed.

(** [main] with at least an input path on the command line. *)
Lemma main_run (env : Env) (prog input_path : string) (rest : list string) (w : World) :
  main env (prog :: input_path :: rest) w =
    match resize_screenshot env input_path (rest !! 1%nat)
            (default "screenshot" (rest !! 0%nat))
            (mkWorld (fs w)
               (trace w ++ [Printed (MsgBanner input_path
                                     (default "screenshot" (rest !! 0%nat)))])) with
    | (Ok success, w') => (Ok (if success then 0 else 1), w')
    | (Raise e, w') => (Raise e, w')
    end.
Proof.
  unfold main. cbn [length].
  destruct (Z.ltb_spec (Z.of_nat (S (S (length rest)))) 2) as [Hlt | _]; [lia | ].
  cbn [lookup list_lookup default option_rect].
  destruct rest as [ | view_name [ | dir rest]]; cbn [length lookup list_lookup default].
  - reflexivity.
  - reflexivity.
  - destruct (Z.ltb_spec 3 (Z.of_nat (S (S (S (S (length rest))))))) as [_ | Hge]; [ | lia].
    destruct (Z.ltb_spec 2 (Z.of_nat (S (S (S (S (length rest))))))) as [_ | Hge]; [ | lia].
    reflexivity.
Qed.

(** The five ways a run can go. *)
Lemma run_cases (env : Env) (input_path : string) (output_dir : option string)
    (view_name : string) (w : World) :
  (names_nothing env input_path w
   /\ resize_screenshot env input_path output_dir view_name w =
        (Ok false, mkWorld (fs w) (trace w ++ [Printed (MsgNotFound (Path input_path))])))
  \/ (exists e,
        lookup_path (fs w) (Path input_path) = None
        /\ stat_error env (Path input_path) = Some e
        /\ resize_screenshot env input_path output_dir view_name w = (Raise e, w))
  \/ (exists e,
        open_refuses env input_path w
        /\ (Image_open env (Path input_path) w).1 = Raise e
        /\ resize_screenshot env input_path output_dir view_name w =
             (Ok false,
              mkWorld (fs w)
                (trace w ++ [OpenCall (Path input_path); Printed (MsgLoadError e)])))
  \/ (exists img e,
        fs w !! Path input_path = Some (Picture img)
        /\ open_error env (Path input_path) = None
        /\ mkdir_succeeds env (fs w) (resolve_output_dir output_dir) = false
        /\ (Path_mkdir env (resolve_output_dir output_dir) (fs w)).1 = Raise e
        /\ resize_screenshot env input_path output_dir view_name w =
             (Raise e,
              mkWorld (mkdir_fs env (fs w) (resolve_output_dir output_dir))
                (trace w ++ [OpenCall (Path input_path);
                             Printed (MsgLoaded (Path input_path) (size img).1 (size img).2);
                             MkdirCall (resolve_output_dir output_dir)])))
  \/ (exists img,
        fs w !! Path input_path = Some (Picture img)
        /\ open_error env (Path input_path) = None
        /\ mkdir_succeeds env (fs w) (resolve_output_dir output_dir) = true
        /\ resize_screenshot env input_path output_dir view_name w =
             (Ok (verified_count env img (resolve_output_dir output_dir) view_name
                                 SCREENSHOT_SIZES =? 4),
              mkWorld
                (foldl (step_fs env img (resolve_output_dir output_dir) view_name)
                       (mkdir_fs env (fs w) (resolve_output_dir output_dir)) SCREENSHOT_SIZES)
                (trace w
                   ++ [OpenCall (Path input_path);
                       Printed (MsgLoaded (Path input_path) (size img).1 (size img).2);
                       MkdirCall (resolve_output_dir output_dir)]
                   ++ concat (map (step_events env img (resolve_output_dir output_dir)
                                               view_name) SCREENSHOT_SIZES)
                   ++ [Printed (MsgSummary
                                  (verified_count env img (resolve_output_dir output_dir)
                                                  view_name SCREENSHOT_SIZES) 4);
                       Printed (MsgOutputDir (resolve_output_dir output_dir))]))).
Proof.
  destruct (lookup_path (fs w) (Path input_path)) as [n | ] eqn:Hlook.
  - right. right.
    destruct (Image_open env (Path input_path) w) as [[img | e] w1] eqn:Hop.
    + right.
      assert (Hin : fs w !! Path input_path = Some (Picture img)
                    /\ open_error env (Path input_path) = None).
      { unfold Image_open in Hop. destruct (open_error env (Path input_path)); [discriminate | ].
        rewrite Hlook in Hop. destruct n as [ | im | ]; try discriminate.
        injection Hop as -> _. split; [ | reflexivity].
        unfold lookup_path in Hlook. destruct (fs w !! Path input_path); [exact Hlook | ].
        destruct (is_anchor _); discriminate. }
      destruct Hin as [Hin Hopen].
      destruct (mkdir_succeeds env (fs w) (resolve_output_dir output_dir)) eqn:Hmk.
      * right. exists img. repeat split; try assumption.
        exact (run_batch env input_path output_dir view_name img w Hin Hopen Hmk).
      * left.
        destruct (run_mkdir_fails env input_path output_dir view_name img w Hin Hopen Hmk)
          as (e & He & Hrun).
        exists img, e. repeat split; assumption.
    + left. exists e.
      assert (Hsome : is_Some (lookup_path (fs w) (Path input_path))) by (rewrite Hlook; eauto).
      split; [split; [exact Hsome | exists e; rewrite Hop; reflexivity] | ].
      split; [reflexivity | ].
      apply run_undecodable; [exact Hsome | rewrite Hop; reflexivity].
  - destruct (stat_error env (Path input_path)) as [e | ] eqn:Hstat.
    + right. left. exists e. split; [reflexivity | ]. split; [reflexivity | ].
      apply run_stat_fails; assumption.
    + left. split; [split; [exact Hlook | exact Hstat] | ].
      apply run_missing; assumption.
Qed.



(** *** Output paths *)

Ltac each_target H :=
  unfold SCREENSHOT_SIZES in H;
  repeat (apply elem_of_cons in H as [-> | H]);
  [ .. | apply elem_of_nil in H; destruct H ].

(** What [parse] makes of a name that starts with two or more characters
    other than the separator. *)
Lemma parse_prefixed (x s : string) :
  sep_free x = true -> (2 <= String.length x)%nat ->
  exists hd tl,
    split_sep s = hd :: tl
    /\ parse (x +:+ s) = mkPath EmptyString ((x +:+ hd) :: List.filter is_part tl).
Proof.
  intros Hfree Hlen. destruct (split_sep_cons s) as (hd & tl & Hs). exists hd, tl.
  split; [exact Hs | ].
  destruct x as [ | c [ | c' x]]; cbn in Hlen; try lia.
  pose proof Hfree as Hc. cbn [sep_free] in Hc. apply andb_true_iff in Hc as [Hc _].
  apply negb_true_iff in Hc.
  unfold parse. rewrite (append_cons c). cbn [lstrip_sep]. rewrite Hc. cbn [fst snd].
  rewrite <- (append_cons c), (split_sep_prefix _ s Hfree), Hs. cbn [List.filter].
  assert (Hpart : is_part (String c (String c' x) +:+ hd) = true).
  { rewrite !append_cons. unfold is_part. cbn [String.eqb].
    destruct (Ascii.eqb c "."); reflexivity. }
  rewrite Hpart. reflexivity.
Qed.

(** The path of a registered target: the components of the directory, then
    those of the file name, the first of which starts with the size name. *)
Lemma target_path_parts (dir view_name : string) (t : string * (Z * Z)) :
  t ∈ SCREENSHOT_SIZES ->
  exists hd tl,
    target_path dir view_name t
      = str (mkPath (root (parse dir)) (parts (parse dir) ++ (t.1 +:+ hd) :: tl))
    /\ wf_path (mkPath (root (parse dir)) (parts (parse dir) ++ (t.1 +:+ hd) :: tl))
    /\ forall t', t' ∈ SCREENSHOT_SIZES ->
         exists tl',
           target_path dir view_name t'
             = str (mkPath (root (parse dir)) (parts (parse dir) ++ (t'.1 +:+ hd) :: tl'))
           /\ wf_path (mkPath (root (parse dir))
                              (parts (parse dir) ++ (t'.1 +:+ hd) :: tl')).
Proof.
  intros Ht.
  assert (Hnames : forall t', t' ∈ SCREENSHOT_SIZES ->
            sep_free t'.1 = true /\ (2 <= String.length t'.1)%nat).
  { intros t' Ht'. each_target Ht'; split; first [reflexivity | cbn; lia]. }
  assert (Hpath : forall t', t' ∈ SCREENSHOT_SIZES ->
            exists hd tl0 tl,
              split_sep ("_" +:+ view_name +:+ ".png") = hd :: tl0
              /\ target_path dir view_name t'
                 = str (mkPath (root (parse dir)) (parts (parse dir) ++ (t'.1 +:+ hd) :: tl))
              /\ wf_path (mkPath (root (parse dir))
                                 (parts (parse dir) ++ (t'.1 +:+ hd) :: tl))).
  { intros t' Ht'. destruct (Hnames t' Ht') as [Hfree Hlen].
    destruct (parse_prefixed t'.1 ("_" +:+ view_name +:+ ".png") Hfree Hlen)
      as (hd & tl & Hs & Hparse).
    exists hd, tl, (List.filter is_part tl). split; [exact Hs | ].
    pose proof (truediv_wf (parse dir) (output_name t'.1 view_name) (parse_wf dir)) as Hwf.
    unfold target_path, path_join, truediv in *. unfold output_name in *.
    rewrite Hparse in *. cbn [root parts] in *. auto. }
  destruct (Hpath t Ht) as (hd & tl0 & tl & Hs & Heq & Hwf). exists hd, tl.
  split; [exact Heq | ]. split; [exact Hwf | ].
  intros t' Ht'. destruct (Hpath t' Ht') as (hd' & tl0' & tl' & Hs' & Heq' & Hwf').
  rewrite Hs in Hs'. injection Hs' as <- _. exists tl'. auto.
Qed.

(** Two registered targets are never written to the same path. *)
Lemma target_path_inj (dir view_name : string) (t t' : string * (Z * Z)) :
  t ∈ SCREENSHOT_SIZES -> t' ∈ SCREENSHOT_SIZES ->
  target_path dir view_name t = target_path dir view_name t' -> t = t'.
Proof.
  intros Ht Ht' Heq.
  destruct (target_path_parts dir view_name t Ht) as (hd & tl & Hp & Hwf & Hothers).
  destruct (Hothers t' Ht') as (tl' & Hp' & Hwf').
  assert (Hsame : mkPath (root (parse dir)) (parts (parse dir) ++ (t.1 +:+ hd) :: tl)
                  = mkPath (root (parse dir)) (parts (parse dir) ++ (t'.1 +:+ hd) :: tl')).
  { apply str_inj; [exact Hwf | exact Hwf' | ]. rewrite <- Hp, <- Hp'. exact Heq. }
  assert (Hhead : t.1 +:+ hd = t'.1 +:+ hd).
  { injection Hsame as Hsame. apply app_inv_head in Hsame.
    injection Hsame as Hh _. exact Hh. }
  clear - Ht Ht' Hhead.
  each_target Ht; each_target Ht'; cbn [fst] in Hhead; first [reflexivity | exfalso];
    vm_compute in Hhead; discriminate Hhead.
Qed.

Lemma lineage_rev_elem (r : string) (rparts : list string) (q : string) :
  q ∈ lineage_rev r rparts ->
  exists pre suffix,
    q = str (mkPath r (rev suffix)) /\ suffix <> [] /\ rparts = pre ++ suffix.
Proof.
  induction rparts as [ | c up IH]; cbn [lineage_rev]; intros Hq.
  - apply elem_of_nil in Hq. destruct Hq.
  - apply elem_of_cons in Hq as [-> | Hq].
    + exists [], (c :: up). split; [reflexivity | ]. split; [discriminate | reflexivity].
    + destruct (IH Hq) as (pre & suffix & -> & Hne & ->).
      exists (c :: pre), suffix. split; [reflexivity | ]. split; [exact Hne | reflexivity].
Qed.

(** No output file takes the place of the output directory or of anything
    above it. *)
Lemma target_not_above (dir view_name : string) (t : string * (Z * Z)) (ps : list string) :
  t ∈ SCREENSHOT_SIZES ->
  (length ps <= length (parts (parse dir)))%nat ->
  wf_path (mkPath (root (parse dir)) ps) ->
  target_path dir view_name t <> str (mkPath (root (parse dir)) ps).
Proof.
  intros Ht Hlen Hwf Heq.
  destruct (target_path_parts dir view_name t Ht) as (hd & tl & Hp & Hwf' & _).
  rewrite Hp in Heq. apply str_inj in Heq; [ | exact Hwf' | exact Hwf].
  apply (f_equal parts) in Heq. cbn [parts] in Heq.
  rewrite <- Heq, length_app in Hlen. cbn [length] in Hlen. lia.
Qed.

Lemma output_not_in_lineage (dir view_name : string) (t : string * (Z * Z)) (q : string) :
  t ∈ SCREENSHOT_SIZES -> q ∈ lineage dir -> target_path dir view_name t <> q.
Proof.
  intros Ht Hq. apply lineage_rev_elem in Hq as (pre & suffix & -> & _ & Hsplit).
  assert (Hparts : parts (parse dir) = rev suffix ++ rev pre).
  { rewrite <- (rev_involutive (parts (parse dir))), Hsplit, rev_app_distr. reflexivity. }
  apply target_not_above; [exact Ht | | ].
  - rewrite Hparts, length_app. lia.
  - destruct (parse_wf dir) as [Hr Hps]. split; [exact Hr | ]. cbn [parts].
    rewrite Hparts in Hps. apply Forall_app in Hps as [Hps _]. exact Hps.
Qed.

Lemma output_not_the_dir (dir view_name : string) (t : string * (Z * Z)) :
  t ∈ SCREENSHOT_SIZES ->
  target_path dir view_name t <> str (mkPath (root (parse dir)) (parts (parse dir))).
Proof.
  intros Ht. apply target_not_above; [exact Ht | lia | ].
  destruct (parse dir) as [r ps] eqn:Hd. pose proof (parse_wf dir) as Hwf.
  rewrite Hd in Hwf. exact Hwf.
Qed.

Section FinalFiles.
Context (env : Env) (img : Image) (dir view_name : string).

Lemma foldl_step_fs_other (ts : list (string * (Z * Z))) (m : gmap string node) (p : string) :
  (forall t, t ∈ ts -> target_path dir view_name t <> p) ->
  foldl (step_fs env img dir view_name) m ts !! p = m !! p.
Proof.
  revert m. induction ts as [ | t ts IH]; intros m Hp; [reflexivity | ].
  cbn [foldl]. rewrite IH by (intros t' Ht'; apply Hp; right; exact Ht').
  unfold step_fs. destruct (step_node _ _ _ _ t); [ | reflexivity].
  apply lookup_insert_ne, Hp. left.
Qed.

Lemma foldl_step_fs_node (ts : list (string * (Z * Z))) (m : gmap string node)
    (t : string * (Z * Z)) (n : node) :
  NoDup (map (target_path dir view_name) ts) ->
  t ∈ ts ->
  step_node env img dir view_name t = Some n ->
  foldl (step_fs env img dir view_name) m ts !! target_path dir view_name t = Some n.
Proof.
  revert m. induction ts as [ | t' ts IH]; intros m Hnd Ht Hw.
  - apply elem_of_nil in Ht. destruct Ht.
  - cbn [map] in Hnd. apply NoDup_cons in Hnd as [Hnotin Hnd].
    cbn [foldl]. apply elem_of_cons in Ht as [-> | Ht].
    + rewrite foldl_step_fs_other.
      * unfold step_fs. rewrite Hw. apply lookup_insert_eq.
      * intros t'' Ht'' Heq. apply Hnotin. rewrite <- Heq.
        apply list_elem_of_fmap. exists t''. split; [reflexivity | exact Ht''].
    + apply IH; assumption.
Qed.

Lemma written_step_node (t : string * (Z * Z)) (back : Image) :
  written env img dir view_name t = Some back ->
  step_node env img dir view_name t = Some (Picture back).
Proof.
  unfold written, step_node. destruct (resample env img t.2); [ | discriminate].
  destruct (save_error env _); [discriminate | ]. intros [= <-]. reflexivity.
Qed.

Lemma foldl_step_fs_written (ts : list (string * (Z * Z))) (m : gmap string node)
    (t : string * (Z * Z)) (back : Image) :
  NoDup (map (target_path dir view_name) ts) ->
  t ∈ ts ->
  written env img dir view_name t = Some back ->
  foldl (step_fs env img dir view_name) m ts !! target_path dir view_name t
    = Some (Picture back).
Proof.
  intros Hnd Ht Hw. apply foldl_step_fs_node; [exact Hnd | exact Ht | ].
  apply written_step_node. exact Hw.
Qed.

Lemma target_paths_NoDup :
  NoDup (map (target_path dir view_name) SCREENSHOT_SIZES).
Proof.
  apply NoDup_fmap_2_strong; [ | ].
  - intros t t' Ht Ht' Heq. exact (target_path_inj dir view_name t t' Ht Ht' Heq).
  - unfold SCREENSHOT_SIZES.
    repeat (apply NoDup_cons; split;
            [rewrite ?elem_of_cons, elem_of_nil; intuition discriminate | ]).
    apply NoDup_nil_2.
Qed.

(** *** Reading one target's outcome off the environment *)

Lemma resize_calls_step (t : string * (Z * Z)) :
  resize_calls (step_events env img dir view_name t) = [t.2].
Proof.
  unfold step_events.
  destruct (resample env img t.2); [ | reflexivity].
  destruct (save_error env _); [reflexivity | ].
  destruct (open_error env _); [reflexivity | ].
  destruct (size_eqb _ _); reflexivity.
Qed.

Lemma resize_calls_batch (ts : list (string * (Z * Z))) :
  resize_calls (concat (map (step_events env img dir view_name) ts)) = map snd ts.
Proof.
  induction ts as [ | t ts IH]; [reflexivity | ].
  cbn [map concat]. rewrite resize_calls_app, resize_calls_step, IH. reflexivity.
Qed.

Lemma mkdir_calls_batch (ts : list (string * (Z * Z))) :
  mkdir_calls (concat (map (step_events env img dir view_name) ts)) = [].
Proof.
  induction ts as [ | t ts IH]; [reflexivity | ].
  cbn [map concat]. rewrite mkdir_calls_app, IH, app_nil_r.
  unfold step_events. cbn [mkdir_calls omap].
  destruct (resample env img t.2); [ | reflexivity]. cbn [omap].
  destruct (save_error env _); [reflexivity | ]. cbn [omap].
  destruct (open_error env _); [reflexivity | ]. cbn [omap].
  destruct (size_eqb _ _); reflexivity.
Qed.

Lemma step_events_in_batch (ts : list (string * (Z * Z))) (t : string * (Z * Z)) (ev : event) :
  t ∈ ts -> ev ∈ step_events env img dir view_name t ->
  ev ∈ concat (map (step_events env img dir view_name) ts).
Proof.
  intros Ht Hev. induction ts as [ | t' ts IH].
  - apply elem_of_nil in Ht. destruct Ht.
  - cbn [map concat]. apply elem_of_app.
    apply elem_of_cons in Ht as [-> | Ht]; [left; exact Hev | right; exact (IH Ht)].
Qed.

(** An exception inside the [try] block is reported and costs the target
    its point. *)
Lemma step_error_logged (t : string * (Z * Z)) (e : exn) :
  step_error env img dir view_name t = Some e ->
  Printed (MsgCreateError (target_path dir view_name t) e)
    ∈ step_events env img dir view_name t
  /\ verifies env img dir view_name t = false.
Proof.
  unfold step_error, step_events, verifies, written.
  destruct (resample env img t.2) as [r | e'].
  - destruct (save_error env _) as [e' | ].
    + intros [= ->]. split; [ | reflexivity].
      do 2 right. left.
    + destruct (open_error env _) as [e' | ]; [ | discriminate].
      intros [= ->]. split; [ | reflexivity].
      do 3 right. left.
  - intros [= ->]. split; [ | reflexivity]. right. left.
Qed.

Lemma size_eqb_eq (a b : Z * Z) : size_eqb a b = true <-> a = b.
Proof.
  destruct a as [a1 a2], b as [b1 b2]. unfold size_eqb. cbn [fst snd].
  rewrite andb_true_iff, !Z.eqb_eq. split; [intros [-> ->]; reflexivity | ].
  intros [= -> ->]. auto.
Qed.

(** A target verifies exactly when a picture of the registered size reached
    the disk and could be opened again. *)
Lemma verifies_iff (t : string * (Z * Z)) :
  verifies env img dir view_name t = true <->
  exists back, written env img dir view_name t = Some back
               /\ open_error env (target_path dir view_name t) = None
               /\ size back = t.2.
Proof.
  unfold verifies. destruct (written _ _ _ _ t) as [back | ].
  - destruct (open_error env _) as [e | ].
    + split; [discriminate | ]. intros (? & _ & ? & _). discriminate.
    + rewrite size_eqb_eq. split.
      * intros Hsz. exists back. auto.
      * intros (back' & [= <-] & _ & Hsz). exact Hsz.
  - split; [discriminate | ]. intros (? & ? & _). discriminate.
Qed.

Lemma verifies_fault_free (t : string * (Z * Z)) :
  is_ok (resample env img t.2) = true ->
  save_error env (target_path dir view_name t) = None ->
  open_error env (target_path dir view_name t) = None ->
  (forall im, size (png_reread env im) = size im) ->
  verifies env img dir view_name t = true.
Proof.
  intros Hres Hsave Hopen Hsize. apply verifies_iff. unfold written.
  destruct (resample env img t.2) as [r | e]; [ | discriminate].
  rewrite Hsave. eexists. split; [reflexivity | ]. split; [exact Hopen | ].
  rewrite Hsize. reflexivity.
Qed.

Lemma verifies_save_refused (t : string * (Z * Z)) :
  is_Some (save_error env (target_path dir view_name t)) ->
  verifies env img dir view_name t = false.
Proof.
  intros [e He]. unfold verifies, written. rewrite He.
  destruct (resample env img t.2); reflexivity.
Qed.

(** The counter is full exactly when every target verifies. *)
Lemma verified_count_full (ts : list (string * (Z * Z))) :
  verified_count env img dir view_name ts = Z.of_nat (length ts) <->
  forall t, t ∈ ts -> verifies env img dir view_name t = true.
Proof.
  unfold verified_count. rewrite Nat2Z.inj_iff.
  induction ts as [ | t ts IH]; cbn [List.filter length].
  - split; [ | reflexivity]. intros _ t Ht. apply elem_of_nil in Ht. destruct Ht.
  - pose proof (List.filter_length_le (verifies env img dir view_name) ts) as Hle.
    destruct (verifies env img dir view_name t) eqn:Hv; cbn [length].
    + split.
      * intros Hlen t' Ht'. apply elem_of_cons in Ht' as [-> | Ht']; [exact Hv | ].
        apply IH; [lia | exact Ht'].
      * intros Hall. f_equal. apply IH. intros t' Ht'. apply Hall. right. exact Ht'.
    + split; [lia | ]. intros Hall. rewrite Hall in Hv by left. discriminate.
Qed.

End FinalFiles.

(** C1 — Once the input is loaded and the output directory is in place, the
    batch returns without raising and calls [resize] once for every registered
    target, in table order, whatever fails on the way; a target whose
    resize, save or reopen raises gets its error line printed and no point;
    the counter printed in the summary is the number of targets whose
    reopened file has the registered size. In particular, when exactly one of
    the four saves is refused and nothing else goes wrong, the other three
    files are on disk at their registered sizes and the counter is 3. *)
Theorem failing_target_is_skipped
    (env : Env) (input_path : string) (output_dir : option string)
    (view_name : string) (img : Image) (w : World) :
  fs w !! Path input_path = Some (Picture img) ->
  open_error env (Path input_path) = None ->
  mkdir_succeeds env (fs w) (resolve_output_dir output_dir) = true ->
  let dir := resolve_output_dir output_dir in
  let count := verified_count env img dir view_name SCREENSHOT_SIZES in
  exists w',
    resize_screenshot env input_path output_dir view_name w = (Ok (count =? 4), w')
    /\ resize_calls (trace w') = resize_calls (trace w) ++ map snd SCREENSHOT_SIZES
    /\ (forall t e, t ∈ SCREENSHOT_SIZES ->
          step_error env img dir view_name t = Some e ->
          Printed (MsgCreateError (target_path dir view_name t) e) ∈ trace w'
          /\ verifies env img dir view_name t = false)
    /\ Printed (MsgSummary count 4) ∈ trace w'
    /\ (forall t0, t0 ∈ SCREENSHOT_SIZES ->
          is_Some (save_error env (target_path dir view_name t0)) ->
          (forall t, t ∈ SCREENSHOT_SIZES -> t <> t0 ->
             save_error env (target_path dir view_name t) = None) ->
          (forall t, t ∈ SCREENSHOT_SIZES ->
             is_ok (resample env img t.2) = true
             /\ open_error env (target_path dir view_name t) = None) ->
          (forall im, size (png_reread env im) = size im) ->
          count = 3
          /\ forall t, t ∈ SCREENSHOT_SIZES -> t <> t0 ->
               exists back, fs w' !! target_path dir view_name t = Some (Picture back)
                            /\ size back = t.2).
Proof.
  intros Hin Hopen Hmk dir count.
  rewrite (run_batch env input_path output_dir view_name img w Hin Hopen Hmk).
  fold dir. fold count. eexists. split; [reflexivity | ]. cbn [fs trace].
  split; [ | split; [ | split]].
  - rewrite !resize_calls_app, resize_calls_batch. cbn [resize_calls omap].
    rewrite app_nil_r. reflexivity.
  - intros t e Ht He.
    destruct (step_error_logged env img dir view_name t e He) as [Hlog Hno].
    split; [ | exact Hno].
    apply elem_of_app. right. apply elem_of_app. right. apply elem_of_app. left.
    exact (step_events_in_batch env img dir view_name _ t _ Ht Hlog).
  - apply elem_of_app. right. apply elem_of_app. right. apply elem_of_app. right. left.
  - intros t0 Ht0 Hrefused Hothers Hclean Hlossless.
    assert (Hgood : forall t, t ∈ SCREENSHOT_SIZES -> t <> t0 ->
                      verifies env img dir view_name t = true).
    { intros t Ht Hne. destruct (Hclean t Ht) as [Hres Hop].
      exact (verifies_fault_free env img dir view_name t Hres (Hothers t Ht Hne) Hop Hlossless). }
    pose proof (verifies_save_refused env img dir view_name t0 Hrefused) as Hbad.
    split.
    + unfold count, verified_count, SCREENSHOT_SIZES. cbn [List.filter].
      each_target Ht0; rewrite Hbad;
        rewrite ?Hgood by (first [discriminate | solve [repeat constructor]]);
        reflexivity.
    + intros t Ht Hne.
      destruct (proj1 (verifies_iff env img dir view_name t) (Hgood t Ht Hne))
        as (back & Hw & _ & Hsz).
      exists back. split; [ | exact Hsz].
      apply foldl_step_fs_written; [apply target_paths_NoDup | exact Ht | exact Hw].
Qed.

(** C2 — The table registers 1284x2778 for [iphone_67_portrait]. For every
    input picture and every registered target, a target that verifies leaves
    at its output path a picture of exactly the registered size; when nothing
    fails and the PNG round trip keeps the size, every target verifies,
    whatever the size of the input; and an input that already has the
    registered size comes out with that same size. *)
Theorem verified_output_has_registered_size
    (env : Env) (input_path : string) (output_dir : option string)
    (view_name : string) (img : Image) (w : World) :
  fs w !! Path input_path = Some (Picture img) ->
  open_error env (Path input_path) = None ->
  mkdir_succeeds env (fs w) (resolve_output_dir output_dir) = true ->
  let dir := resolve_output_dir output_dir in
  ("iphone_67_portrait", (1284, 2778)) ∈ SCREENSHOT_SIZES
  /\ exists r w',
      resize_screenshot env input_path output_dir view_name w = (Ok r, w')
      /\ forall size_name width height,
           (size_name, (width, height)) ∈ SCREENSHOT_SIZES ->
           let out := path_join dir (output_name size_name view_name) in
           (verifies env img dir view_name (size_name, (width, height)) = true ->
              exists back, fs w' !! out = Some (Picture back)
                           /\ size back = (width, height))
           /\ (is_ok (resample env img (width, height)) = true ->
               save_error env out = None ->
               open_error env out = None ->
               (forall im, size (png_reread env im) = size im) ->
               verifies env img dir view_name (size_name, (width, height)) = true
               /\ (size img = (width, height) ->
                   exists back, fs w' !! out = Some (Picture back)
                                /\ size back = size img)).
Proof.
  intros Hin Hopen Hmk dir.
  split; [left | ].
  rewrite (run_batch env input_path output_dir view_name img w Hin Hopen Hmk).
  fold dir. eexists. eexists. split; [reflexivity | ]. cbn [fs].
  intros size_name width height Ht.
  set (out := path_join dir (output_name size_name view_name)).
  assert (Hfile : verifies env img dir view_name (size_name, (width, height)) = true ->
            exists back,
              foldl (step_fs env img dir view_name) (mkdir_fs env (fs w) dir) SCREENSHOT_SIZES
                !! out = Some (Picture back)
              /\ size back = (width, height)).
  { intros Hv. apply verifies_iff in Hv as (back & Hw & _ & Hsz).
    exists back. split; [ | exact Hsz].
    exact (foldl_step_fs_written env img dir view_name SCREENSHOT_SIZES _ _ back
             (target_paths_NoDup dir view_name) Ht Hw). }
  split; [exact Hfile | ].
  intros Hres Hsave Hop Hlossless.
  pose proof (verifies_fault_free env img dir view_name (size_name, (width, height))
                Hres Hsave Hop Hlossless) as Hv.
  split; [exact Hv | ].
  intros Hsame. rewrite Hsame. exact (Hfile Hv).
Qed.

(** C5 — With an input path on the command line, a loadable input and an
    output directory that can be made, [resize_screenshot] returns the boolean
    [success_count == len(SCREENSHOT_SIZES)] without raising, and [main]
    exits with status 0 when every registered target verifies and with
    status 1 otherwise. *)
Theorem exit_status_reflects_the_counter
    (env : Env) (prog input_path : string) (rest : list string)
    (img : Image) (w : World) :
  fs w !! Path input_path = Some (Picture img) ->
  open_error env (Path input_path) = None ->
  mkdir_succeeds env (fs w) (resolve_output_dir (rest !! 1%nat)) = true ->
  let view_name := default "screenshot" (rest !! 0%nat) in
  let dir := resolve_output_dir (rest !! 1%nat) in
  let count := verified_count env img dir view_name SCREENSHOT_SIZES in
  exists status w',
    main env (prog :: input_path :: rest) w = (Ok status, w')
    /\ (exists w1, resize_screenshot env input_path (rest !! 1%nat) view_name w
                   = (Ok (count =? Z.of_nat (length SCREENSHOT_SIZES)), w1))
    /\ (status = 0 <-> count = Z.of_nat (length SCREENSHOT_SIZES))
    /\ (status = 0 <->
        forall t, t ∈ SCREENSHOT_SIZES -> verifies env img dir view_name t = true)
    /\ (status <> 0 -> status = 1).
Proof.
  intros Hin Hopen Hmk view_name dir count.
  rewrite main_run. fold view_name.
  rewrite (run_batch env input_path (rest !! 1%nat) view_name img
             (mkWorld (fs w) (trace w ++ [Printed (MsgBanner input_path view_name)]))
             Hin Hopen Hmk).
  rewrite (run_batch env input_path (rest !! 1%nat) view_name img w Hin Hopen Hmk).
  fold dir. fold count. cbn [length SCREENSHOT_SIZES Z.of_nat Pos.of_succ_nat Pos.succ].
  eexists. eexists. split; [reflexivity | ].
  split; [eexists; reflexivity | ].
  pose proof (verified_count_full env img dir view_name SCREENSHOT_SIZES) as Hfull.
  fold count in Hfull. cbn [length SCREENSHOT_SIZES Z.of_nat Pos.of_succ_nat Pos.succ] in Hfull.
  destruct (Z.eqb_spec count 4) as [Heq | Hne].
  - split; [tauto | ]. split; [ | tauto]. split; [intros _; apply Hfull; exact Heq | reflexivity].
  - split; [split; [discriminate | tauto] | ].
    split; [ | reflexivity].
    split; [discriminate | ]. intros Hall. apply Hfull in Hall. contradiction.
Qed.

(** *** The output directory *)

Lemma parse_parts_wf (dir : string) :
  wf_path (mkPath (root (parse dir)) (rev (rev (parts (parse dir))))).
Proof.
  rewrite rev_involutive. pose proof (parse_wf dir) as Hwf.
  destruct (parse dir). exact Hwf.
Qed.

Lemma mkdir_fs_adds (env : Env) (m : gmap string node) (dir : string) :
  adds_dirs (lineage dir) m (mkdir_fs env m dir).
Proof. apply pathlib_mkdir_adds. Qed.

(** After a successful [mkdir] the directory is there. *)
Lemma mkdir_fs_adds_above (env : Env) (m : gmap string node) (dir : string) :
  mkdir_succeeds env m dir = false -> adds_dirs (ancestors dir) m (mkdir_fs env m dir).
Proof.
  unfold mkdir_succeeds, mkdir_fs, Path_mkdir, ancestors. intros Hfail.
  destruct (pathlib_mkdir env (root (parse dir)) (rev (parts (parse dir))) m)
    as [[[] | e] m'] eqn:Hmk; [discriminate Hfail | ].
  exact (pathlib_mkdir_Raise_adds env _ _ _ _ _ Hmk).
Qed.

Lemma mkdir_fs_self (env : Env) (m : gmap string node) (dir : string) :
  mkdir_succeeds env m dir = true ->
  node_at (mkdir_fs env m dir) (root (parse dir)) (rev (parts (parse dir))) = Some Dir.
Proof. intros Hmk. apply pathlib_mkdir_Ok_self, mkdir_succeeds_Ok, Hmk. Qed.

(** In a tree, so is all that is above it. *)
Lemma mkdir_fs_dirs (env : Env) (m : gmap string node) (dir : string) :
  is_tree m -> mkdir_succeeds env m dir = true ->
  forall q, q ∈ lineage dir -> mkdir_fs env m dir !! q = Some Dir.
Proof.
  intros Htree Hmk.
  apply (pathlib_mkdir_Ok env _ _ m Htree (parse_parts_wf dir)).
  apply mkdir_succeeds_Ok, Hmk.
Qed.

Lemma node_at_other (m m' : gmap string node) (r : string) (rparts : list string) :
  m' !! str (mkPath r (rev rparts)) = m !! str (mkPath r (rev rparts)) ->
  node_at m' r rparts = node_at m r rparts.
Proof. intros H. unfold node_at. rewrite H. reflexivity. Qed.

Lemma node_at_dir (m : gmap string node) (dir : string) :
  is_anchor dir = false ->
  node_at m (root (parse dir)) (rev (parts (parse dir))) = Some Dir ->
  m !! Path dir = Some Dir.
Proof.
  unfold is_anchor, node_at, Path. rewrite rev_involutive.
  destruct (parse dir) as [r ps]. cbn [root parts].
  destruct (m !! str (mkPath r ps)); [intros _ H; exact H | ].
  destruct ps as [ | c ps]; [discriminate | ]. intros _.
  cbn [rev]. destruct (rev ps ++ [c]) eqn:Hrev; [ | discriminate].
  apply app_eq_nil in Hrev as [_ Hrev]. discriminate.
Qed.

Section Dirs.
Context (env : Env) (img : Image) (dir view_name : string).

(** The batch leaves the output directory and what is above it alone. *)
Lemma batch_keeps_lineage (m : gmap string node) (q : string) :
  q ∈ lineage dir ->
  foldl (step_fs env img dir view_name) m SCREENSHOT_SIZES !! q = m !! q.
Proof.
  intros Hq. apply foldl_step_fs_other. intros t Ht.
  apply output_not_in_lineage; assumption.
Qed.

Lemma batch_keeps_dir (m : gmap string node) :
  node_at (foldl (step_fs env img dir view_name) m SCREENSHOT_SIZES)
          (root (parse dir)) (rev (parts (parse dir)))
  = node_at m (root (parse dir)) (rev (parts (parse dir))).
Proof.
  apply node_at_other, foldl_step_fs_other. intros t Ht.
  rewrite rev_involutive. apply output_not_the_dir. exact Ht.
Qed.

End Dirs.

(** *** What the log says *)

Lemma status_lines_app (a b : list event) :
  status_lines (a ++ b) = status_lines a ++ status_lines b.
Proof. apply omap_app. Qed.

Lemma created_lines_app (a b : list event) :
  created_lines (a ++ b) = created_lines a ++ created_lines b.
Proof. apply omap_app. Qed.

Lemma summary_lines_app (a b : list event) :
  summary_lines (a ++ b) = summary_lines a ++ summary_lines b.
Proof. apply omap_app. Qed.

Section Log.
Context (env : Env) (img : Image) (dir view_name : string).

Lemma step_lines (t : string * (Z * Z)) :
  status_lines (step_events env img dir view_name t) = [target_path dir view_name t]
  /\ created_lines (step_events env img dir view_name t)
     = (if verifies env img dir view_name t then [target_path dir view_name t] else [])
  /\ summary_lines (step_events env img dir view_name t) = [].
Proof.
  unfold step_events, verifies, written. cbn [status_lines created_lines summary_lines omap].
  destruct (resample env img t.2); cbn [omap]; [ | auto].
  destruct (save_error env _); cbn [omap]; [auto | ].
  destruct (open_error env _); cbn [omap]; [auto | ].
  destruct (size_eqb _ _); cbn [omap]; auto.
Qed.

Lemma batch_lines (ts : list (string * (Z * Z))) :
  status_lines (concat (map (step_events env img dir view_name) ts))
    = map (target_path dir view_name) ts
  /\ Z.of_nat (length (created_lines (concat (map (step_events env img dir view_name) ts))))
     = verified_count env img dir view_name ts
  /\ summary_lines (concat (map (step_events env img dir view_name) ts)) = [].
Proof.
  induction ts as [ | t ts (IH1 & IH2 & IH3)]; [repeat split | ].
  cbn [map concat]. destruct (step_lines t) as (H1 & H2 & H3).
  rewrite status_lines_app, created_lines_app, summary_lines_app, H1, H2, H3, IH1, IH3.
  rewrite verified_count_cons, length_app, Nat2Z.inj_add, IH2.
  split; [reflexivity | ]. split; [ | reflexivity].
  destruct (verifies env img dir view_name t); reflexivity.
Qed.

End Log.

(** *** The order of the saves *)

Section SaveOrder.
Context (env : Env) (img : Image) (dir view_name : string).

Lemma save_calls_step_sublist (t : string * (Z * Z)) :
  save_calls (step_events env img dir view_name t) `sublist_of` [target_path dir view_name t].
Proof.
  unfold step_events. cbn [save_calls omap].
  destruct (resample env img t.2); cbn [omap]; [ | apply sublist_nil_l].
  destruct (save_error env _); cbn [omap]; [reflexivity | ].
  destruct (open_error env _); cbn [omap]; [reflexivity | ].
  destruct (size_eqb _ _); reflexivity.
Qed.

Lemma save_calls_batch_sublist (ts : list (string * (Z * Z))) :
  save_calls (concat (map (step_events env img dir view_name) ts))
    `sublist_of` map (target_path dir view_name) ts.
Proof.
  induction ts as [ | t ts IH]; cbn [map concat]; [reflexivity | ].
  rewrite save_calls_app.
  exact (sublist_app _ [_] _ _ (save_calls_step_sublist t) IH).
Qed.

Lemma save_calls_step_verified (t : string * (Z * Z)) :
  verifies env img dir view_name t = true ->
  save_calls (step_events env img dir view_name t) = [target_path dir view_name t].
Proof.
  unfold verifies, written, step_events. cbn [save_calls omap].
  destruct (resample env img t.2); [ | discriminate]. cbn [omap].
  destruct (save_error env _); [discriminate | ]. cbn [omap].
  destruct (open_error env _); [discriminate | ]. cbn [omap].
  destruct (size_eqb _ _); [reflexivity | discriminate].
Qed.

Lemma save_calls_batch_verified (ts : list (string * (Z * Z))) :
  (forall t, t ∈ ts -> verifies env img dir view_name t = true) ->
  save_calls (concat (map (step_events env img dir view_name) ts))
    = map (target_path dir view_name) ts.
Proof.
  induction ts as [ | t ts IH]; intros Hall; cbn [map concat]; [reflexivity | ].
  rewrite save_calls_app, save_calls_step_verified by (apply Hall; left).
  rewrite IH by (intros t' Ht'; apply Hall; right; exact Ht'). reflexivity.
Qed.

Lemma save_calls_step_failed (t : string * (Z * Z)) :
  is_ok (resample env img t.2) = false ->
  save_calls (step_events env img dir view_name t) = [].
Proof.
  unfold step_events. destruct (resample env img t.2); [discriminate | reflexivity].
Qed.

End SaveOrder.

(** The defaults written out: passing them on the command line changes
    nothing. *)
Lemma main_defaults (env : Env) (prog input_path : string) (w : World) :
  main env [prog; input_path] w
  = main env [prog; input_path; "screenshot"; "assets/upload-store/real-screenshots"] w.
Proof. rewrite !main_run. reflexivity. Qed.

Lemma default_target_paths (t : string * (Z * Z)) :
  t ∈ SCREENSHOT_SIZES ->
  target_path "assets/upload-store/real-screenshots" "screenshot" t
  = "assets/upload-store/real-screenshots" +:+ "/" +:+ t.1 +:+ "_screenshot.png".
Proof. intros Ht. each_target Ht; vm_compute; reflexivity. Qed.

(** C10 — Called with an input path only, [main] does what it does when
    ['screenshot'] and ['assets/upload-store/real-screenshots'] are given as
    view name and output directory. When the input loads, [mkdir] is called
    once on that directory, before any resize or save. If it fails, the run
    ends there with its exception. If it succeeds, the directory is there
    when the run ends, and so are its two parents; every target is attempted
    and reported under
    [assets/upload-store/real-screenshots/<size_name>_screenshot.png], no
    other path is saved to, and a target that verifies has its picture at
    that path. *)
Theorem cli_defaults_and_output_names
    (env : Env) (prog input_path : string) (img : Image) (w : World) :
  fs w !! Path input_path = Some (Picture img) ->
  open_error env (Path input_path) = None ->
  let dir := "assets/upload-store/real-screenshots" in
  let file (t : string * (Z * Z)) := dir +:+ "/" +:+ t.1 +:+ "_screenshot.png" in
  main env [prog; input_path] w = main env [prog; input_path; "screenshot"; dir] w
  /\ exists r m' new,
       main env [prog; input_path] w = (r, mkWorld m' (trace w ++ new))
       /\ mkdir_calls new = [dir]
       /\ (exists pre post,
             new = pre ++ MkdirCall dir :: post
             /\ resize_calls pre = [] /\ save_calls pre = [])
       /\ (mkdir_succeeds env (fs w) dir = false ->
           (exists e, r = Raise e) /\ resize_calls new = [] /\ save_calls new = [])
       /\ (mkdir_succeeds env (fs w) dir = true ->
           (exists status, r = Ok status)
           /\ m' !! dir = Some Dir
           /\ (is_tree (fs w) ->
               m' !! "assets" = Some Dir /\ m' !! "assets/upload-store" = Some Dir)
           /\ resize_calls new = map snd SCREENSHOT_SIZES
           /\ status_lines new = map file SCREENSHOT_SIZES
           /\ save_calls new `sublist_of` map file SCREENSHOT_SIZES
           /\ forall t, t ∈ SCREENSHOT_SIZES ->
                verifies env img dir "screenshot" t = true ->
                exists back, m' !! file t = Some (Picture back) /\ size back = t.2).
Proof.
  intros Hin Hopen dir file.
  split; [apply main_defaults | ].
  assert (Hfiles : map (target_path dir "screenshot") SCREENSHOT_SIZES
                   = map file SCREENSHOT_SIZES) by (vm_compute; reflexivity).
  rewrite main_run. cbn [lookup list_lookup default].
  rewrite (run_loaded env input_path None "screenshot" img (mkWorld (fs w) _) Hin Hopen).
  cbv zeta. change (resolve_output_dir None) with dir. cbn [fs trace].
  unfold mkdir_succeeds.
  pose proof (mkdir_fs_self env (fs w) dir) as Hself.
  pose proof (mkdir_fs_dirs env (fs w) dir) as Hdirs.
  unfold mkdir_succeeds in Hself, Hdirs.
  destruct (Path_mkdir env dir (fs w)).1 as [[] | e].
  - eexists _, _,
      ([Printed (MsgBanner input_path "screenshot")]
       ++ [OpenCall (Path input_path);
           Printed (MsgLoaded (Path input_path) (size img).1 (size img).2);
           MkdirCall dir]
       ++ concat (map (step_events env img dir "screenshot") SCREENSHOT_SIZES)
       ++ [Printed (MsgSummary (verified_count env img dir "screenshot" SCREENSHOT_SIZES) 4);
           Printed (MsgOutputDir dir)]).
    split; [rewrite <- !app_assoc; reflexivity | ].
    destruct (batch_lines env img dir "screenshot" SCREENSHOT_SIZES) as (Hstatus & _ & _).
    split; [ | split; [ | split]].
    + rewrite !mkdir_calls_app, mkdir_calls_batch. reflexivity.
    + exists [Printed (MsgBanner input_path "screenshot"); OpenCall (Path input_path);
              Printed (MsgLoaded (Path input_path) (size img).1 (size img).2)].
      eexists. split; [reflexivity | split; reflexivity].
    + discriminate.
    + intros _. split; [eexists; reflexivity | ].
      split.
      { rewrite (batch_keeps_lineage env img dir "screenshot") by (vm_compute; left).
        exact (node_at_dir _ dir eq_refl (Hself eq_refl)). }
      split.
      { intros Htree. split.
        - rewrite (batch_keeps_lineage env img dir "screenshot")
            by (vm_compute; do 2 right; left).
          apply (Hdirs Htree eq_refl). vm_compute. do 2 right. left.
        - rewrite (batch_keeps_lineage env img dir "screenshot")
            by (vm_compute; right; left).
          apply (Hdirs Htree eq_refl). vm_compute. right. left. }
      split.
      { rewrite !resize_calls_app, resize_calls_batch. reflexivity. }
      split.
      { rewrite !status_lines_app, Hstatus, Hfiles. cbn [status_lines omap app].
        rewrite app_nil_r. reflexivity. }
      split.
      { rewrite !save_calls_app. cbn [save_calls omap app]. rewrite app_nil_r, <- Hfiles.
        apply save_calls_batch_sublist. }
      intros t Ht Hv. apply verifies_iff in Hv as (back & Hw & _ & Hsz).
      exists back. split; [ | exact Hsz].
      replace (file t) with (target_path dir "screenshot" t)
        by exact (default_target_paths t Ht).
      apply foldl_step_fs_written; [apply target_paths_NoDup | exact Ht | exact Hw].
  - eexists _, _,
      ([Printed (MsgBanner input_path "screenshot")]
       ++ [OpenCall (Path input_path);
           Printed (MsgLoaded (Path input_path) (size img).1 (size img).2);
           MkdirCall dir]).
    split; [rewrite <- !app_assoc; reflexivity | ].
    split; [reflexivity | ].
    split.
    + exists [Printed (MsgBanner input_path "screenshot"); OpenCall (Path input_path);
              Printed (MsgLoaded (Path input_path) (size img).1 (size img).2)], [].
      split; [reflexivity | split; reflexivity].
    + split; [ | discriminate]. intros _. split; [eexists; reflexivity | ].
      split; reflexivity.
Qed.

(** A run with the defaults that does save: four files, in table order. *)
Example default_run_saves_four_files :
  let '(status, w') := main quiet_env ["resize-screenshots.py"; "in.png"] sample_world in
  status = Ok 0
  /\ save_calls (trace w') =
       [ "assets/upload-store/real-screenshots/iphone_67_portrait_screenshot.png";
         "assets/upload-store/real-screenshots/iphone_67_landscape_screenshot.png";
         "assets/upload-store/real-screenshots/iphone_65_portrait_screenshot.png";
         "assets/upload-store/real-screenshots/iphone_65_landscape_screenshot.png" ]
  /\ mkdir_calls (trace w') = ["assets/upload-store/real-screenshots"].
Proof. vm_compute. repeat split. Qed.

(** The sample file system is a tree: its two files sit in the current
    directory. *)
Lemma sample_world_is_tree : is_tree (fs sample_world).
Proof.
  intros p n Hp q Hq. unfold sample_world in Hp. cbn [fs] in Hp.
  apply lookup_insert_Some in Hp as [[<- _] | [_ Hp]].
  - vm_compute in Hq. apply elem_of_nil in Hq. destruct Hq.
  - apply lookup_singleton_Some in Hp as [<- _].
    vm_compute in Hq. apply elem_of_nil in Hq. destruct Hq.
Qed.

(** *** The properties at sample inputs *)

Lemma failing_target_is_skipped_witness :
  fs sample_world !! "in.png" = Some (Picture sample_image)
  /\ open_error refusing_env "in.png" = None
  /\ mkdir_succeeds refusing_env (fs sample_world) (resolve_output_dir (Some "out")) = true
  /\ exists w',
       resize_screenshot refusing_env "in.png" (Some "out") "v" sample_world = (Ok false, w')
       /\ resize_calls (trace w') = [(1284, 2778); (2778, 1284); (1242, 2688); (2688, 1242)]
       /\ Printed (MsgSummary 3 4) ∈ trace w'
       /\ Printed (MsgCreateError "out/iphone_65_portrait_v.png" (PyExc "PermissionError"))
            ∈ trace w'.
Proof.
  assert (H1 : fs sample_world !! "in.png" = Some (Picture sample_image))
    by (vm_compute; reflexivity).
  assert (H2 : open_error refusing_env "in.png" = None) by reflexivity.
  assert (H3 : mkdir_succeeds refusing_env (fs sample_world) (resolve_output_dir (Some "out")) = true)
    by (vm_compute; reflexivity).
  split; [exact H1 | split; [exact H2 | split; [exact H3 | ]]].
  destruct (failing_target_is_skipped refusing_env "in.png" (Some "out") "v"
              sample_image sample_world H1 H2 H3)
    as (w' & Hrun & Hcalls & Hlog & Hsum & Hone).
  destruct (Hone ("iphone_65_portrait", (1242, 2688))) as [Hcount _].
  - do 2 right. left.
  - vm_compute. eauto.
  - intros t Ht Hne. each_target Ht; first [reflexivity | contradiction].
  - intros t Ht. each_target Ht; split; reflexivity.
  - intros im. reflexivity.
  - exists w'. rewrite Hcount in Hrun, Hsum.
    split; [exact Hrun | ]. split; [exact Hcalls | ]. split; [exact Hsum | ].
    apply (Hlog ("iphone_65_portrait", (1242, 2688))); [do 2 right; left | reflexivity].
Defined.

Lemma verified_output_has_registered_size_witness :
  fs sample_world !! "in.png" = Some (Picture sample_image)
  /\ open_error quiet_env "in.png" = None
  /\ mkdir_succeeds quiet_env (fs sample_world) (resolve_output_dir (Some "out")) = true
  /\ exists r w',
       resize_screenshot quiet_env "in.png" (Some "out") "v" sample_world = (Ok r, w')
       /\ exists back, fs w' !! "out/iphone_67_portrait_v.png" = Some (Picture back)
                       /\ size back = (1284, 2778).
Proof.
  assert (H1 : fs sample_world !! "in.png" = Some (Picture sample_image))
    by (vm_compute; reflexivity).
  assert (H2 : open_error quiet_env "in.png" = None) by reflexivity.
  assert (H3 : mkdir_succeeds quiet_env (fs sample_world) (resolve_output_dir (Some "out")) = true)
    by (vm_compute; reflexivity).
  split; [exact H1 | split; [exact H2 | split; [exact H3 | ]]].
  destruct (verified_output_has_registered_size quiet_env "in.png" (Some "out") "v"
              sample_image sample_world H1 H2 H3)
    as (_ & r & w' & Hrun & Hall).
  exists r, w'. split; [exact Hrun | ].
  destruct (Hall "iphone_67_portrait" 1284 2778) as [Hfile _]; [left | ].
  apply Hfile. reflexivity.
Defined.


Lemma exit_status_reflects_the_counter_witness :
  fs sample_world !! "in.png" = Some (Picture sample_image)
  /\ open_error refusing_env "in.png" = None
  /\ mkdir_succeeds refusing_env (fs sample_world)
       (resolve_output_dir (["v"; "out"] !! 1%nat)) = true
  /\ exists status w',
       main refusing_env ["resize-screenshots.py"; "in.png"; "v"; "out"] sample_world
         = (Ok status, w')
       /\ status = 1.
Proof.
  assert (H1 : fs sample_world !! "in.png" = Some (Picture sample_image))
    by (vm_compute; reflexivity).
  assert (H2 : open_error refusing_env "in.png" = None) by reflexivity.
  assert (H3 : mkdir_succeeds refusing_env (fs sample_world)
                 (resolve_output_dir (["v"; "out"] !! 1%nat)) = true)
    by (vm_compute; reflexivity).
  split; [exact H1 | split; [exact H2 | split; [exact H3 | ]]].
  destruct (exit_status_reflects_the_counter refusing_env "resize-screenshots.py" "in.png"
              ["v"; "out"] sample_image sample_world H1 H2 H3)
    as (status & w' & Hrun & _ & Hiff & _ & Hone).
  exists status, w'. split; [exact Hrun | ].
  apply Hone. intros Hzero. apply Hiff in Hzero. vm_compute in Hzero. discriminate Hzero.
Defined.

Lemma cli_defaults_and_output_names_witness :
  fs sample_world !! "in.png" = Some (Picture sample_image)
  /\ open_error quiet_env "in.png" = None
  /\ exists r m' new,
       main quiet_env ["resize-screenshots.py"; "in.png"] sample_world
         = (r, mkWorld m' (trace sample_world ++ new))
       /\ mkdir_calls new = ["assets/upload-store/real-screenshots"]
       /\ m' !! "assets/upload-store/real-screenshots" = Some Dir
       /\ m' !! "assets" = Some Dir
       /\ exists back,
            m' !! "assets/upload-store/real-screenshots/iphone_67_portrait_screenshot.png"
              = Some (Picture back)
            /\ size back = (1284, 2778).
Proof.
  assert (H1 : fs sample_world !! "in.png" = Some (Picture sample_image))
    by (vm_compute; reflexivity).
  assert (H2 : open_error quiet_env "in.png" = None) by reflexivity.
  split; [exact H1 | split; [exact H2 | ]].
  destruct (cli_defaults_and_output_names quiet_env "resize-screenshots.py" "in.png"
              sample_image sample_world H1 H2)
    as (_ & r & m' & new & Hrun & Hmk & _ & _ & Hyes).
  destruct Hyes as (_ & Hdir & Hparents & _ & _ & _ & Hfilesat); [vm_compute; reflexivity | ].
  exists r, m', new. split; [exact Hrun | ]. split; [exact Hmk | ].
  split; [exact Hdir | ]. split; [exact (proj1 (Hparents sample_world_is_tree)) | ].
  apply (Hfilesat ("iphone_67_portrait", (1284, 2778))); [left | reflexivity].
Defined.

(** * Further properties of the screenshot resizer *)

(** *** The command line *)

Lemma main_short_argv (env : Env) (argv : list string) (w : World) :
  (length argv < 2)%nat ->
  main env argv w = (Ok 1, mkWorld (fs w) (trace w ++ usage_text)).
Proof.
  intros Hlen. unfold main.
  destruct (Z.ltb_spec (Z.of_nat (length argv)) 2) as [_ | Hge]; [ | lia].
  destruct w as [m tr].
  unfold usage_text, SCREENSHOT_SIZES, mbind, M_bind, print, emit. cbn [for_each fs trace].
  unfold mbind, M_bind, print, emit, mret, M_ret. cbn [fs trace map fst snd].
  rewrite <- !app_assoc. reflexivity.
Qed.

(** X1 — Started without an input path, the command line prints the usage
    text, with one line for each registered size, and exits with status 1;
    it opens, creates and writes nothing. *)
Theorem usage_without_input_path (env : Env) (argv : list string) (w : World) :
  (length argv < 2)%nat ->
  exists w',
    main env argv w = (Ok 1, w')
    /\ fs w' = fs w
    /\ trace w' = trace w ++ usage_text
    /\ length usage_text = S (length SCREENSHOT_SIZES)
    /\ open_calls (trace w') = open_calls (trace w)
    /\ mkdir_calls (trace w') = mkdir_calls (trace w)
    /\ save_calls (trace w') = save_calls (trace w).
Proof.
  intros Hlen. rewrite (main_short_argv env argv w Hlen).
  eexists. split; [reflexivity | ]. cbn [fs trace].
  split; [reflexivity | ]. split; [reflexivity | ]. split; [reflexivity | ].
  unfold open_calls, mkdir_calls, save_calls. rewrite !omap_app.
  cbn. rewrite !app_nil_r. auto.
Qed.

Lemma usage_without_input_path_witness :
  (length ["resize-screenshots.py"] < 2)%nat
  /\ exists w', main quiet_env ["resize-screenshots.py"] sample_world = (Ok 1, w')
                /\ fs w' = fs sample_world
                /\ length (trace w') = 5%nat.
Proof.
  assert (H : (length ["resize-screenshots.py"] < 2)%nat) by (simpl; lia).
  split; [exact H | ].
  destruct (usage_without_input_path quiet_env ["resize-screenshots.py"] sample_world H)
    as (w' & Hrun & Hfs & Htr & _).
  exists w'. split; [exact Hrun | ]. split; [exact Hfs | ]. rewrite Htr. reflexivity.
Defined.

(** X2 — When the input loads but the output directory cannot be made, the
    exception of [mkdir] leaves [resize_screenshot] and [main] uncaught: no
    result is returned and no target is attempted. What [mkdir] made on the
    way before it failed stays: the file system afterwards is the one
    before, with directories added above the output directory at most, and
    main leaves it as [resize_screenshot] does. *)
Theorem mkdir_failure_is_not_caught
    (env : Env) (prog input_path : string) (rest : list string)
    (img : Image) (w : World) :
  fs w !! Path input_path = Some (Picture img) ->
  open_error env (Path input_path) = None ->
  mkdir_succeeds env (fs w) (resolve_output_dir (rest !! 1%nat)) = false ->
  let dir := resolve_output_dir (rest !! 1%nat) in
  exists e w1 w2,
    (Path_mkdir env dir (fs w)).1 = Raise e
    /\ resize_screenshot env input_path (rest !! 1%nat)
         (default "screenshot" (rest !! 0%nat)) w = (Raise e, w1)
    /\ main env (prog :: input_path :: rest) w = (Raise e, w2)
    /\ fs w2 = fs w1
    /\ adds_dirs (ancestors dir) (fs w) (fs w1)
    /\ resize_calls (trace w2) = resize_calls (trace w)
    /\ save_calls (trace w2) = save_calls (trace w)
    /\ mkdir_calls (trace w2) = mkdir_calls (trace w) ++ [dir].
Proof.
  intros Hin Hopen Hmk dir. rewrite main_run.
  destruct (run_mkdir_fails env input_path (rest !! 1%nat)
              (default "screenshot" (rest !! 0%nat)) img w Hin Hopen Hmk)
    as (e & He & Hrun).
  destruct (run_mkdir_fails env input_path (rest !! 1%nat)
              (default "screenshot" (rest !! 0%nat)) img
              (mkWorld (fs w) (trace w ++ [Printed (MsgBanner input_path
                                             (default "screenshot" (rest !! 0%nat)))]))
              Hin Hopen Hmk)
    as (e' & He' & Hrun').
  cbn [fs] in He'. rewrite He in He'. injection He' as <-.
  rewrite Hrun, Hrun'. fold dir.
  exists e. eexists. eexists. split; [exact He | ].
  split; [reflexivity | ]. split; [reflexivity | ]. cbn [fs trace].
  split; [reflexivity | ]. split; [apply mkdir_fs_adds_above, Hmk | ].
  rewrite !resize_calls_app, !save_calls_app, !mkdir_calls_app.
  cbn. rewrite !app_nil_r. auto.
Qed.

Lemma mkdir_failure_is_not_caught_witness :
  fs sample_world !! "in.png" = Some (Picture sample_image)
  /\ open_error half_locked_env "in.png" = None
  /\ mkdir_succeeds half_locked_env (fs sample_world)
       (resolve_output_dir (["v"; "out/deep/"] !! 1%nat)) = false
  /\ exists w',
       main half_locked_env ["resize-screenshots.py"; "in.png"; "v"; "out/deep/"]
         sample_world = (Raise (PyExc "PermissionError"), w')
       /\ fs sample_world !! "out" = None
       /\ fs w' !! "out" = Some Dir
       /\ fs w' !! "out/deep" = None
       /\ fs w' !! "in.png" = Some (Picture sample_image).
Proof.
  assert (H1 : fs sample_world !! "in.png" = Some (Picture sample_image))
    by (vm_compute; reflexivity).
  assert (H2 : open_error half_locked_env "in.png" = None) by reflexivity.
  assert (H3 : mkdir_succeeds half_locked_env (fs sample_world)
                 (resolve_output_dir (["v"; "out/deep/"] !! 1%nat)) = false)
    by (vm_compute; reflexivity).
  split; [exact H1 | split; [exact H2 | split; [exact H3 | ]]].
  destruct (mkdir_failure_is_not_caught half_locked_env "resize-screenshots.py" "in.png"
              ["v"; "out/deep/"] sample_image sample_world H1 H2 H3)
    as (e & w1 & w2 & He & Hrun & Hmain & Hfs & _).
  exists w2. vm_compute in He. injection He as <-.
  split; [exact Hmain | ]. rewrite Hfs.
  vm_compute in Hrun. injection Hrun as <-.
  repeat split; vm_compute; reflexivity.
Defined.

(** An output directory under a regular file, and one that is a regular
    file: [mkdir] raises and so does [main]. *)
Example mkdir_under_a_file :
  (main quiet_env ["resize-screenshots.py"; "in.png"; "v"; "notes.txt/out"] sample_world).1
    = Raise (PyExc "NotADirectoryError")
  /\ (main quiet_env ["resize-screenshots.py"; "in.png"; "v"; "notes.txt"] sample_world).1
     = Raise (PyExc "FileExistsError")
  /\ (main quiet_env ["resize-screenshots.py"; "in.png"; "v"; "."] sample_world).1
     = Ok 0.
Proof. vm_compute. repeat split. Qed.

(** *** What a full counter means *)

Lemma full_counter_files (env : Env) (img : Image) (dir view_name : string)
    (m : gmap string node) :
  (verified_count env img dir view_name SCREENSHOT_SIZES =? 4) = true ->
  forall t, t ∈ SCREENSHOT_SIZES ->
    exists back, foldl (step_fs env img dir view_name) m SCREENSHOT_SIZES
                   !! target_path dir view_name t = Some (Picture back)
                 /\ size back = t.2.
Proof.
  intros Hfull t Ht. apply Z.eqb_eq in Hfull.
  pose proof (proj1 (verified_count_full env img dir view_name SCREENSHOT_SIZES) Hfull t Ht)
    as Hv.
  apply verifies_iff in Hv as (back & Hw & _ & Hsz).
  exists back. split; [ | exact Hsz].
  apply foldl_step_fs_written; [apply target_paths_NoDup | exact Ht | exact Hw].
Qed.



(** *** What a run leaves alone *)



(** X5 — For every view name and output directory, the paths a run saves to
    are paths of registered targets under that directory, as [pathlib]
    writes them, taken in table order, and none is saved to twice; [mkdir]
    is called at most once, on that directory; and a run that returns [True]
    has saved all four. *)
Theorem saves_follow_the_table
    (env : Env) (input_path : string) (output_dir : option string)
    (view_name : string) (w : World) :
  exists r m' new,
    resize_screenshot env input_path output_dir view_name w
      = (r, mkWorld m' (trace w ++ new))
    /\ save_calls new
         `sublist_of` map (target_path (resolve_output_dir output_dir) view_name)
                          SCREENSHOT_SIZES
    /\ NoDup (save_calls new)
    /\ mkdir_calls new `sublist_of` [resolve_output_dir output_dir]
    /\ (r = Ok true ->
        save_calls new = map (target_path (resolve_output_dir output_dir) view_name)
                             SCREENSHOT_SIZES).
Proof.
  destruct (run_cases env input_path output_dir view_name w)
    as [[_ Hrun] | [(e & _ & _ & Hrun) | [(e & _ & _ & Hrun)
          | [(img & e & _ & _ & _ & _ & Hrun) | (img & _ & _ & _ & Hrun)]]]];
    rewrite Hrun.
  - eexists _, _, _. split; [reflexivity | ]. cbn.
    split; [apply sublist_nil_l | ]. split; [constructor | ].
    split; [apply sublist_nil_l | discriminate].
  - exists (Raise e), (fs w), []. split; [destruct w; rewrite app_nil_r; reflexivity | ].
    cbn. split; [apply sublist_nil_l | ]. split; [constructor | ].
    split; [apply sublist_nil_l | discriminate].
  - eexists _, _, _. split; [reflexivity | ]. cbn.
    split; [apply sublist_nil_l | ]. split; [constructor | ].
    split; [apply sublist_nil_l | discriminate].
  - eexists _, _, _. split; [reflexivity | ]. cbn.
    split; [apply sublist_nil_l | ]. split; [constructor | ].
    split; [reflexivity | discriminate].
  - eexists _, _, _. split; [reflexivity | ].
    rewrite !save_calls_app, !mkdir_calls_app, mkdir_calls_batch.
    cbn [save_calls mkdir_calls omap app]. rewrite app_nil_r.
    pose proof (save_calls_batch_sublist env img (resolve_output_dir output_dir) view_name
                  SCREENSHOT_SIZES) as Hsub.
    split; [exact Hsub | ].
    split; [exact (sublist_NoDup _ _ (target_paths_NoDup _ _) Hsub) | ].
    split; [reflexivity | ].
    intros [= Hfull]. apply Z.eqb_eq in Hfull.
    apply save_calls_batch_verified.
    exact (proj1 (verified_count_full env img _ _ SCREENSHOT_SIZES) Hfull).
Qed.

(** *** Running again *)

Section Rerun.
Context (env : Env) (img : Image) (dir view_name : string).

Lemma foldl_step_fs_unwritten (ts : list (string * (Z * Z))) (m : gmap string node)
    (p : string) :
  (forall t, t ∈ ts -> target_path dir view_name t = p ->
             step_node env img dir view_name t = None) ->
  foldl (step_fs env img dir view_name) m ts !! p = m !! p.
Proof.
  revert m. induction ts as [ | t ts IH]; intros m Hp; [reflexivity | ].
  cbn [foldl]. rewrite IH by (intros t' Ht'; apply Hp; right; exact Ht').
  unfold step_fs. destruct (step_node _ _ _ _ t) as [n | ] eqn:Hw; [ | reflexivity].
  apply lookup_insert_ne. intros Heq.
  rewrite (Hp t (list_elem_of_here _ _) Heq) in Hw. discriminate.
Qed.

(** Writing the batch over its own result changes nothing. *)
Lemma foldl_step_fs_twice (ts : list (string * (Z * Z))) (m : gmap string node) :
  NoDup (map (target_path dir view_name) ts) ->
  foldl (step_fs env img dir view_name) (foldl (step_fs env img dir view_name) m ts) ts
  = foldl (step_fs env img dir view_name) m ts.
Proof.
  intros Hnd. apply map_eq. intros p.
  destruct (decide (Exists (fun t => target_path dir view_name t = p
                                     /\ is_Some (step_node env img dir view_name t)) ts))
    as [Hex | Hno].
  - apply Exists_exists in Hex as (t & Ht & <- & [n Hw]).
    rewrite !(foldl_step_fs_node env img dir view_name ts _ t n Hnd Ht Hw).
    reflexivity.
  - apply foldl_step_fs_unwritten. intros t Ht Heq.
    destruct (step_node env img dir view_name t) as [n | ] eqn:Hw; [ | reflexivity].
    exfalso. apply Hno, Exists_exists. exists t. rewrite Hw. eauto.
Qed.

End Rerun.

(** X6 — On a file system in which whatever exists sits in directories,
    when the input loads and the output directory can be made, running the
    resizer a second time, on the file system the first run left, gives the
    same result and leaves every file as it is, provided the first run did
    not overwrite its own input. *)
Theorem second_run_changes_nothing
    (env : Env) (input_path : string) (output_dir : option string)
    (view_name : string) (img : Image) (w : World) :
  is_tree (fs w) ->
  fs w !! Path input_path = Some (Picture img) ->
  open_error env (Path input_path) = None ->
  mkdir_succeeds env (fs w) (resolve_output_dir output_dir) = true ->
  fs (snd (resize_screenshot env input_path output_dir view_name w)) !! Path input_path
    = Some (Picture img) ->
  exists r w1 w2,
    resize_screenshot env input_path output_dir view_name w = (Ok r, w1)
    /\ resize_screenshot env input_path output_dir view_name w1 = (Ok r, w2)
    /\ fs w2 = fs w1.
Proof.
  intros Htree Hin Hopen Hmk Hkept.
  pose proof (run_batch env input_path output_dir view_name img w Hin Hopen Hmk) as Hrun.
  rewrite Hrun in Hkept. cbn [snd fs] in Hkept.
  set (dir := resolve_output_dir output_dir) in *.
  remember (foldl (step_fs env img dir view_name) (mkdir_fs env (fs w) dir) SCREENSHOT_SIZES)
    as m1 eqn:Hm1.
  assert (Hagain : Path_mkdir env dir m1 = (Ok tt, m1)).
  { apply (pathlib_mkdir_again env _ _ (fs w) m1 Htree (parse_parts_wf dir)).
    - apply mkdir_succeeds_Ok, Hmk.
    - intros q Hq. rewrite Hm1, batch_keeps_lineage by exact Hq.
      exact (mkdir_fs_dirs env (fs w) dir Htree Hmk q Hq).
    - rewrite Hm1, batch_keeps_dir. exact (mkdir_fs_self env (fs w) dir Hmk). }
  assert (Hmk1 : mkdir_succeeds env m1 dir = true)
    by (unfold mkdir_succeeds; rewrite Hagain; reflexivity).
  rewrite Hrun.
  eexists. eexists. eexists. split; [reflexivity | ].
  rewrite (run_batch env input_path output_dir view_name img (mkWorld m1 _) Hkept Hopen Hmk1).
  split; [reflexivity | ]. cbn [fs]. fold dir.
  unfold mkdir_fs at 1. rewrite Hagain. cbn [snd].
  rewrite Hm1. apply foldl_step_fs_twice, target_paths_NoDup.
Qed.

Lemma second_run_changes_nothing_witness :
  is_tree (fs sample_world)
  /\ fs sample_world !! "in.png" = Some (Picture sample_image)
  /\ open_error refusing_env "in.png" = None
  /\ mkdir_succeeds refusing_env (fs sample_world) (resolve_output_dir (Some "out")) = true
  /\ fs (snd (resize_screenshot refusing_env "in.png" (Some "out") "v" sample_world))
       !! "in.png" = Some (Picture sample_image)
  /\ exists r w1 w2,
       resize_screenshot refusing_env "in.png" (Some "out") "v" sample_world = (Ok r, w1)
       /\ resize_screenshot refusing_env "in.png" (Some "out") "v" w1 = (Ok r, w2)
       /\ fs w2 = fs w1.
Proof.
  assert (H1 : fs sample_world !! "in.png" = Some (Picture sample_image))
    by (vm_compute; reflexivity).
  assert (H2 : open_error refusing_env "in.png" = None) by reflexivity.
  assert (H3 : mkdir_succeeds refusing_env (fs sample_world)
                 (resolve_output_dir (Some "out")) = true)
    by (vm_compute; reflexivity).
  assert (H4 : fs (snd (resize_screenshot refusing_env "in.png" (Some "out") "v"
                          sample_world)) !! "in.png" = Some (Picture sample_image))
    by (vm_compute; reflexivity).
  split; [exact sample_world_is_tree | ].
  split; [exact H1 | split; [exact H2 | split; [exact H3 | split; [exact H4 | ]]]].
  exact (second_run_changes_nothing refusing_env "in.png" (Some "out") "v" sample_image
           sample_world sample_world_is_tree H1 H2 H3 H4).
Defined.

(** X7 — When the batch runs, the log has exactly one status line for each
    registered target, in table order, and one summary line; the number of
    "created" lines is the counter the summary shows, and the function
    returns [True] exactly when there are four of them. *)
Theorem log_agrees_with_the_counter
    (env : Env) (input_path : string) (output_dir : option string)
    (view_name : string) (img : Image) (w : World) :
  fs w !! Path input_path = Some (Picture img) ->
  open_error env (Path input_path) = None ->
  mkdir_succeeds env (fs w) (resolve_output_dir output_dir) = true ->
  exists r m' new,
    resize_screenshot env input_path output_dir view_name w
      = (Ok r, mkWorld m' (trace w ++ new))
    /\ status_lines new
       = map (target_path (resolve_output_dir output_dir) view_name) SCREENSHOT_SIZES
    /\ summary_lines new = [(Z.of_nat (length (created_lines new)), 4)]
    /\ r = (Z.of_nat (length (created_lines new)) =? 4).
Proof.
  intros Hin Hopen Hmk.
  rewrite (run_batch env input_path output_dir view_name img w Hin Hopen Hmk).
  destruct (batch_lines env img (resolve_output_dir output_dir) view_name SCREENSHOT_SIZES)
    as (H1 & H2 & H3).
  eexists. eexists. eexists. split; [reflexivity | ].
  rewrite !status_lines_app, !summary_lines_app, !created_lines_app, H1, H3.
  set (created := created_lines
                    (concat (map (step_events env img (resolve_output_dir output_dir)
                                              view_name) SCREENSHOT_SIZES))) in *.
  cbn [status_lines summary_lines created_lines omap list_omap app].
  rewrite ?app_nil_r, H2. auto.
Qed.

Lemma log_agrees_with_the_counter_witness :
  fs sample_world !! "in.png" = Some (Picture sample_image)
  /\ open_error refusing_env "in.png" = None
  /\ mkdir_succeeds refusing_env (fs sample_world) (resolve_output_dir (Some "out")) = true
  /\ exists r m' new,
       resize_screenshot refusing_env "in.png" (Some "out") "v" sample_world
         = (Ok r, mkWorld m' (trace sample_world ++ new))
       /\ length (status_lines new) = 4%nat
       /\ r = (Z.of_nat (length (created_lines new)) =? 4).
Proof.
  assert (H1 : fs sample_world !! "in.png" = Some (Picture sample_image))
    by (vm_compute; reflexivity).
  assert (H2 : open_error refusing_env "in.png" = None) by reflexivity.
  assert (H3 : mkdir_succeeds refusing_env (fs sample_world)
                 (resolve_output_dir (Some "out")) = true)
    by (vm_compute; reflexivity).
  split; [exact H1 | split; [exact H2 | split; [exact H3 | ]]].
  destruct (log_agrees_with_the_counter refusing_env "in.png" (Some "out") "v"
              sample_image sample_world H1 H2 H3)
    as (r & m' & new & Hrun & Hstatus & _ & Hr).
  exists r, m', new. split; [exact Hrun | ]. split; [ | exact Hr].
  rewrite Hstatus. reflexivity.
Defined.

(** X8 — A file that reads back with another size than the registered one is
    reported with a warning and not counted, yet it stays on disk; the batch
    goes on to the other targets and the run returns [False]. *)
Theorem wrong_size_is_warned_not_counted
    (env : Env) (input_path : string) (output_dir : option string)
    (view_name : string) (img : Image) (w : World)
    (t : string * (Z * Z)) (r : N) :
  fs w !! Path input_path = Some (Picture img) ->
  open_error env (Path input_path) = None ->
  mkdir_succeeds env (fs w) (resolve_output_dir output_dir) = true ->
  t ∈ SCREENSHOT_SIZES ->
  resample env img t.2 = Ok r ->
  save_error env (target_path (resolve_output_dir output_dir) view_name t) = None ->
  open_error env (target_path (resolve_output_dir output_dir) view_name t) = None ->
  size (png_reread env (mkImage t.2 r)) <> t.2 ->
  exists w',
    resize_screenshot env input_path output_dir view_name w = (Ok false, w')
    /\ Printed (MsgWrongSize (target_path (resolve_output_dir output_dir) view_name t)
                             (size (png_reread env (mkImage t.2 r)))) ∈ trace w'
    /\ fs w' !! target_path (resolve_output_dir output_dir) view_name t
       = Some (Picture (png_reread env (mkImage t.2 r)))
    /\ resize_calls (trace w') = resize_calls (trace w) ++ map snd SCREENSHOT_SIZES.
Proof.
  intros Hin Hopen Hmk Ht Hres Hsave Hop Hsize.
  set (dir := resolve_output_dir output_dir) in *.
  assert (Hno : verifies env img dir view_name t = false).
  { unfold verifies, written. rewrite Hres, Hsave, Hop.
    destruct (size_eqb _ _) eqn:Heq; [ | reflexivity].
    apply size_eqb_eq in Heq. contradiction. }
  assert (Hcount : (verified_count env img dir view_name SCREENSHOT_SIZES =? 4) = false).
  { apply Z.eqb_neq. intros Hfull.
    pose proof (proj1 (verified_count_full env img dir view_name SCREENSHOT_SIZES) Hfull t Ht)
      as Hyes.
    rewrite Hyes in Hno. discriminate. }
  rewrite (run_batch env input_path output_dir view_name img w Hin Hopen Hmk).
  fold dir. rewrite Hcount. eexists. split; [reflexivity | ]. cbn [fs trace].
  split; [ | split].
  - apply elem_of_app. right. apply elem_of_app. right. apply elem_of_app. left.
    apply (step_events_in_batch env img dir view_name _ t _ Ht).
    unfold step_events. rewrite Hres, Hsave, Hop.
    destruct (size_eqb _ _) eqn:Heq; [apply size_eqb_eq in Heq; contradiction | ].
    do 3 right. left.
  - apply foldl_step_fs_written; [apply target_paths_NoDup | exact Ht | ].
    unfold written. rewrite Hres, Hsave. reflexivity.
  - rewrite !resize_calls_app, resize_calls_batch. cbn [resize_calls omap].
    rewrite app_nil_r. reflexivity.
Qed.

Lemma wrong_size_is_warned_not_counted_witness :
  fs sample_world !! "in.png" = Some (Picture sample_image)
  /\ open_error lossy_env "in.png" = None
  /\ mkdir_succeeds lossy_env (fs sample_world) (resolve_output_dir (Some "out")) = true
  /\ size (png_reread lossy_env (mkImage (1284, 2778) 0%N)) <> (1284, 2778)
  /\ exists w',
       resize_screenshot lossy_env "in.png" (Some "out") "v" sample_world = (Ok false, w')
       /\ Printed (MsgWrongSize "out/iphone_67_portrait_v.png" (1283, 2778)) ∈ trace w'
       /\ fs w' !! "out/iphone_67_portrait_v.png"
          = Some (Picture (mkImage (1283, 2778) 0%N)).
Proof.
  assert (H1 : fs sample_world !! "in.png" = Some (Picture sample_image))
    by (vm_compute; reflexivity).
  assert (H2 : open_error lossy_env "in.png" = None) by reflexivity.
  assert (H3 : mkdir_succeeds lossy_env (fs sample_world)
                 (resolve_output_dir (Some "out")) = true)
    by (vm_compute; reflexivity).
  assert (H4 : size (png_reread lossy_env (mkImage (1284, 2778) 0%N)) <> (1284, 2778))
    by (vm_compute; discriminate).
  split; [exact H1 | split; [exact H2 | split; [exact H3 | split; [exact H4 | ]]]].
  destruct (wrong_size_is_warned_not_counted lossy_env "in.png" (Some "out") "v"
              sample_image sample_world ("iphone_67_portrait", (1284, 2778)) 0%N
              H1 H2 H3 ltac:(left) eq_refl eq_refl eq_refl H4)
    as (w' & Hrun & Hwarn & Hfile & _).
  exists w'. split; [exact Hrun | ]. split; [exact Hwarn | exact Hfile].
Defined.

(** *** Inputs that open but do not decode *)

Section Undecodable.
Context (env : Env) (img : Image) (dir view_name : string).
Hypothesis never_decodes : forall sz, is_ok (resample env img sz) = false.

Lemma step_fs_undecodable (ts : list (string * (Z * Z))) (m : gmap string node) :
  foldl (step_fs env img dir view_name) m ts = m.
Proof.
  induction ts as [ | t ts IH]; cbn [foldl]; [reflexivity | ].
  unfold step_fs at 2, step_node. specialize (never_decodes t.2).
  destruct (resample env img t.2); [discriminate | exact IH].
Qed.

Lemma save_calls_undecodable (ts : list (string * (Z * Z))) :
  save_calls (concat (map (step_events env img dir view_name) ts)) = [].
Proof.
  induction ts as [ | t ts IH]; cbn [map concat]; [reflexivity | ].
  rewrite save_calls_app, IH, save_calls_step_failed by apply never_decodes.
  reflexivity.
Qed.

Lemma verified_count_undecodable (ts : list (string * (Z * Z))) :
  verified_count env img dir view_name ts = 0.
Proof.
  unfold verified_count. induction ts as [ | t ts IH]; cbn [List.filter]; [reflexivity | ].
  unfold verifies at 1, written. specialize (never_decodes t.2).
  destruct (resample env img t.2); [discriminate | exact IH].
Qed.

End Undecodable.

(** X15 — An input that [Image.open] accepts and whose pixel data never
    decode is not stopped at the loading step: the output directory is made,
    a resize is attempted for every registered target and fails, nothing is
    saved, and the run returns [False] with the new directories left
    behind. *)
Theorem undecodable_input_costs_a_directory
    (env : Env) (input_path : string) (output_dir : option string)
    (view_name : string) (img : Image) (w : World) :
  fs w !! Path input_path = Some (Picture img) ->
  open_error env (Path input_path) = None ->
  (forall sz, is_ok (resample env img sz) = false) ->
  mkdir_succeeds env (fs w) (resolve_output_dir output_dir) = true ->
  let dir := resolve_output_dir output_dir in
  exists w',
    resize_screenshot env input_path output_dir view_name w = (Ok false, w')
    /\ mkdir_calls (trace w') = mkdir_calls (trace w) ++ [dir]
    /\ resize_calls (trace w') = resize_calls (trace w) ++ map snd SCREENSHOT_SIZES
    /\ save_calls (trace w') = save_calls (trace w)
    /\ adds_dirs (lineage dir) (fs w) (fs w')
    /\ (is_anchor dir = false -> fs w' !! dir = Some Dir).
Proof.
  intros Hin Hopen Hnever Hmk dir.
  rewrite (run_batch env input_path output_dir view_name img w Hin Hopen Hmk).
  fold dir. rewrite (verified_count_undecodable env img dir view_name Hnever).
  eexists. split; [reflexivity | ]. cbn [fs trace].
  rewrite (step_fs_undecodable env img dir view_name Hnever).
  rewrite !mkdir_calls_app, !resize_calls_app, !save_calls_app.
  rewrite mkdir_calls_batch, resize_calls_batch,
    (save_calls_undecodable env img dir view_name Hnever).
  cbn [mkdir_calls resize_calls save_calls omap]. rewrite ?app_nil_r.
  split; [reflexivity | ]. split; [reflexivity | ]. split; [reflexivity | ].
  split; [apply mkdir_fs_adds | ].
  intros Hanchor. unfold dir, resolve_output_dir.
  pose proof (mkdir_fs_self env (fs w) dir Hmk) as Hself.
  apply node_at_dir in Hself; [ | exact Hanchor].
  unfold dir in Hself. rewrite <- Hself. f_equal.
  unfold resolve_output_dir. destruct (truthy output_dir); rewrite Path_idem; reflexivity.
Qed.

Lemma undecodable_input_costs_a_directory_witness :
  fs sample_world !! "in.png" = Some (Picture sample_image)
  /\ open_error truncated_env "in.png" = None
  /\ (forall sz, is_ok (resample truncated_env sample_image sz) = false)
  /\ mkdir_succeeds truncated_env (fs sample_world) (resolve_output_dir (Some "out/shots"))
     = true
  /\ exists w',
       resize_screenshot truncated_env "in.png" (Some "out/shots") "v" sample_world
         = (Ok false, w')
       /\ save_calls (trace w') = []
       /\ fs w' !! "out/shots" = Some Dir.
Proof.
  assert (H1 : fs sample_world !! "in.png" = Some (Picture sample_image))
    by (vm_compute; reflexivity).
  assert (H2 : open_error truncated_env "in.png" = None) by reflexivity.
  assert (H3 : forall sz, is_ok (resample truncated_env sample_image sz) = false)
    by reflexivity.
  assert (H4 : mkdir_succeeds truncated_env (fs sample_world)
                 (resolve_output_dir (Some "out/shots")) = true)
    by (vm_compute; reflexivity).
  split; [exact H1 | split; [exact H2 | split; [exact H3 | split; [exact H4 | ]]]].
  destruct (undecodable_input_costs_a_directory truncated_env "in.png" (Some "out/shots")
              "v" sample_image sample_world H1 H2 H3 H4)
    as (w' & Hrun & _ & _ & Hsaves & _ & Hdir).
  exists w'. split; [exact Hrun | ]. split; [exact Hsaves | ].
  apply Hdir. vm_compute. reflexivity.
Defined.

End ResizeProps.
(** * Properties of the float arithmetic *)
Module FloatProps.

Lemma digits2_pos_bounds (p : positive) :
  2 ^ (Z.pos (digits2_pos p) - 1) <= Z.pos p < 2 ^ Z.pos (digits2_pos p).
Proof.
  induction p as [p IH | p IH | ]; cbn [digits2_pos].
  - rewrite Pos2Z.inj_succ.
    replace (Z.succ (Z.pos (digits2_pos p)) - 1) with (Z.succ (Z.pos (digits2_pos p) - 1)) by lia.
    rewrite !Z.pow_succ_r by lia. lia.
  - rewrite Pos2Z.inj_succ.
    replace (Z.succ (Z.pos (digits2_pos p)) - 1) with (Z.succ (Z.pos (digits2_pos p) - 1)) by lia.
    rewrite !Z.pow_succ_r by lia. lia.
  - cbn. lia.
Qed.

Lemma shr_1_m (mrs : shr_record) :
  0 <= shr_m mrs -> shr_m (shr_1 mrs) = shr_m mrs / 2.
Proof.
  destruct mrs as [m r s]. cbn [shr_m]. intros Hm.
  destruct m as [ | [p | p | ] | p]; cbn [shr_1 shr_m]; try lia;
    first [apply Z.div_unique with 0; lia | apply Z.div_unique with 1; lia].
Qed.

Lemma iter_shr_1_m (p : positive) (mrs : shr_record) :
  0 <= shr_m mrs -> shr_m (SpecFloat.iter_pos shr_1 p mrs) = shr_m mrs / 2 ^ Z.pos p.
Proof.
  revert mrs. induction p as [p IH | p IH | ]; intros mrs Hm; cbn [SpecFloat.iter_pos].
  - assert (H1 : 0 <= shr_m (shr_1 mrs)) by (rewrite shr_1_m by lia; apply Z.div_pos; lia).
    assert (H2 : 0 <= shr_m (SpecFloat.iter_pos shr_1 p (shr_1 mrs)))
      by (rewrite IH by lia; apply Z.div_pos; [lia | apply Z.pow_pos_nonneg; lia]).
    rewrite IH, IH, shr_1_m by lia.
    rewrite !Z.div_div by (try apply Z.pow_pos_nonneg; lia).
    f_equal. change 2 with (2 ^ 1) at 1. rewrite <- !Z.pow_add_r by lia. f_equal. lia.
  - assert (H2 : 0 <= shr_m (SpecFloat.iter_pos shr_1 p mrs))
      by (rewrite IH by lia; apply Z.div_pos; [lia | apply Z.pow_pos_nonneg; lia]).
    rewrite IH, IH by lia.
    rewrite !Z.div_div by (try apply Z.pow_pos_nonneg; lia).
    f_equal. rewrite <- !Z.pow_add_r by lia. f_equal. lia.
  - rewrite shr_1_m by lia. reflexivity.
Qed.

Lemma round_nearest_even_bounds (m : Z) (l : location) :
  m <= round_nearest_even m l <= m + 1.
Proof.
  destruct l as [ | [ | | ]]; cbn [round_nearest_even]; try lia.
  destruct (Z.even m); lia.
Qed.

(** What [shr] does to the mantissa and the exponent. *)
Lemma shr_spec (mrs : shr_record) (e n : Z) :
  0 <= shr_m mrs ->
  let k := Z.max 0 n in
  shr_m (shr mrs e n).1 = shr_m mrs / 2 ^ k /\ (shr mrs e n).2 = e + k.
Proof.
  intros Hm k. unfold shr. destruct n as [ | p | p]; cbn [fst snd].
  - subst k. cbn. rewrite Z.div_1_r. lia.
  - subst k. rewrite iter_shr_1_m by lia.
    replace (Z.max 0 (Z.pos p)) with (Z.pos p) by lia. auto.
  - subst k. replace (Z.max 0 (Z.neg p)) with 0 by lia. cbn. rewrite Z.div_1_r. lia.
Qed.


(** The sign of a rounded value is the sign it was given. *)
Lemma binary_round_aux_sign (s : bool) (m e : Z) (l : location) :
  match binary_round_aux 53 1024 s m e l with
  | S754_zero s' | S754_infinity s' | S754_finite s' _ _ => s' = s
  | S754_nan => True
  end.
Proof.
  unfold binary_round_aux.
  destruct (shr_fexp 53 1024 m e l) as [mrs' e'].
  destruct (shr_fexp 53 1024 _ e' loc_Exact) as [mrs'' e''].
  destruct (shr_m mrs'') as [ | p | p]; try exact I; [reflexivity | ].
  destruct (e'' <=? 1024 - 53); reflexivity.
Qed.

Lemma int_nonneg_of_sign (x : float) :
  match x with S754_finite s _ _ => s = false | _ => True end -> 0 <= int x.
Proof.
  destruct x as [s | s | | s m e]; cbn [int]; try lia.
  intros ->. destruct (Z.leb_spec 0 e).
  - apply Z.mul_nonneg_nonneg; [lia | apply Z.pow_nonneg; lia].
  - apply Z.div_pos; [lia | apply Z.pow_pos_nonneg; lia].
Qed.

(** Rounding a positive value [X * 2^ex] that is not too small gives at most
    the next power of two. *)
Lemma binary_round_aux_bound (X : positive) (ex : Z) :
  -1074 <= Z.pos (digits2_pos X) + ex - 53 ->
  match binary_round_aux 53 1024 false (Z.pos X) ex loc_Exact with
  | S754_finite s m e =>
      s = false /\ ex <= e /\ Z.pos m * 2 ^ (e - ex) <= 2 ^ Z.pos (digits2_pos X)
  | S754_nan => False
  | _ => True
  end.
Proof.
  intros Hsmall. pose proof (digits2_pos_bounds X) as [_ HX].
  set (D := Z.pos (digits2_pos X)) in *.
  unfold binary_round_aux, shr_fexp. cbn [shr_record_of_loc Zdigits2]. fold D.
  assert (Hfexp : fexp 53 1024 (D + ex) - ex = D - 53) by (unfold fexp, emin; lia).
  rewrite Hfexp.
  pose proof (shr_spec (Build_shr_record (Z.pos X) false false) ex (D - 53)) as Hshr.
  cbn [shr_m] in Hshr. specialize (Hshr ltac:(lia)). cbv zeta in Hshr.
  destruct (shr (Build_shr_record (Z.pos X) false false) ex (D - 53)) as [mrs' e'].
  cbn [fst snd] in Hshr. destruct Hshr as [Hm1 He1].
  set (k1 := Z.max 0 (D - 53)) in *.
  pose proof (round_nearest_even_bounds (shr_m mrs') (loc_of_shr_record mrs')) as Hround.
  set (m2 := round_nearest_even (shr_m mrs') (loc_of_shr_record mrs')) in *.
  assert (Hk1 : 0 <= k1 <= D) by lia.
  assert (Hpow1 : 0 < 2 ^ k1) by (apply Z.pow_pos_nonneg; lia).
  assert (Hm1nn : 0 <= shr_m mrs') by (rewrite Hm1; apply Z.div_pos; lia).
  assert (Hm2 : (m2 * 2 ^ k1 <= 2 ^ D)).
  { assert (Hlt : shr_m mrs' < 2 ^ (D - k1)).
    { rewrite Hm1. apply Z.div_lt_upper_bound; [lia | ].
      rewrite <- Z.pow_add_r by lia. replace (k1 + (D - k1)) with D by lia. exact HX. }
    replace (2 ^ D) with (2 ^ (D - k1) * 2 ^ k1)
      by (rewrite <- Z.pow_add_r by lia; f_equal; lia).
    apply Z.mul_le_mono_nonneg_r; lia. }
  set (n2 := fexp 53 1024 (Zdigits2 m2 + e') - e').
  pose proof (shr_spec (Build_shr_record m2 false false) e' n2) as Hshr2.
  cbn [shr_m] in Hshr2. specialize (Hshr2 ltac:(lia)). cbv zeta in Hshr2.
  destruct (shr (Build_shr_record m2 false false) e' n2) as [mrs'' e''].
  cbn [fst snd] in Hshr2. destruct Hshr2 as [Hm3 He3].
  set (k2 := Z.max 0 n2) in *.
  assert (Hk2 : 0 <= k2) by lia.
  assert (Hpow2 : 0 < 2 ^ k2) by (apply Z.pow_pos_nonneg; lia).
  assert (Hm3le : shr_m mrs'' * 2 ^ k2 <= m2).
  { rewrite Hm3. rewrite Z.mul_comm. apply Z.mul_div_le. lia. }
  assert (Hm3nn : 0 <= shr_m mrs'') by (rewrite Hm3; apply Z.div_pos; lia).
  destruct (shr_m mrs'') as [ | m | m] eqn:Hm; [exact I | | lia].
  destruct (e'' <=? 1024 - 53); [ | exact I].
  split; [reflexivity | ]. split; [lia | ].
  replace (e'' - ex) with (k2 + k1) by lia. rewrite Z.pow_add_r by lia.
  apply Z.le_trans with (m2 * 2 ^ k1); [ | exact Hm2].
  rewrite Z.mul_assoc. apply Z.mul_le_mono_nonneg_r; lia.
Qed.

(** From a bound on the value to a bound on its integer part. *)
Lemma int_finite_bound (m : positive) (e ex D j L : Z) :
  ex <= e -> Z.pos m * 2 ^ (e - ex) <= 2 ^ D ->
  0 <= D -> 0 <= j -> 0 <= L -> D + ex + j <= L ->
  int (S754_finite false m e) * 2 ^ j <= 2 ^ L.
Proof.
  intros Hex Hval HD Hj HL Hsum. cbn [int].
  assert (Hpj : 0 < 2 ^ j) by (apply Z.pow_pos_nonneg; lia).
  destruct (Z.leb_spec 0 e) as [He | He].
  - destruct (Z.le_gt_cases 0 ex) as [Hex0 | Hex0].
    + replace e with ((e - ex) + ex) at 1 by lia. rewrite Z.pow_add_r by lia.
      apply Z.le_trans with (2 ^ D * 2 ^ (ex + j)).
      * rewrite (Z.pow_add_r 2 ex j) by lia.
        assert (0 < 2 ^ ex) by (apply Z.pow_pos_nonneg; lia).
        nia.
      * rewrite <- Z.pow_add_r by lia. apply Z.pow_le_mono_r; lia.
    + assert (Hpx : 0 < 2 ^ (- ex)) by (apply Z.pow_pos_nonneg; lia).
      apply (Z.mul_le_mono_pos_r _ _ (2 ^ (- ex))); [exact Hpx | ].
      rewrite <- (Z.pow_add_r 2 L (- ex)) by lia.
      apply Z.le_trans with (2 ^ (D + j)); [ | apply Z.pow_le_mono_r; lia].
      rewrite (Z.pow_add_r 2 D j) by lia.
      replace (e - ex) with (e + - ex) in Hval by lia.
      rewrite Z.pow_add_r in Hval by lia.
      assert (0 < 2 ^ e) by (apply Z.pow_pos_nonneg; lia).
      nia.
  - assert (Hpe : 0 < 2 ^ (- e)) by (apply Z.pow_pos_nonneg; lia).
    assert (Hpx : 0 < 2 ^ (- ex)) by (apply Z.pow_pos_nonneg; lia).
    set (q := Z.pos m / 2 ^ (- e)).
    assert (Hq : q * 2 ^ (- e) <= Z.pos m)
      by (unfold q; rewrite Z.mul_comm; apply Z.mul_div_le; lia).
    assert (Hqnn : 0 <= q) by (apply Z.div_pos; lia).
    apply (Z.mul_le_mono_pos_r _ _ (2 ^ (- ex))); [exact Hpx | ].
    rewrite <- (Z.pow_add_r 2 L (- ex)) by lia.
    apply Z.le_trans with (2 ^ (D + j)); [ | apply Z.pow_le_mono_r; lia].
    rewrite (Z.pow_add_r 2 D j) by lia.
    replace (- ex) with (- e + (e - ex)) by lia. rewrite Z.pow_add_r by lia.
    assert (Hpa : 0 < 2 ^ (e - ex)) by (apply Z.pow_pos_nonneg; lia).
    assert (Hstep : q * 2 ^ (- e) * 2 ^ (e - ex) <= 2 ^ D).
    { apply Z.le_trans with (Z.pos m * 2 ^ (e - ex)); [ | exact Hval].
      apply Z.mul_le_mono_nonneg_r; lia. }
    replace (q * 2 ^ j * (2 ^ (- e) * 2 ^ (e - ex)))
      with (q * 2 ^ (- e) * 2 ^ (e - ex) * 2 ^ j) by ring.
    apply Z.mul_le_mono_nonneg_r; lia.
Qed.

Lemma digits2_pos_iter_xO (p q : positive) :
  Z.pos (digits2_pos (Pos.iter xO p q)) = Z.pos (digits2_pos p) + Z.pos q.
Proof.
  induction q as [ | q IH] using Pos.peano_ind.
  - cbn [Pos.iter digits2_pos]. lia.
  - rewrite Pos.iter_succ. cbn [digits2_pos]. lia.
Qed.

(** An integer below [2^53] converts exactly: the mantissa is the integer
    shifted to 53 digits. *)
Lemma of_int_pos (p : positive) :
  Z.pos (digits2_pos p) <= 53 ->
  exists mz,
    of_int (Z.pos p) = S754_finite false mz (Z.pos (digits2_pos p) - 53)
    /\ Z.pos (digits2_pos mz) = 53.
Proof.
  intros Hd. set (d := Z.pos (digits2_pos p)) in *.
  unfold of_int, binary_normalize, binary_round. fold d.
  assert (Hfexp : fexp 53 1024 (d + 0) = d - 53) by (unfold fexp, emin; lia).
  rewrite Hfexp. unfold shl_align.
  assert (Haux : forall mz ez, Z.pos (digits2_pos mz) = 53 -> -53 <= ez <= 0 ->
             binary_round_aux 53 1024 false (Z.pos mz) ez loc_Exact
             = S754_finite false mz ez).
  { intros mz ez Hmz Hez.
    unfold binary_round_aux, shr_fexp. cbn [shr_record_of_loc Zdigits2].
    rewrite Hmz.
    assert (H0 : fexp 53 1024 (53 + ez) - ez = 0) by (unfold fexp, emin; lia).
    rewrite H0. cbn [shr shr_m loc_of_shr_record round_nearest_even Zdigits2].
    rewrite Hmz, H0. cbn [shr shr_m].
    destruct (Z.leb_spec ez (1024 - 53)); [reflexivity | lia]. }
  destruct (d - 53 - 0) as [ | q | q] eqn:Hq; [ | lia | ].
  - exists p. assert (Hd53 : d = 53) by lia.
    split; [ | exact Hd53]. replace (d - 53) with 0 by lia.
    apply Haux; [exact Hd53 | lia].
  - exists (Pos.iter xO p q).
    assert (Hmz : Z.pos (digits2_pos (Pos.iter xO p q)) = 53)
      by (rewrite digits2_pos_iter_xO; fold d; lia).
    split; [ | exact Hmz]. apply Haux; [exact Hmz | lia].
Qed.

Lemma digits2_pos_mul (a b : positive) :
  Z.pos (digits2_pos a) + Z.pos (digits2_pos b) - 1
  <= Z.pos (digits2_pos (a * b))
  <= Z.pos (digits2_pos a) + Z.pos (digits2_pos b).
Proof.
  pose proof (digits2_pos_bounds a) as [Ha1 Ha2].
  pose proof (digits2_pos_bounds b) as [Hb1 Hb2].
  pose proof (digits2_pos_bounds (a * b)) as [Hab1 Hab2].
  set (da := Z.pos (digits2_pos a)) in *. set (db := Z.pos (digits2_pos b)) in *.
  set (dab := Z.pos (digits2_pos (a * b))) in *.
  assert (Hda : 1 <= da) by (unfold da; lia). assert (Hdb : 1 <= db) by (unfold db; lia).
  assert (Hdab : 1 <= dab) by (unfold dab; lia).
  rewrite Pos2Z.inj_mul in Hab1, Hab2.
  assert (Hlo : 2 ^ (da - 1 + (db - 1)) <= Z.pos a * Z.pos b).
  { rewrite Z.pow_add_r by lia.
    assert (0 < 2 ^ (da - 1)) by (apply Z.pow_pos_nonneg; lia).
    assert (0 < 2 ^ (db - 1)) by (apply Z.pow_pos_nonneg; lia). nia. }
  assert (Hhi : Z.pos a * Z.pos b < 2 ^ (da + db)).
  { rewrite Z.pow_add_r by lia.
    assert (0 < 2 ^ da) by (apply Z.pow_pos_nonneg; lia).
    assert (0 < 2 ^ db) by (apply Z.pow_pos_nonneg; lia). nia. }
  split.
  - assert (Hlt : 2 ^ (da - 1 + (db - 1)) < 2 ^ dab) by lia.
    apply Z.pow_lt_mono_r_iff in Hlt; lia.
  - assert (Hlt : 2 ^ (dab - 1) < 2 ^ (da + db)) by lia.
    apply Z.pow_lt_mono_r_iff in Hlt; lia.
Qed.

(** The integer part of [n * c], for a non-negative integer [n] and a
    positive constant [c], is not negative. *)
Lemma int_mul_nonneg (n : Z) (mc : positive) (ec : Z) :
  0 <= n -> 0 <= int (fmul (of_int n) (S754_finite false mc ec)).
Proof.
  intros Hn. apply int_nonneg_of_sign.
  unfold of_int, binary_normalize. destruct n as [ | p | p]; [exact I | | lia].
  unfold binary_round. destruct (shl_align _ _ _) as [mz ez].
  pose proof (binary_round_aux_sign false (Z.pos mz) ez loc_Exact) as Hsign.
  destruct (binary_round_aux 53 1024 false (Z.pos mz) ez loc_Exact) as [s | s | | s mx ex];
    cbn [fmul SFmul]; try exact I.
  subst s. cbn [xorb].
  pose proof (binary_round_aux_sign false (Z.pos (mx * mc)) (ex + ec) loc_Exact) as Hsign'.
  destruct (binary_round_aux 53 1024 false _ _ loc_Exact); auto.
Qed.

(** The integer part of [n * c] for a constant [c] below [2^-(j+1)]: at most
    [n / 2^j]. *)
Lemma int_mul_le (n : Z) (mc : positive) (ec j : Z) :
  0 <= n < 9007199254740992 -> 0 <= j ->
  -1000 <= Z.pos (digits2_pos mc) + ec ->
  Z.pos (digits2_pos mc) + ec + j <= -1 ->
  int (fmul (of_int n) (S754_finite false mc ec)) * 2 ^ j <= n.
Proof.
  intros Hn Hj Hlo Hhi. change 9007199254740992 with (2 ^ 53) in Hn.
  destruct n as [ | p | p]; [cbn; lia | | lia].
  pose proof (digits2_pos_bounds p) as [Hp1 Hp2].
  set (d := Z.pos (digits2_pos p)) in *.
  assert (Hd : d <= 53).
  { assert (Hlt : 2 ^ (d - 1) < 2 ^ 53) by lia.
    apply Z.pow_lt_mono_r_iff in Hlt; lia. }
  destruct (of_int_pos p Hd) as (mz & Hof & Hmz). fold d in Hof.
  rewrite Hof. cbn [fmul SFmul xorb].
  pose proof (digits2_pos_mul mz mc) as [HD1 HD2].
  set (D := Z.pos (digits2_pos (mz * mc))) in *.
  set (dc := Z.pos (digits2_pos mc)) in *.
  assert (Hd1 : 1 <= d) by (unfold d; lia).
  pose proof (binary_round_aux_bound (mz * mc) (d - 53 + ec)) as Hbound.
  fold D in Hbound. specialize (Hbound ltac:(lia)).
  destruct (binary_round_aux 53 1024 false (Z.pos (mz * mc)) (d - 53 + ec) loc_Exact)
    as [s | s | | s m e]; try (cbn [int]; lia).
  destruct Hbound as (-> & He & Hval).
  destruct (Z.le_gt_cases 0 (D + (d - 53 + ec) + j)) as [Hbig | Hsmall].
  - apply Z.le_trans with (2 ^ (d - 1)); [ | exact Hp1].
    apply (int_finite_bound m e (d - 53 + ec) D j (d - 1)); lia.
  - assert (Hint : 0 <= int (S754_finite false m e))
      by (apply int_nonneg_of_sign; reflexivity).
    pose proof (int_finite_bound m e (d - 53 + ec) D 1 0 He Hval) as H0.
    specialize (H0 ltac:(unfold D; lia) ltac:(lia) ltac:(lia) ltac:(lia)).
    change (2 ^ 1) with 2 in H0. change (2 ^ 0) with 1 in H0.
    replace (int (S754_finite false m e)) with 0 by lia. lia.
Qed.

End FloatProps.
(** * Properties of the asset generator *)
Module AssetsProps.
Import Assets FloatProps.

(** Binary64 at work: a product is rounded to the nearest double before
    [int] truncates it, so 100 * 0.07 gives 7 and 100 * 0.29 gives 28. *)
Example int_of_products :
  int (2796%Z * 0.12) = 335 /\ int (2796%Z * 0.1) = 279
  /\ int (100%Z * 0.07) = 7 /\ int (100%Z * 0.29) = 28.
Proof. vm_compute. repeat split. Qed.

(** The points of the chart line on a 1290x2796 canvas. *)
Example chart_line_first_points :
  map (fun i : Z => int ((i / 9) * 1161%Z)) (range 4) = [0; 129; 258; 387]
  /\ map (fun i : Z => int ((0.3 + (i mod 3)%Z * 0.1) * 1118%Z)) (range 4)
     = [335; 447; 559; 335].
Proof. vm_compute. split; reflexivity. Qed.

(** C9 — For every requested size and either weight, [get_font] returns
    without raising, and what it returns is the font at the first system path
    when that one loads, else the font at the second candidate path when that
    one loads, else the built-in default font. *)
Theorem get_font_falls_back_silently (fonts : FontEnv) (size : Z) (bold : bool) :
  get_font fonts size bold = Ok (font_chain fonts size bold)
  /\ (forall font, truetype fonts (font_paths bold).1 size = Ok font ->
        get_font fonts size bold = Ok font)
  /\ (forall e font, truetype fonts (font_paths bold).1 size = Raise e ->
        truetype fonts (font_paths bold).2 size = Ok font ->
        get_font fonts size bold = Ok font)
  /\ (forall e e', truetype fonts (font_paths bold).1 size = Raise e ->
        truetype fonts (font_paths bold).2 size = Raise e' ->
        get_font fonts size bold = Ok (load_default fonts)).
Proof.
  unfold get_font, font_chain, font_paths.
  destruct bold; cbn [fst snd].
  - destruct (truetype fonts "/System/Library/Fonts/Supplemental/Arial Bold.ttf" size)
      as [font | e].
    + repeat split; intros; simplify_eq; reflexivity.
    + destruct (truetype fonts "/Library/Fonts/Arial Bold.ttf" size) as [font | e'];
        repeat split; intros; simplify_eq; reflexivity.
  - destruct (truetype fonts "/System/Library/Fonts/Supplemental/Arial.ttf" size)
      as [font | e].
    + repeat split; intros; simplify_eq; reflexivity.
    + destruct (truetype fonts "/Library/Fonts/Arial.ttf" size) as [font | e'];
        repeat split; intros; simplify_eq; reflexivity.
Qed.

(** The chain, as an equation to rewrite with. *)
Lemma get_font_chain (fonts : FontEnv) (size : Z) (bold : bool) :
  get_font fonts size bold = Ok (font_chain fonts size bold).
Proof.
  unfold get_font, font_chain, font_paths.
  destruct bold; cbn [fst snd].
  - destruct (truetype fonts "/System/Library/Fonts/Supplemental/Arial Bold.ttf" size);
      [reflexivity | ].
    destruct (truetype fonts "/Library/Fonts/Arial Bold.ttf" size); reflexivity.
  - destruct (truetype fonts "/System/Library/Fonts/Supplemental/Arial.ttf" size);
      [reflexivity | ].
    destruct (truetype fonts "/Library/Fonts/Arial.ttf" size); reflexivity.
Qed.

(** *** Drawing only paints *)

Lemma emits_ret {A} (a : A) : emits (mret a) a [].
Proof.
  intros [m sz bg ops]. unfold extend. cbn. rewrite app_nil_r. reflexivity.
Qed.

Lemma emits_bind {A B} (m : Draw A) (k : A -> Draw B) a ops1 b ops2 :
  emits m a ops1 -> emits (k a) b ops2 -> emits (m ≫= k) b (ops1 ++ ops2).
Proof.
  intros Hm Hk img. unfold mbind, Draw_bind. rewrite Hm, Hk.
  unfold extend. cbn. rewrite app_assoc. reflexivity.
Qed.

Lemma emits_paint (op : draw_op) : emits (paint op) tt [op].
Proof. intros img. reflexivity. Qed.

Lemma paints_ret {A} (a : A) : paints (mret a).
Proof. eexists _, _. apply emits_ret. Qed.

Lemma paints_bind {A B} (m : Draw A) (k : A -> Draw B) :
  paints m -> (forall a, paints (k a)) -> paints (m ≫= k).
Proof.
  intros (a & ops1 & Hm) Hk. destruct (Hk a) as (b & ops2 & Hb).
  eexists _, _. eapply emits_bind; eassumption.
Qed.

Lemma paints_paint (op : draw_op) : paints (paint op).
Proof. eexists _, _. apply emits_paint. Qed.

Lemma emits_rectangle (x0 y0 x1 y1 : Z) (fill : rgb) :
  x0 <= x1 -> y0 <= y1 ->
  emits (draw_rectangle (x0, y0, x1, y1) fill) tt [Rectangle (x0, y0, x1, y1) fill].
Proof.
  intros Hx Hy img. unfold draw_rectangle.
  destruct (Z.ltb_spec x1 x0); [lia | ]. destruct (Z.ltb_spec y1 y0); [lia | ].
  reflexivity.
Qed.

Lemma paints_rectangle (x0 y0 x1 y1 : Z) (fill : rgb) :
  x0 <= x1 -> y0 <= y1 -> paints (draw_rectangle (x0, y0, x1, y1) fill).
Proof. intros Hx Hy. eexists _, _. apply emits_rectangle; assumption. Qed.

Lemma paints_lift {A} (r : outcome A) : is_ok r = true -> paints (lift r).
Proof.
  destruct r as [a | e]; [intros _ | discriminate].
  exists a, []. intros [m sz bg ops]. unfold extend, lift. cbn.
  rewrite app_nil_r. reflexivity.
Qed.

Lemma paints_get_font (fonts : FontEnv) (size : Z) (bold : bool) :
  paints (lift (get_font fonts size bold)).
Proof. apply paints_lift. rewrite get_font_chain. reflexivity. Qed.

Lemma paints_textbbox (xy : Z * Z) (s : string) (font : Font) :
  paints (draw_textbbox xy s font).
Proof. apply paints_ret. Qed.

Lemma paints_for_each {A} (xs : list A) (body : A -> Draw unit) :
  (forall x, x ∈ xs -> paints (body x)) -> paints (for_each xs body).
Proof.
  induction xs as [ | x xs IH]; intros Hbody; cbn [for_each].
  - apply paints_ret.
  - apply paints_bind; [apply Hbody; left | ].
    intros _. apply IH. intros y Hy. apply Hbody. right. exact Hy.
Qed.

Lemma draw_border_emits (x1 y1 x2 y2 width : Z) (color : rgb) :
  x1 <= x2 -> y1 <= y2 -> 0 <= width ->
  emits (draw_border (x1, y1, x2, y2) width color) tt
        [ Rectangle (x1, y1, x2, y1 + width) color;
          Rectangle (x1, y2 - width, x2, y2) color;
          Rectangle (x1, y1, x1 + width, y2) color;
          Rectangle (x2 - width, y1, x2, y2) color ].
Proof.
  intros Hx Hy Hw. unfold draw_border.
  apply (emits_bind _ _ tt [_] tt [_; _; _]); [apply emits_rectangle; lia | ].
  apply (emits_bind _ _ tt [_] tt [_; _]); [apply emits_rectangle; lia | ].
  apply (emits_bind _ _ tt [_] tt [_]); [apply emits_rectangle; lia | ].
  apply emits_rectangle; lia.
Qed.

Lemma paints_draw_border (x1 y1 x2 y2 width : Z) (color : rgb) :
  x1 <= x2 -> y1 <= y2 -> 0 <= width ->
  paints (draw_border (x1, y1, x2, y2) width color).
Proof. intros Hx Hy Hw. eexists _, _. apply draw_border_emits; assumption. Qed.

Lemma paints_draw_text_with_shadow (s : string) (position : Z * Z) (font : Font)
    (text_color shadow_color : rgb) (shadow_offset : Z * Z) :
  paints (draw_text_with_shadow s position font text_color shadow_color shadow_offset).
Proof.
  unfold draw_text_with_shadow.
  apply paints_bind; [apply paints_paint | intros _; apply paints_paint].
Qed.

(** *** Indexing the points of the chart line *)

Lemma getitem_in_range {A} (xs : list A) (i : Z) :
  0 <= i < Z.of_nat (length xs) -> is_ok (getitem xs i) = true.
Proof.
  intros Hi. unfold getitem. cbv zeta.
  destruct (Z.ltb_spec i 0) as [Hneg | _]; [lia | ].
  destruct (Z.ltb_spec i 0) as [Hneg | _]; [lia | ].
  destruct (xs !! Z.to_nat i) eqn:Hlook; [reflexivity | ].
  apply lookup_ge_None in Hlook. lia.
Qed.

Lemma length_foldl_snoc {A B} (f : B -> A) (acc : list A) (l : list B) :
  length (foldl (fun acc i => acc ++ [f i]) acc l) = (length acc + length l)%nat.
Proof.
  revert acc. induction l as [ | x l IH]; intros acc; cbn [foldl length].
  - lia.
  - rewrite IH, length_app. cbn [length]. lia.
Qed.

Lemma paints_getitem {A} (xs : list A) (i n : Z) :
  Z.of_nat (length xs) = n -> 0 <= i < n -> paints (lift (getitem xs i)).
Proof. intros <- Hi. apply paints_lift, getitem_in_range, Hi. Qed.

(** *** The integer parts a layout is made of

    Every length of a layout is the integer part of a canvas dimension, or
    of another such length, times a constant below one: it is not negative,
    and it is bounded by a fraction of what it scales. *)
Ltac int_fact n m e :=
  lazymatch goal with
  | H : 0 <= int (fmul (of_int n) (S754_finite false m e)) |- _ => fail
  | _ =>
      assert (0 <= int (fmul (of_int n) (S754_finite false m e)))
        by (apply int_mul_nonneg; lia);
      try (let j := eval vm_compute in (-1 - (Z.pos (digits2_pos m) + e)) in
           let k := eval vm_compute in (2 ^ j) in
           assert (int (fmul (of_int n) (S754_finite false m e)) * k <= n)
             by (apply (int_mul_le n m e j); [lia | lia | vm_compute; discriminate
                                              | vm_compute; discriminate]))
  end.

Ltac int_facts :=
  repeat match goal with
         | |- context [int (fmul (of_int ?n) (S754_finite false ?m ?e))] => int_fact n m e
         end.

(** An inequality between the coordinates of a layout. *)
Ltac order :=
  int_facts; cbn [length] in *;
  first [lia | Z.to_euclidean_division_equations; lia].

(** One step of the proof that a drawing program only paints. *)
Ltac paints_step :=
  lazymatch goal with
  | |- paints (mbind _ _) => apply paints_bind; [ | intros ? ]
  | |- paints (mret _) => apply paints_ret
  | |- paints (draw_rectangle _ _) => apply paints_rectangle; order
  | |- paints (draw_text _ _ _ _) => apply paints_paint
  | |- paints (draw_line _ _ _) => apply paints_paint
  | |- paints (draw_border _ _ _) => apply paints_draw_border; order
  | |- paints (draw_text_with_shadow _ _ _ _ _ _) => apply paints_draw_text_with_shadow
  | |- paints (draw_textbbox _ _ _) => apply paints_textbbox
  | |- paints (lift (get_font _ _ _)) => apply paints_get_font
  | |- paints (lift (getitem (foldl _ [] (range 10)) _)) =>
      apply (paints_getitem _ _ 10); [rewrite length_foldl_snoc; reflexivity | ]
  | |- paints (for_each _ _) => apply paints_for_each; intros ? ?
  | |- paints (if ?c then _ else _) => destruct c
  | |- paints (match ?x with _ => _ end) => destruct x
  | |- paints ((fun _ => _) _) => cbv beta
  end.

(** *** Rendering *)

Lemma Image_new_ok (mode : string) (size : Z * Z) (color : rgb) :
  canvas_size_ok size -> Image_new mode size color = Ok (mkImage mode size color []).
Proof.
  intros [Hw Hh]. unfold Image_new.
  destruct (Z.ltb_spec size.1 0); [lia | ]. destruct (Z.ltb_spec size.2 0); [lia | ].
  destruct (Z.ltb_spec 2147483647 size.1); [lia | ].
  destruct (Z.ltb_spec 2147483647 size.2); [lia | ].
  destruct (Z.ltb_spec 536870910 size.1); [lia | ].
  reflexivity.
Qed.

Lemma render_emits (size : Z * Z) (color : rgb) (body : Draw unit) (ops : list draw_op) :
  canvas_size_ok size -> emits body tt ops ->
  render size color body = Ok (mkImage "RGB" size color ops).
Proof.
  intros Hsize Hbody. unfold render. rewrite Image_new_ok by exact Hsize.
  rewrite Hbody. reflexivity.
Qed.

Lemma render_paints (size : Z * Z) (color : rgb) (body : Draw unit) :
  canvas_size_ok size -> paints body ->
  exists ops, render size color body = Ok (mkImage "RGB" size color ops).
Proof.
  intros Hsize ([] & ops & Hbody). exists ops. apply render_emits; assumption.
Qed.

(** A program that starts with a rectangle puts it first on the canvas. *)
Lemma render_rectangle_first (size : Z * Z) (color : rgb) (x0 y0 x1 y1 : Z) (fill : rgb)
    (k : unit -> Draw unit) :
  canvas_size_ok size -> x0 <= x1 -> y0 <= y1 -> paints (k tt) ->
  exists ops, render size color (draw_rectangle (x0, y0, x1, y1) fill ≫= k)
              = Ok (mkImage "RGB" size color (Rectangle (x0, y0, x1, y1) fill :: ops)).
Proof.
  intros Hsize Hx Hy ([] & ops & Hk). exists ops. apply render_emits; [exact Hsize | ].
  exact (emits_bind _ k tt [Rectangle (x0, y0, x1, y1) fill] tt ops
           (emits_rectangle x0 y0 x1 y1 fill Hx Hy) Hk).
Qed.

Lemma render_two_rectangles_first (size : Z * Z) (color : rgb)
    (x0 y0 x1 y1 x0' y0' x1' y1' : Z) (fill1 fill2 : rgb) (k : unit -> Draw unit) :
  canvas_size_ok size -> x0 <= x1 -> y0 <= y1 -> x0' <= x1' -> y0' <= y1' ->
  paints (k tt) ->
  exists ops, render size color
                (draw_rectangle (x0, y0, x1, y1) fill1
                 ≫= fun _ => draw_rectangle (x0', y0', x1', y1') fill2 ≫= k)
              = Ok (mkImage "RGB" size color
                      (Rectangle (x0, y0, x1, y1) fill1
                       :: Rectangle (x0', y0', x1', y1') fill2 :: ops)).
Proof.
  intros Hsize Hx Hy Hx' Hy' ([] & ops & Hk). exists ops.
  apply render_emits; [exact Hsize | ].
  apply (emits_bind _ _ tt [Rectangle (x0, y0, x1, y1) fill1] tt
           (Rectangle (x0', y0', x1', y1') fill2 :: ops)
           (emits_rectangle x0 y0 x1 y1 fill1 Hx Hy)).
  exact (emits_bind _ k tt [Rectangle (x0', y0', x1', y1') fill2] tt ops
           (emits_rectangle x0' y0' x1' y1' fill2 Hx' Hy') Hk).
Qed.

(** *** What each view function returns *)
Section Views.
Context (fonts : FontEnv) (width height : Z).
Hypothesis size_ok : canvas_size_ok (width, height).

Lemma size_bounds : 0 <= width <= 536870910 /\ 0 <= height <= 2147483647.
Proof. exact size_ok. Qed.

Lemma app_icon_run :
  exists ops, create_app_icon fonts = Ok (mkImage "RGB" (1024, 1024) (COLORS aquamarine) ops).
Proof.
  unfold create_app_icon. apply render_paints; [unfold canvas_size_ok; cbn; lia | ].
  repeat paints_step.
Qed.

Lemma tank_list_run :
  exists ops,
    create_screenshot_tank_list fonts width height =
      Ok (mkImage "RGB" (width, height) (COLORS white)
            (Rectangle (0, 0, width, int (height * 0.06)) (COLORS white)
             :: Rectangle (0, int (height * 0.06), width,
                           int (height * 0.06) + int (height * 0.12)) (COLORS white)
             :: ops)).
Proof.
  pose proof size_bounds as [Hw Hh].
  unfold create_screenshot_tank_list.
  apply render_two_rectangles_first; [exact size_ok | order .. | ].
  repeat paints_step.
Qed.

Lemma analysis_run :
  exists ops,
    create_screenshot_analysis fonts width height =
      Ok (mkImage "RGB" (width, height) (COLORS white)
            (Rectangle (0, int (height * 0.06), width,
                        int (height * 0.06) + int (height * 0.1)) (COLORS white)
             :: ops)).
Proof.
  pose proof size_bounds as [Hw Hh].
  unfold create_screenshot_analysis.
  apply render_rectangle_first; [exact size_ok | order .. | ].
  repeat paints_step.
Qed.

Lemma measurement_run :
  exists ops,
    create_screenshot_measurement fonts width height =
      Ok (mkImage "RGB" (width, height) (COLORS white)
            (Rectangle (0, int (height * 0.06), width,
                        int (height * 0.06) + int (height * 0.1)) (COLORS white)
             :: ops)).
Proof.
  pose proof size_bounds as [Hw Hh].
  unfold create_screenshot_measurement.
  apply render_rectangle_first; [exact size_ok | order .. | ].
  repeat paints_step.
Qed.

Lemma chart_run :
  exists ops,
    create_screenshot_chart fonts width height =
      Ok (mkImage "RGB" (width, height) (COLORS white)
            (Rectangle (0, int (height * 0.06), width,
                        int (height * 0.06) + int (height * 0.1)) (COLORS white)
             :: ops)).
Proof.
  pose proof size_bounds as [Hw Hh].
  unfold create_screenshot_chart.
  apply render_rectangle_first; [exact size_ok | order .. | ].
  repeat paints_step.
  - match goal with H : _ ∈ range _ |- _ =>
      rewrite length_foldl_snoc in H; unfold range in H;
      apply elem_of_seqZ in H; rewrite length_seqZ in H; cbn [length] in H; lia end.
  - match goal with H : _ ∈ range _ |- _ =>
      rewrite length_foldl_snoc in H; unfold range in H;
      apply elem_of_seqZ in H; rewrite length_seqZ in H; cbn [length] in H; lia end.
Qed.

End Views.

Ltac each_view H :=
  unfold view_keys in H;
  repeat (apply elem_of_cons in H as [-> | H]);
  [ .. | apply elem_of_nil in H; destruct H ].

Ltac each_device H :=
  unfold SCREENSHOT_SIZES in H;
  repeat (apply elem_of_cons in H as [[= -> -> ->] | H]);
  [ .. | apply elem_of_nil in H; destruct H ].

(** Every view paints its header band where [header_index] says, on a
    canvas of the requested size. *)
Lemma view_run (fonts : FontEnv) (view_key : string) (width height : Z) :
  canvas_size_ok (width, height) -> view_key ∈ view_keys ->
  exists img,
    render_view fonts view_key width height = Ok img
    /\ size img = (width, height)
    /\ header_band view_key img =
         Some (Rectangle (0, int (height * 0.06), width,
                          int (height * 0.06) + view_header_height view_key height)
                         (COLORS white)).
Proof.
  intros Hsize Hkey. each_view Hkey.
  - destruct (tank_list_run fonts width height Hsize) as [ops Hrun].
    eexists. split; [exact Hrun | ]. split; reflexivity.
  - destruct (analysis_run fonts width height Hsize) as [ops Hrun].
    eexists. split; [exact Hrun | ]. split; reflexivity.
  - destruct (measurement_run fonts width height Hsize) as [ops Hrun].
    eexists. split; [exact Hrun | ]. split; reflexivity.
  - destruct (chart_run fonts width height Hsize) as [ops Hrun].
    eexists. split; [exact Hrun | ]. split; reflexivity.
Qed.

(** C3, as amended — On every canvas [Image.new] accepts, each of the four
    views paints its header band right under the status bar, over the full
    width; the band is [int(height * 0.12)] tall in the tank list and
    [int(height * 0.1)] tall in the analysis, measurement and chart views. *)
Theorem header_band_height_per_view
    (fonts : FontEnv) (view_key : string) (width height : Z) :
  canvas_size_ok (width, height) -> view_key ∈ view_keys ->
  exists img,
    render_view fonts view_key width height = Ok img
    /\ header_band view_key img =
         Some (Rectangle (0, int (height * 0.06), width,
                          int (height * 0.06) + view_header_height view_key height)
                         (COLORS white))
    /\ band_height (header_band view_key img) = Some (view_header_height view_key height)
    /\ view_header_height "tank-list" height = int (height * 0.12)
    /\ view_header_height "analysis" height = int (height * 0.1)
    /\ view_header_height "measurement" height = int (height * 0.1)
    /\ view_header_height "chart" height = int (height * 0.1).
Proof.
  intros Hsize Hkey.
  destruct (view_run fonts view_key width height Hsize Hkey) as (img & Hrun & _ & Hband).
  exists img. split; [exact Hrun | ]. split; [exact Hband | ].
  split; [ | repeat split].
  rewrite Hband. cbn [band_height]. f_equal. lia.
Qed.

(** C3, as stated, fails: on the 1290x2796 canvas the analysis view lays its
    header band out 279 rows tall, where twelve percent of the height is 335
    rows. *)
Lemma header_band_not_twelve_percent :
  ~ header_is_twelve_percent bare_fonts "analysis" 1290 2796
  /\ (exists img, render_view bare_fonts "analysis" 1290 2796 = Ok img
                  /\ band_height (header_band "analysis" img) = Some 279)
  /\ spec_header_height 2796 = 335.
Proof.
  assert (Hsize : canvas_size_ok (1290, 2796)) by (unfold canvas_size_ok; cbn; lia).
  destruct (view_run bare_fonts "analysis" 1290 2796 Hsize) as (img & Hrun & _ & Hband);
    [do 1 right; left | ].
  assert (Hheight : band_height (header_band "analysis" img) = Some 279).
  { rewrite Hband. vm_compute. reflexivity. }
  split; [ | split].
  - intros (img' & Hrun' & Hband'). rewrite Hrun in Hrun'. injection Hrun' as <-.
    rewrite Hheight in Hband'. vm_compute in Hband'. discriminate Hband'.
  - exists img. auto.
  - vm_compute. reflexivity.
Qed.

(** C6 — For every device size of the table, each of the four view functions
    returns, without raising, a picture whose size is the requested
    (width, height). *)
Theorem view_has_requested_size
    (fonts : FontEnv) (device_key view_key : string) (width height : Z) :
  (device_key, (width, height)) ∈ SCREENSHOT_SIZES -> view_key ∈ view_keys ->
  exists img,
    render_view fonts view_key width height = Ok img /\ size img = (width, height).
Proof.
  intros Hdevice Hkey.
  assert (Hsize : canvas_size_ok (width, height)).
  { each_device Hdevice; unfold canvas_size_ok; cbn; lia. }
  destruct (view_run fonts view_key width height Hsize Hkey) as (img & Hrun & Hsz & _).
  exists img. auto.
Qed.

(** C7 — Whatever the font environment, the icon renderer returns, without
    raising, a picture of exactly 1024x1024 pixels. *)
Theorem app_icon_is_1024_square (fonts : FontEnv) :
  exists img, create_app_icon fonts = Ok img /\ size img = (1024, 1024).
Proof.
  destruct (app_icon_run fonts) as [ops Hrun].
  eexists. split; [exact Hrun | reflexivity].
Qed.

(** *** The same fonts give the same pictures *)

Lemma get_font_same (fonts1 fonts2 : FontEnv) :
  same_fonts fonts1 fonts2 ->
  forall size bold, get_font fonts1 size bold = get_font fonts2 size bold.
Proof.
  intros [Hdefault Hpaths] size bold. rewrite !get_font_chain. f_equal.
  unfold font_chain. destruct (Hpaths bold size) as [-> ->]. rewrite Hdefault.
  reflexivity.
Qed.

Section SameFonts.
Context (fonts1 fonts2 : FontEnv).
Hypothesis same : same_fonts fonts1 fonts2.

Lemma app_icon_same : create_app_icon fonts1 = create_app_icon fonts2.
Proof.
  unfold create_app_icon. rewrite !(get_font_same fonts1 fonts2 same). reflexivity.
Qed.

Lemma tank_list_same (width height : Z) :
  create_screenshot_tank_list fonts1 width height
  = create_screenshot_tank_list fonts2 width height.
Proof.
  unfold create_screenshot_tank_list. rewrite !(get_font_same fonts1 fonts2 same).
  reflexivity.
Qed.

Lemma analysis_same (width height : Z) :
  create_screenshot_analysis fonts1 width height
  = create_screenshot_analysis fonts2 width height.
Proof.
  unfold create_screenshot_analysis. rewrite !(get_font_same fonts1 fonts2 same).
  reflexivity.
Qed.

Lemma measurement_same (width height : Z) :
  create_screenshot_measurement fonts1 width height
  = create_screenshot_measurement fonts2 width height.
Proof.
  unfold create_screenshot_measurement. rewrite !(get_font_same fonts1 fonts2 same).
  reflexivity.
Qed.

Lemma chart_same (width height : Z) :
  create_screenshot_chart fonts1 width height
  = create_screenshot_chart fonts2 width height.
Proof.
  unfold create_screenshot_chart. rewrite !(get_font_same fonts1 fonts2 same).
  reflexivity.
Qed.

End SameFonts.

(** X14 — Of the fonts of the machine a rendering depends on five things
    only: two font environments that agree on the built-in default font and
    on the four paths [get_font] tries give, for every view identifier and
    every size, the same result, the same picture or the same exception, and
    the same icon. *)
Theorem rendering_depends_on_fonts_only
    (fonts1 fonts2 : FontEnv) (view_key : string) (width height : Z) :
  same_fonts fonts1 fonts2 ->
  render_view fonts1 view_key width height = render_view fonts2 view_key width height
  /\ create_app_icon fonts1 = create_app_icon fonts2.
Proof.
  intros Hsame. split; [ | exact (app_icon_same fonts1 fonts2 Hsame)].
  unfold render_view, screenshot_views. cbn [List.find fst snd].
  destruct (String.eqb "tank-list" view_key);
    [exact (tank_list_same fonts1 fonts2 Hsame width height) | ].
  destruct (String.eqb "analysis" view_key);
    [exact (analysis_same fonts1 fonts2 Hsame width height) | ].
  destruct (String.eqb "measurement" view_key);
    [exact (measurement_same fonts1 fonts2 Hsame width height) | ].
  destruct (String.eqb "chart" view_key);
    [exact (chart_same fonts1 fonts2 Hsame width height) | reflexivity].
Qed.

(** *** What [main] saves *)

Lemma size_of_device_table (device : string) (width height : Z) :
  (device, (width, height)) ∈ SCREENSHOT_SIZES ->
  size_of_device device = Ok (width, height).
Proof. intros H. each_device H; vm_compute; reflexivity. Qed.

Ltac run_view :=
  match goal with
  | |- context [create_screenshot_tank_list ?f ?w ?h] =>
      let ops := fresh "ops" in
      let H := fresh "Hrun" in
      destruct (tank_list_run f w h ltac:(unfold canvas_size_ok; simpl; lia)) as [ops H];
      rewrite H; clear H
  | |- context [create_screenshot_analysis ?f ?w ?h] =>
      let ops := fresh "ops" in
      let H := fresh "Hrun" in
      destruct (analysis_run f w h ltac:(unfold canvas_size_ok; simpl; lia)) as [ops H];
      rewrite H; clear H
  | |- context [create_screenshot_measurement ?f ?w ?h] =>
      let ops := fresh "ops" in
      let H := fresh "Hrun" in
      destruct (measurement_run f w h ltac:(unfold canvas_size_ok; simpl; lia)) as [ops H];
      rewrite H; clear H
  | |- context [create_screenshot_chart ?f ?w ?h] =>
      let ops := fresh "ops" in
      let H := fresh "Hrun" in
      destruct (chart_run f w h ltac:(unfold canvas_size_ok; simpl; lia)) as [ops H];
      rewrite H; clear H
  end.

(** *** The properties at sample inputs *)

Lemma header_band_height_per_view_witness :
  canvas_size_ok (1290, 2796)
  /\ "tank-list" ∈ view_keys
  /\ "chart" ∈ view_keys
  /\ (exists img, render_view mac_fonts "tank-list" 1290 2796 = Ok img
                  /\ band_height (header_band "tank-list" img) = Some 335)
  /\ (exists img, render_view mac_fonts "chart" 1290 2796 = Ok img
                  /\ band_height (header_band "chart" img) = Some 279).
Proof.
  assert (H1 : canvas_size_ok (1290, 2796)) by (unfold canvas_size_ok; simpl; lia).
  assert (H2 : "tank-list" ∈ view_keys) by (unfold view_keys; left).
  assert (H3 : "chart" ∈ view_keys) by (unfold view_keys; do 3 right; left).
  split; [exact H1 | split; [exact H2 | split; [exact H3 | split]]].
  - destruct (header_band_height_per_view mac_fonts "tank-list" 1290 2796 H1 H2)
      as (img & Hrun & _ & Hheight & _).
    exists img. split; [exact Hrun | ]. rewrite Hheight. vm_compute. reflexivity.
  - destruct (header_band_height_per_view mac_fonts "chart" 1290 2796 H1 H3)
      as (img & Hrun & _ & Hheight & _).
    exists img. split; [exact Hrun | ]. rewrite Hheight. vm_compute. reflexivity.
Defined.

Lemma view_has_requested_size_witness :
  ("ipad_11", (1668, 2388)) ∈ SCREENSHOT_SIZES
  /\ "measurement" ∈ view_keys
  /\ exists img, render_view bare_fonts "measurement" 1668 2388 = Ok img
                 /\ size img = (1668, 2388).
Proof.
  assert (H1 : ("ipad_11", (1668, 2388)) ∈ SCREENSHOT_SIZES)
    by (unfold SCREENSHOT_SIZES; do 4 right; left).
  assert (H2 : "measurement" ∈ view_keys) by (unfold view_keys; do 2 right; left).
  split; [exact H1 | split; [exact H2 | ]].
  exact (view_has_requested_size bare_fonts "ipad_11" "measurement" 1668 2388 H1 H2).
Defined.

Lemma rendering_depends_on_fonts_only_witness :
  same_fonts bare_fonts bare_fonts'
  /\ truetype bare_fonts "/usr/share/fonts/DejaVuSans.ttf" 12
     <> truetype bare_fonts' "/usr/share/fonts/DejaVuSans.ttf" 12
  /\ render_view bare_fonts "chart" 1290 2796 = render_view bare_fonts' "chart" 1290 2796.
Proof.
  assert (H1 : same_fonts bare_fonts bare_fonts').
  { split; [reflexivity | ]. intros [ | ] size; split; reflexivity. }
  split; [exact H1 | split; [vm_compute; discriminate | ]].
  exact (proj1 (rendering_depends_on_fonts_only bare_fonts bare_fonts' "chart" 1290 2796 H1)).
Defined.

Lemma get_font_falls_back_silently_witness :
  truetype mac_fonts (font_paths true).1 103 = Raise (PyExc "OSError")
  /\ truetype mac_fonts (font_paths true).2 103 = Ok (arial_bold 103)
  /\ get_font mac_fonts 103 true = Ok (arial_bold 103)
  /\ get_font mac_fonts 0 true = Ok builtin_font
  /\ get_font mac_fonts 45 false = Ok builtin_font.
Proof.
  assert (H1 : truetype mac_fonts (font_paths true).1 103 = Raise (PyExc "OSError"))
    by reflexivity.
  assert (H2 : truetype mac_fonts (font_paths true).2 103 = Ok (arial_bold 103))
    by reflexivity.
  split; [exact H1 | split; [exact H2 | split; [ | split]]].
  - exact (proj1 (proj2 (proj2 (get_font_falls_back_silently mac_fonts 103 true)))
             _ _ H1 H2).
  - exact (proj2 (proj2 (proj2 (get_font_falls_back_silently mac_fonts 0 true)))
             (PyExc "OSError") (PyExc "ValueError") eq_refl eq_refl).
  - exact (proj2 (proj2 (proj2 (get_font_falls_back_silently mac_fonts 45 false)))
             (PyExc "OSError") (PyExc "OSError") eq_refl eq_refl).
Defined.

(** * Further properties of the asset generator *)

(** *** Scripts *)
Section Scripts.
Context (host : Host).

Lemma perform_app (calls1 calls2 : list io_call) (log : list io_call) :
  perform host (calls1 ++ calls2) log =
    match perform host calls1 log with
    | (Ok _, log') => perform host calls2 log'
    | (Raise e, log') => (Raise e, log')
    end.
Proof.
  revert log. induction calls1 as [ | c calls1 IH]; intros log; [reflexivity | ].
  cbn [perform app]. unfold mbind, Script_bind, request.
  destruct (host log c); [reflexivity | apply IH].
Qed.

(** A run of [perform] logs the calls up to the first one refused, and
    raises what that one raised. *)
Lemma perform_run (calls : list io_call) (log : list io_call) :
  match perform host calls log with
  | (Ok _, log') =>
      log' = log ++ calls
      /\ forall pre c post, calls = pre ++ c :: post -> host (log ++ pre) c = None
  | (Raise e, log') =>
      exists pre c post,
        calls = pre ++ c :: post /\ log' = (log ++ pre) ++ [c] /\ host (log ++ pre) c = Some e
  end.
Proof.
  revert log. induction calls as [ | c calls IH]; intros log.
  - cbn. split; [rewrite app_nil_r; reflexivity | ].
    intros pre c post Heq. destruct pre; discriminate Heq.
  - cbn [perform]. unfold mbind, Script_bind, request.
    destruct (host log c) as [e | ] eqn:Hc.
    + exists [], c, calls. rewrite app_nil_r. auto.
    + specialize (IH (log ++ [c])).
      destruct (perform host calls (log ++ [c])) as [[[] | e] log'].
      * destruct IH as [-> Hnone]. split; [rewrite <- app_assoc; reflexivity | ].
        intros pre c' post Heq. destruct pre as [ | c0 pre]; cbn [app] in Heq.
        -- injection Heq as Hcc Hpost. subst c'. rewrite app_nil_r. exact Hc.
        -- injection Heq as Hcc Hpost. subst c0.
           pose proof (Hnone pre c' post Hpost) as Hn.
           rewrite <- app_assoc in Hn. exact Hn.
      * destruct IH as (pre & c' & post & Hcalls & Hlog & Hrefused).
        exists (c :: pre), c', post. subst calls log'.
        rewrite <- !app_assoc in *. cbn [app] in *. auto.
Qed.

Lemma scripted_ret {A} (a : A) : scripted host (mret a) a [].
Proof. intros log. reflexivity. Qed.

Lemma scripted_call {A} (a : A) : scripted host (call (Ok a)) a [].
Proof. intros log. reflexivity. Qed.

Lemma scripted_request (c : io_call) : scripted host (request host c) tt [c].
Proof.
  intros log. cbn [perform]. unfold mbind, Script_bind, request, mret, Script_ret.
  destruct (host log c); reflexivity.
Qed.

Lemma scripted_bind {A B} (m : Script A) (k : A -> Script B) a calls1 b calls2 :
  scripted host m a calls1 -> scripted host (k a) b calls2 ->
  scripted host (m ≫= k) b (calls1 ++ calls2).
Proof.
  intros Hm Hk log. unfold mbind at 1, Script_bind at 1. rewrite Hm.
  unfold mbind, Script_bind. rewrite perform_app.
  destruct (perform host calls1 log) as [[[] | e] log']; [ | reflexivity].
  cbn. rewrite Hk. reflexivity.
Qed.

Lemma scripted_for_in {A} (xs : list A) (body : A -> Script unit)
    (calls : A -> list io_call) :
  (forall x, x ∈ xs -> scripted host (body x) tt (calls x)) ->
  scripted host (for_in xs body) tt (concat (map calls xs)).
Proof.
  induction xs as [ | x xs IH]; intros Hbody; cbn [for_in map concat].
  - apply scripted_ret.
  - apply (scripted_bind _ _ tt _ tt); [apply Hbody; left | ].
    apply IH. intros y Hy. apply Hbody. right. exact Hy.
Qed.

(** What a straight line of calls does, started on an empty log. *)
Lemma scripted_run {A} (m : Script A) (a : A) (calls : list io_call) :
  scripted host m a calls ->
  exists r log,
    m [] = (r, log)
    /\ log `prefix_of` calls
    /\ (r = Ok a <-> forall pre c post, log = pre ++ c :: post -> host pre c = None)
    /\ (r = Ok a -> log = calls)
    /\ (forall e, r = Raise e -> exists pre c, log = pre ++ [c] /\ host pre c = Some e).
Proof.
  intros Hm. rewrite (Hm []). unfold mbind, Script_bind.
  pose proof (perform_run calls []) as Hrun.
  destruct (perform host calls []) as [[[] | e] log'].
  - destruct Hrun as [-> Hnone]. cbn [app] in *. cbn.
    eexists _, _. split; [reflexivity | ]. split; [reflexivity | ].
    split; [ | split; [reflexivity | discriminate]].
    split; [intros _; exact Hnone | reflexivity].
  - destruct Hrun as (pre & c & post & -> & -> & Hrefused). cbn [app] in *.
    eexists _, _. split; [reflexivity | ].
    split; [exists post; rewrite <- app_assoc; reflexivity | ].
    split; [ | split; [discriminate | ]].
    + split; [discriminate | ]. intros Hnone.
      rewrite (Hnone pre c [] eq_refl) in Hrefused. discriminate.
    + intros e' [= <-]. eauto.
Qed.

End Scripts.

Lemma disk_calls_app (log1 log2 : list io_call) :
  disk_calls (log1 ++ log2) = disk_calls log1 ++ disk_calls log2.
Proof. apply omap_app. Qed.

Lemma disk_calls_prefix (log calls : list io_call) :
  log `prefix_of` calls -> disk_calls log `prefix_of` disk_calls calls.
Proof. intros [rest ->]. exists (disk_calls rest). apply disk_calls_app. Qed.

(** *** What [main] does *)

Ltac scripted_step :=
  lazymatch goal with
  | |- scripted _ (mbind _ (call (size_of_device ?d))) _ _ =>
      let r := eval vm_compute in (size_of_device d) in
      change (size_of_device d) with r
  | |- scripted _ (mbind _ (call (Ok _))) _ _ =>
      eapply scripted_bind; [apply scripted_call | cbv beta iota zeta]
  | |- scripted _ (mbind _ (call ?v)) _ _ =>
      match goal with H : v = Ok _ |- _ => rewrite H end
  | |- scripted _ (mbind _ _) _ _ => eapply scripted_bind; [ | cbv beta ]
  | |- scripted _ (mret _) _ _ => apply scripted_ret
  | |- scripted _ (Path_mkdir _ _ _) _ _ => apply scripted_request
  | |- scripted _ (Image_save _ _ _) _ _ => apply scripted_request
  | |- scripted _ (print _ _) _ _ => apply scripted_request
  end.

(** [main] is a straight line of calls, and these are the directories it
    makes and the pictures it saves on the way. *)
Lemma main_scripted (fonts : FontEnv) (host : Host) :
  exists calls,
    scripted host (Assets.main fonts host) tt calls
    /\ disk_calls calls =
       [ Mkdir "assets/upload-store" true;
         Saved "assets/upload-store/AppIcon-1024.png" (1024, 1024);
         Mkdir "assets/upload-store/iphone_67" false;
         Saved "assets/upload-store/iphone_67/iphone_67_tank-list.png" (1290, 2796);
         Saved "assets/upload-store/iphone_67/iphone_67_analysis.png" (1290, 2796);
         Saved "assets/upload-store/iphone_67/iphone_67_measurement.png" (1290, 2796);
         Saved "assets/upload-store/iphone_67/iphone_67_chart.png" (1290, 2796);
         Mkdir "assets/upload-store/iphone_65" false;
         Saved "assets/upload-store/iphone_65/iphone_65_tank-list.png" (1242, 2688);
         Saved "assets/upload-store/iphone_65/iphone_65_analysis.png" (1242, 2688);
         Saved "assets/upload-store/iphone_65/iphone_65_measurement.png" (1242, 2688);
         Saved "assets/upload-store/iphone_65/iphone_65_chart.png" (1242, 2688);
         Mkdir "assets/upload-store/iphone_55" false;
         Saved "assets/upload-store/iphone_55/iphone_55_tank-list.png" (1242, 2208);
         Saved "assets/upload-store/iphone_55/iphone_55_analysis.png" (1242, 2208);
         Saved "assets/upload-store/iphone_55/iphone_55_measurement.png" (1242, 2208);
         Saved "assets/upload-store/iphone_55/iphone_55_chart.png" (1242, 2208);
         Mkdir "assets/upload-store/ipad_129" false;
         Saved "assets/upload-store/ipad_129/ipad_129_tank-list.png" (2048, 2732);
         Saved "assets/upload-store/ipad_129/ipad_129_analysis.png" (2048, 2732);
         Saved "assets/upload-store/ipad_129/ipad_129_measurement.png" (2048, 2732);
         Saved "assets/upload-store/ipad_129/ipad_129_chart.png" (2048, 2732);
         Mkdir "assets/upload-store/ipad_11" false;
         Saved "assets/upload-store/ipad_11/ipad_11_tank-list.png" (1668, 2388);
         Saved "assets/upload-store/ipad_11/ipad_11_analysis.png" (1668, 2388);
         Saved "assets/upload-store/ipad_11/ipad_11_measurement.png" (1668, 2388);
         Saved "assets/upload-store/ipad_11/ipad_11_chart.png" (1668, 2388) ].
Proof.
  assert (Hviews : forall device width height,
             (device, (width, height)) ∈ SCREENSHOT_SIZES ->
             (exists ops, create_screenshot_tank_list fonts width height
                          = Ok (mkImage "RGB" (width, height) (COLORS white) ops))
             /\ (exists ops, create_screenshot_analysis fonts width height
                             = Ok (mkImage "RGB" (width, height) (COLORS white) ops))
             /\ (exists ops, create_screenshot_measurement fonts width height
                             = Ok (mkImage "RGB" (width, height) (COLORS white) ops))
             /\ (exists ops, create_screenshot_chart fonts width height
                             = Ok (mkImage "RGB" (width, height) (COLORS white) ops))).
  { intros device width height Hdevice.
    assert (Hsize : canvas_size_ok (width, height))
      by (each_device Hdevice; unfold canvas_size_ok; cbn; lia).
    destruct (tank_list_run fonts width height Hsize) as [ops1 H1].
    destruct (analysis_run fonts width height Hsize) as [ops2 H2].
    destruct (measurement_run fonts width height Hsize) as [ops3 H3].
    destruct (chart_run fonts width height Hsize) as [ops4 H4].
    eauto 10. }
  destruct (app_icon_run fonts) as [ops0 Hicon].
  destruct (Hviews "iphone_67" 1290 2796 ltac:(unfold SCREENSHOT_SIZES; repeat constructor))
    as ([? ?] & [? ?] & [? ?] & [? ?]).
  destruct (Hviews "iphone_65" 1242 2688 ltac:(unfold SCREENSHOT_SIZES; repeat constructor))
    as ([? ?] & [? ?] & [? ?] & [? ?]).
  destruct (Hviews "iphone_55" 1242 2208 ltac:(unfold SCREENSHOT_SIZES; repeat constructor))
    as ([? ?] & [? ?] & [? ?] & [? ?]).
  destruct (Hviews "ipad_129" 2048 2732 ltac:(unfold SCREENSHOT_SIZES; repeat constructor))
    as ([? ?] & [? ?] & [? ?] & [? ?]).
  destruct (Hviews "ipad_11" 1668 2388 ltac:(unfold SCREENSHOT_SIZES; repeat constructor))
    as ([? ?] & [? ?] & [? ?] & [? ?]).
  clear Hviews. unfold Assets.main.
  cbn [for_in screenshot_configs screenshot_views].
  eexists. split.
  - repeat scripted_step.
  - vm_compute. reflexivity.
Qed.

(** X10 — Under every font environment and whatever the host answers,
    [main] makes the six directories and saves the twenty-one pictures below
    in this order and at these sizes, each picture after the directory it
    goes to: the icon, then for each device of the table its four views
    under the device's directory. It returns exactly when the host refuses
    none of its calls, and has then made all of them; otherwise the first
    refused call is the last one it makes, and its exception leaves [main]
    uncaught. *)
Theorem main_saves_these_files (fonts : FontEnv) (host : Host) :
  let plan :=
      [ Mkdir "assets/upload-store" true;
        Saved "assets/upload-store/AppIcon-1024.png" (1024, 1024);
        Mkdir "assets/upload-store/iphone_67" false;
        Saved "assets/upload-store/iphone_67/iphone_67_tank-list.png" (1290, 2796);
        Saved "assets/upload-store/iphone_67/iphone_67_analysis.png" (1290, 2796);
        Saved "assets/upload-store/iphone_67/iphone_67_measurement.png" (1290, 2796);
        Saved "assets/upload-store/iphone_67/iphone_67_chart.png" (1290, 2796);
        Mkdir "assets/upload-store/iphone_65" false;
        Saved "assets/upload-store/iphone_65/iphone_65_tank-list.png" (1242, 2688);
        Saved "assets/upload-store/iphone_65/iphone_65_analysis.png" (1242, 2688);
        Saved "assets/upload-store/iphone_65/iphone_65_measurement.png" (1242, 2688);
        Saved "assets/upload-store/iphone_65/iphone_65_chart.png" (1242, 2688);
        Mkdir "assets/upload-store/iphone_55" false;
        Saved "assets/upload-store/iphone_55/iphone_55_tank-list.png" (1242, 2208);
        Saved "assets/upload-store/iphone_55/iphone_55_analysis.png" (1242, 2208);
        Saved "assets/upload-store/iphone_55/iphone_55_measurement.png" (1242, 2208);
        Saved "assets/upload-store/iphone_55/iphone_55_chart.png" (1242, 2208);
        Mkdir "assets/upload-store/ipad_129" false;
        Saved "assets/upload-store/ipad_129/ipad_129_tank-list.png" (2048, 2732);
        Saved "assets/upload-store/ipad_129/ipad_129_analysis.png" (2048, 2732);
        Saved "assets/upload-store/ipad_129/ipad_129_measurement.png" (2048, 2732);
        Saved "assets/upload-store/ipad_129/ipad_129_chart.png" (2048, 2732);
        Mkdir "assets/upload-store/ipad_11" false;
        Saved "assets/upload-store/ipad_11/ipad_11_tank-list.png" (1668, 2388);
        Saved "assets/upload-store/ipad_11/ipad_11_analysis.png" (1668, 2388);
        Saved "assets/upload-store/ipad_11/ipad_11_measurement.png" (1668, 2388);
        Saved "assets/upload-store/ipad_11/ipad_11_chart.png" (1668, 2388) ] in
  exists r log,
    Assets.main fonts host [] = (r, log)
    /\ disk_calls log `prefix_of` plan
    /\ (r = Ok tt -> disk_calls log = plan)
    /\ (r = Ok tt <-> forall pre c post, log = pre ++ c :: post -> host pre c = None)
    /\ (forall e, r = Raise e -> exists pre c, log = pre ++ [c] /\ host pre c = Some e).
Proof.
  intros plan.
  destruct (main_scripted fonts host) as (calls & Hmain & Hcalls).
  destruct (scripted_run host _ tt calls Hmain)
    as (r & log & Hrun & Hprefix & Hiff & Hdone & Hraise).
  exists r, log. split; [exact Hrun | ].
  split; [unfold plan; rewrite <- Hcalls; apply disk_calls_prefix, Hprefix | ].
  split; [intros Hr; rewrite (Hdone Hr); exact Hcalls | ].
  split; [exact Hiff | exact Hraise].
Qed.

Lemma main_saves_these_files_witness :
  exists log,
    Assets.main bare_fonts quiet_host [] = (Ok tt, log)
    /\ length (disk_calls log) = 27%nat
    /\ disk_calls log !! 9%nat
       = Some (Saved "assets/upload-store/iphone_65/iphone_65_analysis.png" (1242, 2688)).
Proof.
  destruct (main_saves_these_files bare_fonts quiet_host)
    as (r & log & Hrun & _ & Hdone & Hiff & _).
  assert (Hr : r = Ok tt) by (apply Hiff; intros; reflexivity).
  exists log. rewrite Hrun, Hr, (Hdone Hr). repeat split.
Defined.

(** When the disk fills up on the seventh picture, [main] stops there with
    the exception of [save]: six pictures are on disk, none of the later
    ones is attempted. *)
Example full_disk_stops_main :
  exists log,
    Assets.main bare_fonts full_disk_host [] = (Raise (PyExc "OSError"), log)
    /\ disk_calls log =
       [ Mkdir "assets/upload-store" true;
         Saved "assets/upload-store/AppIcon-1024.png" (1024, 1024);
         Mkdir "assets/upload-store/iphone_67" false;
         Saved "assets/upload-store/iphone_67/iphone_67_tank-list.png" (1290, 2796);
         Saved "assets/upload-store/iphone_67/iphone_67_analysis.png" (1290, 2796);
         Saved "assets/upload-store/iphone_67/iphone_67_measurement.png" (1290, 2796);
         Saved "assets/upload-store/iphone_67/iphone_67_chart.png" (1290, 2796);
         Mkdir "assets/upload-store/iphone_65" false;
         Saved "assets/upload-store/iphone_65/iphone_65_tank-list.png" (1242, 2688);
         Saved "assets/upload-store/iphone_65/iphone_65_analysis.png" (1242, 2688) ].
Proof. eexists. split; vm_compute; reflexivity. Qed.

(** *** Borders *)

(** X11 — [draw_border] paints four rectangles of the given colour and
    nothing else. When the border is not wider than the box, the pixels they
    fill are exactly the pixels of the box that lie within [width] of one of
    its edges: the border never leaves the box, it closes around it, and it is
    [width + 1] pixels thick. *)
Theorem draw_border_fills_the_frame
    (x1 y1 x2 y2 width : Z) (color : rgb) (img : Image) :
  0 <= width -> width <= x2 - x1 -> width <= y2 - y1 ->
  exists ops,
    draw_border (x1, y1, x2, y2) width color img = (Ok tt, extend img ops)
    /\ length ops = 4%nat
    /\ (forall op, op ∈ ops -> exists xy, op = Rectangle xy color)
    /\ forall x y,
         filled ops x y = true <->
         (x1 <= x <= x2 /\ y1 <= y <= y2
          /\ (y <= y1 + width \/ y2 - width <= y \/ x <= x1 + width \/ x2 - width <= x)).
Proof.
  intros Hw Hx Hy. eexists. split; [apply draw_border_emits; lia | ].
  split; [reflexivity | ]. split.
  - intros op Hop. repeat (apply elem_of_cons in Hop as [-> | Hop]; [eexists; reflexivity | ]).
    apply elem_of_nil in Hop. destruct Hop.
  - intros x y. unfold filled. cbn [existsb covers].
    rewrite !orb_true_iff, !andb_true_iff, !Z.leb_le. lia.
Qed.

Lemma draw_border_fills_the_frame_witness :
  0 <= 3 /\ 3 <= 100 - 10 /\ 3 <= 60 - 20
  /\ exists ops,
       draw_border (10, 20, 100, 60) 3 (COLORS black)
         (mkImage "RGB" (200, 200) (COLORS white) [])
         = (Ok tt, extend (mkImage "RGB" (200, 200) (COLORS white) []) ops)
       /\ filled ops 10 23 = true
       /\ filled ops 14 24 = false
       /\ filled ops 101 20 = false.
Proof.
  assert (H1 : 0 <= 3) by lia.
  assert (H2 : 3 <= 100 - 10) by lia.
  assert (H3 : 3 <= 60 - 20) by lia.
  split; [exact H1 | split; [exact H2 | split; [exact H3 | ]]].
  destruct (draw_border_fills_the_frame 10 20 100 60 3 (COLORS black)
              (mkImage "RGB" (200, 200) (COLORS white) []) H1 H2 H3)
    as (ops & Hrun & _ & _ & Hfill).
  exists ops. split; [exact Hrun | ]. split; [ | split].
  - apply Hfill. lia.
  - destruct (filled ops 14 24) eqn:Hf; [ | reflexivity]. apply Hfill in Hf. lia.
  - destruct (filled ops 101 20) eqn:Hf; [ | reflexivity]. apply Hfill in Hf. lia.
Defined.

(** *** The icon *)

(** X12 — Under every font environment the icon is a 1024x1024 aquamarine
    canvas with a black border 30 units wide on its four sides, then the
    monogram "RB" in black, then the same monogram in white, both in the bold
    font of size 460 the fallback chain gives. The white monogram is anchored
    at the point that halves what the canvas has left over the width and the
    height of the measured text box, the black one 20 units right of it and
    20 units below. *)
Theorem app_icon_layout (fonts : FontEnv) :
  exists l t r b x y,
    font_bbox (font_chain fonts 460 true) "RB" = (l, t, r, b)
    /\ x = (1024 - (r - l)) / 2
    /\ y = (1024 - (b - t)) / 2
    /\ create_app_icon fonts =
         Ok (mkImage "RGB" (1024, 1024) (COLORS aquamarine)
               [ Rectangle (0, 0, 1024, 30) (COLORS black);
                 Rectangle (0, 994, 1024, 1024) (COLORS black);
                 Rectangle (0, 0, 30, 1024) (COLORS black);
                 Rectangle (994, 0, 1024, 1024) (COLORS black);
                 Text (x + 20, y + 20) "RB" (font_chain fonts 460 true) (COLORS black);
                 Text (x, y) "RB" (font_chain fonts 460 true) (COLORS white) ]).
Proof.
  destruct (font_bbox (font_chain fonts 460 true) "RB") as [[[l t] r] b] eqn:Hbox.
  exists l, t, r, b, ((1024 - (r - l)) / 2), ((1024 - (b - t)) / 2).
  split; [reflexivity | ]. split; [reflexivity | ]. split; [reflexivity | ].
  unfold create_app_icon.
  assert (Hsize : int (1024%Z * 0.45) = 460) by (vm_compute; reflexivity).
  assert (Hborder : int (1024%Z * 0.03) = 30) by (vm_compute; reflexivity).
  assert (Hshadow : int (1024%Z * 0.02) = 20) by (vm_compute; reflexivity).
  rewrite Hsize, Hborder, Hshadow, get_font_chain.
  unfold render. rewrite Image_new_ok by (unfold canvas_size_ok; cbn; lia).
  unfold mbind, Draw_bind.
  rewrite (draw_border_emits 0 0 1024 1024 30 (COLORS black)) by lia.
  unfold lift, draw_textbbox, mret, Draw_ret. cbv beta iota zeta. rewrite Hbox.
  unfold draw_text_with_shadow, draw_text, paint, extend, mbind, Draw_bind.
  cbn [mode size background painted app fst snd]. reflexivity.
Qed.

(** *** The line of the chart *)

Lemma getitem_lookup {A} (xs : list A) (k : nat) (x : A) :
  xs !! k = Some x -> getitem xs (Z.of_nat k) = Ok x.
Proof.
  intros Hx. unfold getitem. cbv zeta.
  destruct (Z.ltb_spec (Z.of_nat k) 0) as [Hneg | _]; [lia | ].
  destruct (Z.ltb_spec (Z.of_nat k) 0) as [Hneg | _]; [lia | ].
  rewrite Nat2Z.id, Hx. reflexivity.
Qed.

Lemma emits_lift_Ok {A} (a : A) : emits (lift (Ok a)) a [].
Proof.
  intros [m sz bg ops]. unfold extend, lift. cbn. rewrite app_nil_r. reflexivity.
Qed.

Section Polyline.
Context (pts : list (Z * Z)) (fill : rgb) (width : Z).

(** The loop over [range(len(line_points) - 1)], from index [k] on. *)
Lemma polyline_loop_from (n k : nat) :
  (n = 0 \/ k + n < length pts)%nat ->
  emits (for_each (seqZ (Z.of_nat k) (Z.of_nat n))
           (fun i => p ← lift (getitem pts i);
                     q ← lift (getitem pts (i + 1));
                     draw_line [p; q] fill width))
        tt
        (zip_with (fun p q => Line [p; q] fill width)
                  (take n (drop k pts)) (take n (drop (S k) pts))).
Proof.
  revert k. induction n as [ | n IH]; intros k Hk.
  - rewrite seqZ_nil by lia. cbn [for_each take zip_with]. apply emits_ret.
  - destruct Hk as [Hk | Hk]; [discriminate | ].
    rewrite seqZ_cons by lia.
    replace (Z.succ (Z.of_nat k)) with (Z.of_nat (S k)) by lia.
    replace (Z.pred (Z.of_nat (S n))) with (Z.of_nat n) by lia.
    cbn [for_each].
    destruct (lookup_lt_is_Some_2 pts k) as [p Hp]; [lia | ].
    destruct (lookup_lt_is_Some_2 pts (S k)) as [q Hq]; [lia | ].
    rewrite (drop_S pts p k Hp), (drop_S pts q (S k) Hq). cbn [take zip_with].
    rewrite <- (drop_S pts q (S k) Hq).
    apply (emits_bind _ _ tt [Line [p; q] fill width] tt).
    + rewrite (getitem_lookup pts k p Hp).
      replace (Z.of_nat k + 1) with (Z.of_nat (S k)) by lia.
      rewrite (getitem_lookup pts (S k) q Hq).
      apply (emits_bind _ _ p [] tt [_] (emits_lift_Ok p)).
      apply (emits_bind _ _ q [] tt [_] (emits_lift_Ok q)).
      apply emits_paint.
    + apply IH. right. lia.
Qed.

(** The loop as the chart view has it: for any list of points, the empty
    one included, it never indexes out of range and draws the segments that
    join consecutive points. *)
Lemma polyline_loop :
  emits (for_each (range (Z.of_nat (length pts) - 1))
           (fun i => p ← lift (getitem pts i);
                     q ← lift (getitem pts (i + 1));
                     draw_line [p; q] fill width))
        tt (segments pts fill width).
Proof.
  unfold range, segments.
  destruct (length pts) as [ | m] eqn:Hlen.
  - apply length_zero_iff_nil in Hlen. rewrite Hlen.
    rewrite seqZ_nil by lia. cbn [for_each zip_with]. apply emits_ret.
  - replace (Z.of_nat (S m) - 1) with (Z.of_nat m) by lia.
    rewrite <- (zip_with_take_both' _ m m pts (drop 1 pts))
      by (rewrite length_drop; lia).
    apply (polyline_loop_from m 0). right. lia.
Qed.

End Polyline.

(** *** Programs that paint no line *)

Lemma paints_only_ret (P : draw_op -> Prop) {A} (a : A) : paints_only P (mret a).
Proof. exists a, []. split; [apply emits_ret | constructor]. Qed.

Lemma paints_only_bind (P : draw_op -> Prop) {A B} (m : Draw A) (k : A -> Draw B) :
  paints_only P m -> (forall a, paints_only P (k a)) -> paints_only P (m ≫= k).
Proof.
  intros (a & ops1 & Hm & H1) Hk. destruct (Hk a) as (b & ops2 & Hb & H2).
  exists b, (ops1 ++ ops2). split; [eapply emits_bind; eassumption | ].
  apply Forall_app. auto.
Qed.

Lemma paints_only_paint (P : draw_op -> Prop) (op : draw_op) :
  P op -> paints_only P (paint op).
Proof. intros Hop. exists tt, [op]. split; [apply emits_paint | ]. repeat constructor. exact Hop. Qed.

Lemma paints_only_get_font (P : draw_op -> Prop) (fonts : FontEnv) (size : Z) (bold : bool) :
  paints_only P (lift (get_font fonts size bold)).
Proof.
  rewrite get_font_chain. eexists _, []. split; [apply emits_lift_Ok | constructor].
Qed.

Lemma paints_only_for_each (P : draw_op -> Prop) {A} (xs : list A) (body : A -> Draw unit) :
  (forall x, paints_only P (body x)) -> paints_only P (for_each xs body).
Proof.
  intros Hbody. induction xs as [ | x xs IH]; cbn [for_each].
  - apply paints_only_ret.
  - apply paints_only_bind; [apply Hbody | intros _; exact IH].
Qed.

Lemma paints_only_rectangle (P : draw_op -> Prop) (x0 y0 x1 y1 : Z) (fill : rgb) :
  x0 <= x1 -> y0 <= y1 -> P (Rectangle (x0, y0, x1, y1) fill) ->
  paints_only P (draw_rectangle (x0, y0, x1, y1) fill).
Proof.
  intros Hx Hy Hrect. exists tt, [Rectangle (x0, y0, x1, y1) fill].
  split; [apply emits_rectangle; assumption | ]. repeat constructor. exact Hrect.
Qed.

Lemma paints_only_draw_border (P : draw_op -> Prop) (x1 y1 x2 y2 width : Z)
    (color : rgb) :
  x1 <= x2 -> y1 <= y2 -> 0 <= width ->
  (forall xy, P (Rectangle xy color)) ->
  paints_only P (draw_border (x1, y1, x2, y2) width color).
Proof.
  intros Hx Hy Hw Hrect.
  eexists tt, _. split; [apply draw_border_emits; assumption | ].
  repeat constructor; apply Hrect.
Qed.

Ltac no_line_step :=
  lazymatch goal with
  | |- paints_only _ (mbind _ _) => apply paints_only_bind; [ | intros ? ]
  | |- paints_only _ (mret _) => apply paints_only_ret
  | |- paints_only _ (draw_rectangle _ _) =>
      apply paints_only_rectangle; [order | order | reflexivity]
  | |- paints_only _ (draw_text _ _ _ _) => apply paints_only_paint; reflexivity
  | |- paints_only _ (draw_border _ _ _) =>
      apply paints_only_draw_border; [order | order | order | intros ?; reflexivity]
  | |- paints_only _ (draw_textbbox _ _ _) => apply paints_only_ret
  | |- paints_only _ (lift (get_font _ _ _)) => apply paints_only_get_font
  | |- paints_only _ (for_each _ _) => apply paints_only_for_each; intros ?
  | |- paints_only _ (match ?x with _ => _ end) => destruct x
  | |- paints_only _ ((fun _ => _) _) => cbv beta
  end.

Lemma polyline_after_prefix (n : nat) (fill : rgb) (width : Z) {A B}
    (m : Draw A) (k : A -> Draw B) :
  paints_only (fun op => is_line op = false) m ->
  (forall a, draws_one_polyline n fill width (k a)) ->
  draws_one_polyline n fill width (m ≫= k).
Proof.
  intros (a & ops1 & Hm & H1) Hk.
  destruct (Hk a) as (b & before & pts & after & Hb & Hlen & Hbefore & Hafter).
  exists b, (ops1 ++ before), pts, after.
  split; [ | split; [exact Hlen | split; [apply Forall_app; auto | exact Hafter]]].
  rewrite <- app_assoc. eapply emits_bind; eassumption.
Qed.

Lemma polyline_then_suffix (fill : rgb) (width : Z) {B}
    (pts : list (Z * Z)) (m : Draw unit) (k : unit -> Draw B) :
  emits m tt (segments pts fill width) ->
  paints_only (fun op => is_line op = false) (k tt) ->
  draws_one_polyline (length pts) fill width (m ≫= k).
Proof.
  intros Hm (b & after & Hk & Hafter).
  exists b, [], pts, after.
  split; [ | split; [reflexivity | split; [constructor | exact Hafter]]].
  cbn [app]. eapply emits_bind; eassumption.
Qed.

(** X13 — On every canvas size [Image.new] accepts, the lines of the chart
    view are exactly the nine segments of one polyline through ten points,
    black and four units wide, each segment starting where the one before it
    ends; indexing the point list never goes out of range, and nothing else
    the view paints is a line. *)
Theorem chart_draws_one_polyline (fonts : FontEnv) (width height : Z) :
  canvas_size_ok (width, height) ->
  exists before pts after,
    create_screenshot_chart fonts width height =
      Ok (mkImage "RGB" (width, height) (COLORS white)
            (before ++ segments pts (COLORS black) 4 ++ after))
    /\ length pts = 10%nat
    /\ length (segments pts (COLORS black) 4) = 9%nat
    /\ (forall i p q, segments pts (COLORS black) 4 !! i = Some (Line [p; q] (COLORS black) 4)
                      -> pts !! i = Some p /\ pts !! S i = Some q)
    /\ Forall (fun op => is_line op = false) before
    /\ Forall (fun op => is_line op = false) after.
Proof.
  intros Hsize. pose proof Hsize as [Hw Hh]. cbn [fst snd] in Hw, Hh.
  assert (Hpoly : forall body : Draw unit,
             draws_one_polyline 10 (COLORS black) 4 body ->
             exists before pts after,
               render (width, height) (COLORS white) body =
                 Ok (mkImage "RGB" (width, height) (COLORS white)
                       (before ++ segments pts (COLORS black) 4 ++ after))
               /\ length pts = 10%nat
               /\ length (segments pts (COLORS black) 4) = 9%nat
               /\ (forall i p q,
                     segments pts (COLORS black) 4 !! i = Some (Line [p; q] (COLORS black) 4)
                     -> pts !! i = Some p /\ pts !! S i = Some q)
               /\ Forall (fun op => is_line op = false) before
               /\ Forall (fun op => is_line op = false) after).
  { intros body ([] & before & pts & after & Hbody & Hlen & Hbefore & Hafter).
    exists before, pts, after.
    split; [apply render_emits; assumption | ].
    split; [exact Hlen | ].
    split; [unfold segments; rewrite length_zip_with, length_drop, Hlen; reflexivity | ].
    split; [ | auto].
    intros i p q Hi. unfold segments in Hi.
    apply lookup_zip_with_Some in Hi as (p' & q' & [= -> ->] & Hp & Hq).
    rewrite lookup_drop in Hq. auto. }
  unfold create_screenshot_chart. apply Hpoly.
  repeat lazymatch goal with
    | |- draws_one_polyline _ _ _
           (mbind _ (for_each (range (Z.of_nat (length ?l) - 1)) _)) =>
        replace 10%nat with (length l) by (rewrite length_foldl_snoc; reflexivity);
        apply (polyline_then_suffix (COLORS black) 4 l); [apply polyline_loop | ]
    | |- draws_one_polyline _ _ _ (mbind _ _) =>
        apply polyline_after_prefix; [repeat no_line_step | intros ?]
    | |- draws_one_polyline _ _ _ (match ?x with _ => _ end) => destruct x
    | |- draws_one_polyline _ _ _ ((fun _ => _) _) => cbv beta
    end.
  repeat no_line_step.
Qed.

Lemma chart_draws_one_polyline_witness :
  canvas_size_ok (1290, 2796)
  /\ exists before pts after,
       create_screenshot_chart bare_fonts 1290 2796 =
         Ok (mkImage "RGB" (1290, 2796) (COLORS white)
               (before ++ segments pts (COLORS black) 4 ++ after))
       /\ length (segments pts (COLORS black) 4) = 9%nat.
Proof.
  assert (H : canvas_size_ok (1290, 2796)) by (unfold canvas_size_ok; simpl; lia).
  split; [exact H | ].
  destruct (chart_draws_one_polyline bare_fonts 1290 2796 H)
    as (before & pts & after & Hrun & _ & Hsegs & _).
  exists before, pts, after. split; [exact Hrun | exact Hsegs].
Defined.

End AssetsProps.
